(** * ExaEpi: agent kernels, disease progression and hospital model

    A shallow embedding of the per-agent kernels of ExaEpi
    (AgentDefinitions.H, DiseaseParm.H, DiseaseStatus.H, HospitalModel.H,
    the five InteractionMod*.H kernels and AgentContainer.cpp).

    Conventions of the embedding:
    - [Real] and [ParticleReal] are exact rationals ([Q]); rounding of the
      machine floating-point types is not modelled.
    - [int] attributes are unbounded integers ([Z]); wrap-around does not
      occur for the magnitudes the kernels handle.
    - a particle tile (structure of arrays) is a [list Agent]; the runtime
      per-disease columns of one agent are [rt d], for the disease index
      [d]; auxiliary arrays of length [np] are paired with the agents.
    - [amrex::Random] and [amrex::RandomGamma] read from a [RandomEngine]
      that carries its own sources; the distributions are not modelled.
    - [AMREX_ALWAYS_ASSERT] aborts the run: kernels that contain one return
      an [option]. *)

From Stdlib Require Import ZArith QArith Qround Qpower List Bool Lia Lqa.
Import ListNotations.

Local Open Scope Z_scope.

(** ** AgentDefinitions.H *)

Module Status.
Inductive t := never | infected | immune | susceptible | dead.

Definition eqb (a b : t) : bool :=
  match a, b with
  | never, never | infected, infected | immune, immune
  | susceptible, susceptible | dead, dead => true
  | _, _ => false
  end.

(** The enumerator value, used as an array index by getTotals. *)
Definition to_nat (s : t) : nat :=
  match s with
  | never => 0 | infected => 1 | immune => 2 | susceptible => 3 | dead => 4
  end%nat.
End Status.

Module SymptomStatus.
Inductive t := presymptomatic | symptomatic | asymptomatic.

Definition eqb (a b : t) : bool :=
  match a, b with
  | presymptomatic, presymptomatic | symptomatic, symptomatic
  | asymptomatic, asymptomatic => true
  | _, _ => false
  end.
End SymptomStatus.

Module AgeGroups.
Definition u5 := 0.
Definition a5to17 := 1.
Definition a18to29 := 2.
Definition a30to49 := 3.
Definition a50to64 := 4.
Definition o65 := 5.
Definition total := 6.
End AgeGroups.

Module AgeGroups_Hosp.
Definition u50 := 0.
Definition a50to64 := 1.
Definition o65 := 2.
Definition total := 3.
End AgeGroups_Hosp.

Module SchoolType.
Definition none := 0.
Definition college := 1.
Definition high := 2.
Definition middle := 3.
Definition elem := 4.
Definition daycare := 5.
Definition total := 6.
End SchoolType.

Module DiseaseStats.
Definition hospitalization := 0.
Definition ICU := 1.
Definition ventilator := 2.
Definition death := 3.
End DiseaseStats.

(** Strict comparison of reals as a boolean. *)
Definition Qltb (x y : Q) : bool := negb (Qle_bool y x).

(** Math::floor / std::floor, as a real. *)
Definition floorQ (x : Q) : Q := inject_Z (Qfloor x).

(** A C array of reals read at an [int] index. *)
Definition arr (l : list Q) (i : Z) : Q := nth (Z.to_nat i) l 0%Q.

Definition arr2 (l : list (list Q)) (i j : Z) : Q := arr (nth (Z.to_nat i) l []) j.

(** Disease-specific runtime attributes of one agent
    (IntIdxDisease and RealIdxDisease). *)
Record DiseaseAttribs := mkAttribs {
  status : Status.t;
  symptomatic : SymptomStatus.t;
  treatment_timer : Q;
  disease_counter : Q;
  prob : Q;
  latent_period : Q;
  infectious_period : Q;
  incubation_period : Q
}.

Definition set_status (s : Status.t) (r : DiseaseAttribs) :=
  mkAttribs s (symptomatic r) (treatment_timer r) (disease_counter r) (prob r)
            (latent_period r) (infectious_period r) (incubation_period r).
Definition set_symptomatic (s : SymptomStatus.t) (r : DiseaseAttribs) :=
  mkAttribs (status r) s (treatment_timer r) (disease_counter r) (prob r)
            (latent_period r) (infectious_period r) (incubation_period r).
Definition set_timer (x : Q) (r : DiseaseAttribs) :=
  mkAttribs (status r) (symptomatic r) x (disease_counter r) (prob r)
            (latent_period r) (infectious_period r) (incubation_period r).
Definition set_counter (x : Q) (r : DiseaseAttribs) :=
  mkAttribs (status r) (symptomatic r) (treatment_timer r) x (prob r)
            (latent_period r) (infectious_period r) (incubation_period r).
Definition set_prob (x : Q) (r : DiseaseAttribs) :=
  mkAttribs (status r) (symptomatic r) (treatment_timer r) (disease_counter r) x
            (latent_period r) (infectious_period r) (incubation_period r).
Definition set_latent (x : Q) (r : DiseaseAttribs) :=
  mkAttribs (status r) (symptomatic r) (treatment_timer r) (disease_counter r) (prob r)
            x (infectious_period r) (incubation_period r).
Definition set_infectious (x : Q) (r : DiseaseAttribs) :=
  mkAttribs (status r) (symptomatic r) (treatment_timer r) (disease_counter r) (prob r)
            (latent_period r) x (incubation_period r).
Definition set_incubation (x : Q) (r : DiseaseAttribs) :=
  mkAttribs (status r) (symptomatic r) (treatment_timer r) (disease_counter r) (prob r)
            (latent_period r) (infectious_period r) x.

(** Integer attributes (IntIdx), the particle position, and the runtime
    columns of every disease. *)
Record Agent := mkAgent {
  age_group : Z;
  family : Z;
  home_i : Z;
  home_j : Z;
  work_i : Z;
  work_j : Z;
  hosp_i : Z;
  hosp_j : Z;
  trav_i : Z;
  trav_j : Z;
  nborhood : Z;
  school_grade : Z;
  school_id : Z;
  school_closed : Z;
  naics : Z;
  workgroup : Z;
  work_nborhood : Z;
  withdrawn : Z;
  random_travel : Z;
  air_travel : Z;
  pos : Q * Q;
  rt : nat -> DiseaseAttribs
}.

Definition set_withdrawn (w : Z) (a : Agent) :=
  mkAgent (age_group a) (family a) (home_i a) (home_j a) (work_i a) (work_j a)
          (hosp_i a) (hosp_j a) (trav_i a) (trav_j a) (nborhood a) (school_grade a)
          (school_id a) (school_closed a) (naics a) (workgroup a) (work_nborhood a)
          w (random_travel a) (air_travel a) (pos a) (rt a).
Definition set_hosp (hi hj : Z) (a : Agent) :=
  mkAgent (age_group a) (family a) (home_i a) (home_j a) (work_i a) (work_j a)
          hi hj (trav_i a) (trav_j a) (nborhood a) (school_grade a)
          (school_id a) (school_closed a) (naics a) (workgroup a) (work_nborhood a)
          (withdrawn a) (random_travel a) (air_travel a) (pos a) (rt a).
Definition set_pos (p : Q * Q) (a : Agent) :=
  mkAgent (age_group a) (family a) (home_i a) (home_j a) (work_i a) (work_j a)
          (hosp_i a) (hosp_j a) (trav_i a) (trav_j a) (nborhood a) (school_grade a)
          (school_id a) (school_closed a) (naics a) (workgroup a) (work_nborhood a)
          (withdrawn a) (random_travel a) (air_travel a) p (rt a).
Definition set_rt (l : nat -> DiseaseAttribs) (a : Agent) :=
  mkAgent (age_group a) (family a) (home_i a) (home_j a) (work_i a) (work_j a)
          (hosp_i a) (hosp_j a) (trav_i a) (trav_j a) (nborhood a) (school_grade a)
          (school_id a) (school_closed a) (naics a) (workgroup a) (work_nborhood a)
          (withdrawn a) (random_travel a) (air_travel a) (pos a) l.

(** Column [d] of the runtime attributes of an agent, and its update. *)
Definition runtime (d : nat) (a : Agent) : DiseaseAttribs := rt a d.

Definition modify_runtime (d : nat) (f : DiseaseAttribs -> DiseaseAttribs) (a : Agent) : Agent :=
  set_rt (fun k => if Nat.eqb k d then f (rt a k) else rt a k) a.

Definition put_runtime (d : nat) (r : DiseaseAttribs) (a : Agent) : Agent :=
  modify_runtime d (fun _ => r) a.

Definition notInfectiousButInfected (d : nat) (a : Agent) : bool :=
  Status.eqb (status (runtime d a)) Status.infected
  && Qle_bool (disease_counter (runtime d a)) (latent_period (runtime d a)).

Definition isInfectious (d : nat) (a : Agent) : bool :=
  Status.eqb (status (runtime d a)) Status.infected
  && Qle_bool (latent_period (runtime d a)) (disease_counter (runtime d a)).

Definition isSusceptible (d : nat) (a : Agent) : bool :=
  negb (Status.eqb (status (runtime d a)) Status.immune)
  && negb (Status.eqb (status (runtime d a)) Status.dead)
  && negb (Status.eqb (status (runtime d a)) Status.infected).

Definition inHospital (a : Agent) : bool := (0 <=? hosp_i a) && (0 <=? hosp_j a).

Definition isAnAdult (a : Agent) : bool := age_group a >? AgeGroups.a5to17.

Definition getSchoolType (grade : Z) : Z :=
  if grade =? 0 then SchoolType.daycare
  else if ((1 <=? grade) && (grade <=? 7)) || ((15 <=? grade) && (grade <=? 21)) then SchoolType.elem
  else if ((8 <=? grade) && (grade <=? 10)) || ((22 <=? grade) && (grade <=? 24)) then SchoolType.middle
  else if ((11 <=? grade) && (grade <=? 14)) || ((25 <=? grade) && (grade <=? 28)) then SchoolType.high
  else if 29 <=? grade then SchoolType.college
  else SchoolType.none.

(** ** Random engine

    One engine is handed to every invocation of a ParallelForRNG body.
    Uniform draws ([amrex::Random], in the unit interval) and Gamma draws
    ([amrex::RandomGamma]) come from two sources; the counters record how
    many of each were taken. *)
Record RandomEngine := mkEngine {
  uniform_src : nat -> Q;
  gamma_src : nat -> Q;
  n_uniform : nat;
  n_gamma : nat
}.

Definition Random (e : RandomEngine) : Q * RandomEngine :=
  (uniform_src e (n_uniform e),
   mkEngine (uniform_src e) (gamma_src e) (S (n_uniform e)) (n_gamma e)).

Definition RandomGamma (alpha beta : Q) (e : RandomEngine) : Q * RandomEngine :=
  (gamma_src e (n_gamma e),
   mkEngine (uniform_src e) (gamma_src e) (n_uniform e) (S (n_gamma e))).

(** ** DiseaseParm.H *)

Record DiseaseParm := mkParm {
  xmit_comm : list Q;
  xmit_hood : list Q;
  xmit_hh_adult : list Q;
  xmit_hh_child : list Q;
  xmit_nc_adult : list Q;
  xmit_nc_child : list Q;
  xmit_school : list Q;
  xmit_school_a2c : list Q;
  xmit_school_c2a : list Q;
  xmit_comm_SC : list Q;
  xmit_hood_SC : list Q;
  xmit_work : Q;
  p_asymp : Q;
  vac_eff : Q;
  immune_length_alpha : Q;
  immune_length_beta : Q;
  latent_length_alpha : Q;
  latent_length_beta : Q;
  infectious_length_alpha : Q;
  infectious_length_beta : Q;
  incubation_length_alpha : Q;
  incubation_length_beta : Q;
  m_t_hosp : list Q;
  m_t_hosp_offset : Q;
  m_CHR : list Q;
  m_CIC : list Q;
  m_CVE : list Q;
  m_hospToDeath : list (list Q)
}.

(** The member initialisers of the struct. The school-closed tables have
    none (they are filled when the parameters are initialised); they are
    set to the open-school values here. *)
Definition default_parm : DiseaseParm := {|
  xmit_comm := [0.000018125; 0.000054375; 0.000145; 0.000145; 0.000145; 0.0002175]%Q;
  xmit_hood := [0.0000725; 0.0002175; 0.00058; 0.00058; 0.00058; 0.00087]%Q;
  xmit_hh_adult := [0.3; 0.3; 0.4; 0.4; 0.4; 0.4]%Q;
  xmit_hh_child := [0.6; 0.6; 0.3; 0.3; 0.3; 0.3]%Q;
  xmit_nc_adult := [0.04; 0.04; 0.05; 0.05; 0.05; 0.05]%Q;
  xmit_nc_child := [0.075; 0.075; 0.04; 0.04; 0.04; 0.04]%Q;
  xmit_school := [0; 0.0315; 0.0315; 0.0375; 0.0435; 0.15]%Q;
  xmit_school_a2c := [0; 0.0315; 0.0315; 0.0375; 0.0435; 0.15]%Q;
  xmit_school_c2a := [0; 0.0315; 0.0315; 0.0375; 0.0435; 0.15]%Q;
  xmit_comm_SC := [0.000018125; 0.000054375; 0.000145; 0.000145; 0.000145; 0.0002175]%Q;
  xmit_hood_SC := [0.0000725; 0.0002175; 0.00058; 0.00058; 0.00058; 0.00087]%Q;
  xmit_work := 0.0575%Q;
  p_asymp := 0.40%Q;
  vac_eff := 0%Q;
  immune_length_alpha := 9%Q;
  immune_length_beta := 20%Q;
  latent_length_alpha := 9%Q;
  latent_length_beta := 0.33%Q;
  infectious_length_alpha := 36%Q;
  infectious_length_beta := 0.17%Q;
  incubation_length_alpha := 25%Q;
  incubation_length_beta := 0.2%Q;
  m_t_hosp := [3; 8; 7]%Q;
  m_t_hosp_offset := 10%Q;
  m_CHR := [0.0104; 0.0104; 0.070; 0.28; 0.28; 1.0]%Q;
  m_CIC := [0.24; 0.24; 0.24; 0.36; 0.36; 0.35]%Q;
  m_CVE := [0.12; 0.12; 0.12; 0.22; 0.22; 0.22]%Q;
  m_hospToDeath := [[0; 0; 0; 0; 0; 0];
                    [0; 0; 0; 0; 0; 0.26];
                    [0.20; 0.20; 0.20; 0.45; 0.45; 1.0]]%Q
|}.

(** check_hospitalization: decide whether the agent is hospitalised and,
    if so, for how long, and whether it goes to ICU and on a ventilator.
    Returns the new timer and the ICU and ventilator marks. *)
Definition check_hospitalization (p : DiseaseParm) (a_age_group : Z) (e : RandomEngine)
  : (Q * Z * Z) * RandomEngine :=
  let '(u1, e1) := Random e in
  if Qltb u1 (arr (m_CHR p) a_age_group) then
    let t_hosp :=
      if a_age_group =? AgeGroups.o65 then arr (m_t_hosp p) AgeGroups_Hosp.o65
      else if a_age_group =? AgeGroups.a50to64 then arr (m_t_hosp p) AgeGroups_Hosp.a50to64
      else arr (m_t_hosp p) AgeGroups_Hosp.u50 in
    let '(u2, e2) := Random e1 in
    if Qltb u2 (arr (m_CIC p) a_age_group) then
      let t_hosp := (t_hosp + m_t_hosp_offset p)%Q in
      let '(u3, e3) := Random e2 in
      if Qltb u3 (arr (m_CVE p) a_age_group) then
        ((t_hosp + m_t_hosp_offset p)%Q, 1, 1, e3)
      else (t_hosp, 1, 0, e3)
    else (t_hosp, 0, 0, e2)
  else (0%Q, 0, 0, e1).

(** setInfected: the agent becomes infected and its disease periods are
    sampled. *)
Definition setInfected (r : DiseaseAttribs) (engine : RandomEngine) (lparm : DiseaseParm)
  : DiseaseAttribs * RandomEngine :=
  let r := set_status Status.infected r in
  let r := set_counter 0 r in
  let '(g1, e1) := RandomGamma (latent_length_alpha lparm) (latent_length_beta lparm) engine in
  let r := set_latent g1 r in
  let '(g2, e2) := RandomGamma (infectious_length_alpha lparm) (infectious_length_beta lparm) e1 in
  let r := set_infectious g2 r in
  let '(g3, e3) := RandomGamma (incubation_length_alpha lparm) (incubation_length_beta lparm) e2 in
  let r := set_incubation g3 r in
  let r := if Qltb (latent_period r) 0 then set_latent 0 r else r in
  let r := if Qltb (infectious_period r) 0 then set_infectious 0 r else r in
  let r := if Qltb (incubation_period r) 0 then set_incubation 0 r else r in
  let r := if Qltb (infectious_period r + latent_period r) (incubation_period r)
           then set_incubation (floorQ (infectious_period r + latent_period r)) r
           else r in
  (r, e3).

(** ** Loop constructs *)

(** amrex::ParallelForRNG over a tile: the body runs once per element,
    each run with the engine of its index. *)
Fixpoint ParallelForRNG {A B} (body : A -> RandomEngine -> B)
         (engines : nat -> RandomEngine) (i : nat) (l : list A) : list B :=
  match l with
  | [] => []
  | a :: l' => body a (engines i) :: ParallelForRNG body engines (S i) l'
  end.

(** amrex::ParallelFor whose body contains an AMREX_ALWAYS_ASSERT: the
    kernel aborts when any run of the body does. *)
Fixpoint ParallelFor_assert {A B} (body : A -> option B) (l : list A) : option (list B) :=
  match l with
  | [] => Some []
  | a :: l' =>
      match body a with
      | None => None
      | Some b =>
          match ParallelFor_assert body l' with
          | None => None
          | Some bs => Some (b :: bs)
          end
      end
  end.

(** [for (int d = 0; d < n_disease; d++)], the body reading the parameters
    of disease [d]; [n_disease] is the length of the parameter vector. *)
Fixpoint for_diseases {T} (body : nat -> DiseaseParm -> T -> T)
         (parms : list DiseaseParm) (d : nat) (s : T) : T :=
  match parms with
  | [] => s
  | lparm :: parms' => for_diseases body parms' (S d) (body d lparm s)
  end.

Fixpoint for_diseases_assert {T} (body : nat -> DiseaseParm -> T -> option T)
         (parms : list DiseaseParm) (d : nat) (s : T) : option T :=
  match parms with
  | [] => Some s
  | lparm :: parms' =>
      match body d lparm s with
      | None => None
      | Some s' => for_diseases_assert body parms' (S d) s'
      end
  end.

(** ** AgentContainer.cpp *)

(** What the movement kernels read of the container: the kind of initial
    condition, the cell sizes, and the grid-to-coordinates functor used
    when the agents do not come from census data. *)
Record Geometry := mkGeometry {
  is_census : bool;
  dx : Q * Q;
  grid_to_lnglat : Z -> Z -> Q * Q
}.

(** The position written for cell [(i, j)]; the same text appears in
    every movement kernel. *)
Definition cell_position (g : Geometry) (i j : Z) : Q * Q :=
  if is_census g then
    (((inject_Z i + 0.5) * fst (dx g))%Q, ((inject_Z j + 0.5) * snd (dx g))%Q)
  else grid_to_lnglat g i j.

Definition moveAgentsToWork (g : Geometry) (agents : list Agent) : list Agent :=
  map (fun a => if negb (inHospital a)
                then set_pos (cell_position g (work_i a) (work_j a)) a
                else a) agents.

Definition moveAgentsToHome (g : Geometry) (agents : list Agent) : list Agent :=
  map (fun a => if negb (inHospital a)
                then set_pos (cell_position g (home_i a) (home_j a)) a
                else a) agents.

Definition shelterStart (m_shelter_compliance : Q) (engines : nat -> RandomEngine)
           (agents : list Agent) : list Agent :=
  ParallelForRNG (fun a engine =>
                    if Qltb (fst (Random engine)) m_shelter_compliance
                    then set_withdrawn 1 a else a) engines 0%nat agents.

Definition shelterStop (agents : list Agent) : list Agent :=
  map (set_withdrawn 0) agents.

(** The body of infectAgents on the runtime column [r] of one agent; the
    engine is returned to show what was drawn. *)
Definition infect_body (lparm : DiseaseParm) (r : DiseaseAttribs) (engine : RandomEngine)
  : DiseaseAttribs * RandomEngine :=
  let r := set_prob (1 - prob r)%Q r in
  if Status.eqb (status r) Status.never || Status.eqb (status r) Status.susceptible then
    let '(u, e1) := Random engine in
    if Qltb u (prob r) then setInfected r e1 lparm else (r, e1)
  else (r, engine).

(** infectAgents; [engines d i] is the engine of agent [i] in the kernel
    launched for disease [d]. *)
Definition infectAgents (parms : list DiseaseParm) (engines : nat -> nat -> RandomEngine)
           (agents : list Agent) : list Agent :=
  for_diseases
    (fun d lparm ags =>
       ParallelForRNG
         (fun a engine => modify_runtime d (fun r => fst (infect_body lparm r engine)) a)
         (engines d) 0%nat ags)
    parms 0%nat agents.

(** getTotals: the nine flags of one agent, *)
Fixpoint set_arr (i : nat) (v : Z) (s : list Z) : list Z :=
  match s, i with
  | [], _ => []
  | _ :: s', O => v :: s'
  | x :: s', S i' => x :: set_arr i' v s'
  end.

Definition totals_body (a_d : nat) (a : Agent) : list Z :=
  let s := [0; 0; 0; 0; 0; 0; 0; 0; 0] in
  let st := status (runtime a_d a) in
  let s := set_arr (Status.to_nat st) 1 s in
  if Status.eqb st Status.infected then
    if notInfectiousButInfected a_d a then set_arr 5 1 s
    else
      match symptomatic (runtime a_d a) with
      | SymptomStatus.asymptomatic => set_arr 6 1 s
      | SymptomStatus.presymptomatic => set_arr 7 1 s
      | SymptomStatus.symptomatic => set_arr 8 1 s
      end
  else s.

(** and their sums over the agents (ReduceOpSum in every component). *)
Fixpoint ReduceOpSum (u v : list Z) : list Z :=
  match u, v with
  | x :: u', y :: v' => (x + y) :: ReduceOpSum u' v'
  | _, _ => []
  end.

Definition getTotals (a_d : nat) (agents : list Agent) : list Z :=
  fold_left (fun acc a => ReduceOpSum acc (totals_body a_d a)) agents
            [0; 0; 0; 0; 0; 0; 0; 0; 0].

(** getMaxGroup: the largest value of an integer attribute over the
    agents (ReduceOpMax, starting from the lowest [int]). The container
    caches the value; the attributes read through it do not change after
    initialisation. *)
Definition getMaxGroup (group : Agent -> Z) (agents : list Agent) : Z :=
  fold_left (fun m a => Z.max m (group a)) agents (- 2 ^ 31).

(** ** Community statistics

    One MultiFab per disease with the components of DiseaseStats, read at
    the home community [(i, j)] of an agent. *)
Definition Stats := Z -> Z -> Z -> Q.

Definition AtomicAddStat (ds : Stats) (i j n : Z) (v : Q) : Stats :=
  fun i' j' n' =>
    if (i' =? i) && (j' =? j) && (n' =? n) then (ds i' j' n' + v)%Q else ds i' j' n'.

Definition modify_stats (d : nat) (f : Stats -> Stats) (st : nat -> Stats) : nat -> Stats :=
  fun k => if Nat.eqb k d then f (st k) else st k.

(** ** DiseaseStatus.H *)

Definition assign_hospital (a : Agent) : Agent := set_hosp (home_i a) (home_j a) a.

(** The per-agent marks of updateAgents. *)
Record Marks := mkMarks {
  marked_for_hosp : Z;
  marked_for_ICU : Z;
  marked_for_vent : Z
}.

(** The body of the ParallelForRNG of updateAgents for disease [d]. *)
Definition update_body (disease_parm : DiseaseParm) (symptomatic_withdraw_compliance : Q)
           (d : nat) (x : Agent * Marks) (engine : RandomEngine)
  : (Agent * Marks) * RandomEngine :=
  let '(a, m) := x in
  let r := set_prob 1 (runtime d a) in
  match status r with
  | Status.never | Status.susceptible => (put_runtime d r a, m, engine)
  | Status.immune =>
      let r := set_counter (disease_counter r - 1)%Q r in
      if Qltb (disease_counter r) 0 then
        (put_runtime d (set_status Status.susceptible (set_timer 0 (set_counter 0 r))) a, m, engine)
      else (put_runtime d r a, m, engine)
  | Status.infected =>
      let r := set_counter (disease_counter r + 1)%Q r in
      if Qeq_bool (disease_counter r) 1 then
        let '(u, e1) := Random engine in
        if Qltb u (p_asymp disease_parm)
        then (put_runtime d (set_symptomatic SymptomStatus.asymptomatic r) a, m, e1)
        else (put_runtime d (set_symptomatic SymptomStatus.presymptomatic r) a, m, e1)
      else if Qeq_bool (disease_counter r) (floorQ (incubation_period r)) then
        if SymptomStatus.eqb (symptomatic r) SymptomStatus.presymptomatic then
          let r := set_symptomatic SymptomStatus.symptomatic r in
          let '(w, e1) :=
            if Qltb 0 symptomatic_withdraw_compliance then
              let '(u, e1) := Random engine in
              (if Qltb u symptomatic_withdraw_compliance then 1 else withdrawn a, e1)
            else (withdrawn a, engine) in
          let '(t, icu, vent, e2) := check_hospitalization disease_parm (age_group a) e1 in
          let r := set_timer t r in
          let hosp := if Qltb 0 t then 1 else marked_for_hosp m in
          (set_withdrawn w (put_runtime d r a), mkMarks hosp icu vent, e2)
        else (put_runtime d r a, m, engine)
      else if negb (inHospital a) then
        if Qle_bool (latent_period r + infectious_period r) (disease_counter r) then
          let '(g, e1) := RandomGamma (immune_length_alpha disease_parm)
                                      (immune_length_beta disease_parm) engine in
          (set_withdrawn 0
             (put_runtime d (set_symptomatic SymptomStatus.presymptomatic
                               (set_counter g (set_status Status.immune r))) a), m, e1)
        else (put_runtime d r a, m, engine)
      else (put_runtime d r a, m, engine)
  | Status.dead => (put_runtime d r a, m, engine)
  end.

(** The statistics kernel of updateAgents for one disease. *)
Definition admission_stats (xs : list (Agent * Marks)) (ds_arr : Stats) : Stats :=
  fold_left
    (fun ds x =>
       let '(a, m) := x in
       let ds := if marked_for_hosp m =? 1
                 then AtomicAddStat ds (home_i a) (home_j a) DiseaseStats.hospitalization 1
                 else ds in
       let ds := if marked_for_ICU m =? 1
                 then AtomicAddStat ds (home_i a) (home_j a) DiseaseStats.ICU 1
                 else ds in
       if marked_for_vent m =? 1
       then AtomicAddStat ds (home_i a) (home_j a) DiseaseStats.ventilator 1
       else ds)
    xs ds_arr.

Definition updateAgents (parms : list DiseaseParm) (symptomatic_withdraw_compliance : Q)
           (engines : nat -> nat -> RandomEngine)
           (agents : list Agent) (a_stats : nat -> Stats)
  : list Agent * (nat -> Stats) :=
  let xs := map (fun a => (a, mkMarks 0 0 0)) agents in
  let xs := for_diseases
              (fun d parm xs =>
                 ParallelForRNG
                   (fun x engine => fst (update_body parm symptomatic_withdraw_compliance d x engine))
                   (engines d) 0%nat xs)
              parms 0%nat xs in
  let xs := map (fun x : Agent * Marks =>
                   if (marked_for_hosp (snd x) =? 1) && negb (inHospital (fst x))
                   then (assign_hospital (fst x), snd x) else x) xs in
  let stats := for_diseases (fun d _ st => modify_stats d (admission_stats xs) st)
                            parms 0%nat a_stats in
  (map fst xs, stats).

(** ** HospitalModel.H *)

(** The per-agent auxiliary arrays of treatAgents. *)
Record HospAux := mkAux {
  is_alive : Z;
  flag_status : Z
}.

(** The first kernel: every disease must agree on whether the agent is
    dead. [n_disease] is the number of diseases. *)
Definition alive_body (n_disease : nat) (a : Agent) : option (Agent * HospAux) :=
  if Status.eqb (status (runtime 0 a)) Status.dead then
    if forallb (fun d => Status.eqb (status (runtime d a)) Status.dead) (seq 1 (n_disease - 1))
    then Some (a, mkAux 0 0) else None
  else
    if forallb (fun d => negb (Status.eqb (status (runtime d a)) Status.dead)) (seq 1 (n_disease - 1))
    then Some (a, mkAux 1 0) else None.

(** The body of the ParallelForRNG of treatAgents for disease [d]. *)
Definition treat_body (disease_parm : DiseaseParm) (d : nat) (x : Agent * HospAux)
           (engine : RandomEngine) : option ((Agent * HospAux) * RandomEngine) :=
  let '(a, h) := x in
  if negb (inHospital a) then Some (x, engine)
  else if Qeq_bool (disease_counter (runtime d a)) (floorQ (incubation_period (runtime d a)))
  then Some (x, engine)
  else if Qeq_bool (treatment_timer (runtime d a)) 0 then Some (x, engine)
  else if is_alive h =? 0 then Some (x, engine)
  else if negb (Status.eqb (status (runtime d a)) Status.infected) then None
  else
    let r := set_timer (treatment_timer (runtime d a) - 1)%Q (runtime d a) in
    let flag :=
      if Qeq_bool (treatment_timer r) 0 then DiseaseStats.hospitalization + 1
      else if Qeq_bool (treatment_timer r) (m_t_hosp_offset disease_parm)
           then DiseaseStats.ICU + 1
      else if Qeq_bool (treatment_timer r) (2 * m_t_hosp_offset disease_parm)
           then DiseaseStats.ventilator + 1
      else flag_status h in
    if flag >? 0 then
      let '(u, e1) := Random engine in
      if Qltb u (arr2 (m_hospToDeath disease_parm) (flag - 1) (age_group a)) then
        Some (put_runtime d (set_status Status.dead r) a, mkAux 0 (flag * -1), e1)
      else
        let '(g, e2) := RandomGamma (immune_length_alpha disease_parm)
                                    (immune_length_beta disease_parm) e1 in
        Some (set_withdrawn 0
                (put_runtime d
                   (set_timer 0 (set_symptomatic SymptomStatus.presymptomatic
                                   (set_counter g (set_status Status.immune r)))) a),
              mkAux (is_alive h) flag, e2)
    else Some (put_runtime d r a, mkAux (is_alive h) flag, engine).

Fixpoint ParallelForRNG_assert {A B} (body : A -> RandomEngine -> option (B * RandomEngine))
         (engines : nat -> RandomEngine) (i : nat) (l : list A) : option (list B) :=
  match l with
  | [] => Some []
  | a :: l' =>
      match body a (engines i) with
      | None => None
      | Some (b, _) =>
          match ParallelForRNG_assert body engines (S i) l' with
          | None => None
          | Some bs => Some (b :: bs)
          end
      end
  end.

(** The kernel after the disease loop: death in all diseases, or
    discharge when no timer is running. *)
Definition discharge_body (g : Geometry) (n_disease : nat) (x : Agent * HospAux)
  : Agent * HospAux :=
  let '(a, h) := x in
  if negb (inHospital a) then x
  else if is_alive h =? 0 then
    let a := fold_left (fun a d => modify_runtime d (set_status Status.dead) a)
                       (seq 0 n_disease) a in
    (set_withdrawn 0 (set_hosp (-1) (-1) a), h)
  else
    let sum_timers := fold_left (fun s d => (s + treatment_timer (runtime d a))%Q)
                                (seq 0 n_disease) 0%Q in
    if Qeq_bool sum_timers 0 then
      (set_pos (cell_position g (home_i a) (home_j a))
               (set_withdrawn 0 (set_hosp (-1) (-1) a)), h)
    else x.

(** The statistics kernel of treatAgents on one agent, *)
Definition outcome_stats_body (ds_arr : Stats) (x : Agent * HospAux) : Stats :=
  let '(a, h) := x in
  let ds := if flag_status h <? 0
            then AtomicAddStat ds_arr (home_i a) (home_j a) DiseaseStats.death 1
            else ds_arr in
  let ds := if Z.abs (flag_status h) >? DiseaseStats.hospitalization
            then AtomicAddStat ds (home_i a) (home_j a) DiseaseStats.hospitalization (-1)
            else ds in
  let ds := if Z.abs (flag_status h) >? DiseaseStats.ICU
            then AtomicAddStat ds (home_i a) (home_j a) DiseaseStats.ICU (-1)
            else ds in
  if Z.abs (flag_status h) >? DiseaseStats.ventilator
  then AtomicAddStat ds (home_i a) (home_j a) DiseaseStats.ventilator (-1)
  else ds.

(** and over the tile. *)
Definition outcome_stats (xs : list (Agent * HospAux)) (ds_arr : Stats) : Stats :=
  fold_left outcome_stats_body xs ds_arr.

(** The agents and their auxiliary arrays after the three agent kernels
    of treatAgents. *)
Definition treat_tile (g : Geometry) (parms : list DiseaseParm)
           (engines : nat -> nat -> RandomEngine) (agents : list Agent)
  : option (list (Agent * HospAux)) :=
  match ParallelFor_assert (alive_body (length parms)) agents with
  | None => None
  | Some xs =>
      match for_diseases_assert
              (fun d parm xs => ParallelForRNG_assert (treat_body parm d) (engines d) 0%nat xs)
              parms 0%nat xs with
      | None => None
      | Some xs => Some (map (discharge_body g (length parms)) xs)
      end
  end.

Definition treatAgents (g : Geometry) (parms : list DiseaseParm)
           (engines : nat -> nat -> RandomEngine)
           (agents : list Agent) (a_dstats : nat -> Stats)
  : option (list Agent * (nat -> Stats)) :=
  match treat_tile g parms engines agents with
  | None => None
  | Some xs =>
      Some (map fst xs,
            for_diseases (fun d _ st => modify_stats d (outcome_stats xs) st)
                         parms 0%nat a_dstats)
  end.

(** The last kernel of updateStatus: the position of an agent in hospital
    is that of its hospital. *)
Definition to_hospital_position (g : Geometry) (a : Agent) : Agent :=
  if inHospital a then set_pos (cell_position g (hosp_i a) (hosp_j a)) a else a.

(** AgentContainer::updateStatus. *)
Definition updateStatus (g : Geometry) (parms : list DiseaseParm)
           (symptomatic_withdraw_compliance : Q)
           (status_engines hospital_engines : nat -> nat -> RandomEngine)
           (agents : list Agent) (a_disease_stats : nat -> Stats)
  : option (list Agent * (nat -> Stats)) :=
  let '(agents, stats) :=
    updateAgents parms symptomatic_withdraw_compliance status_engines agents a_disease_stats in
  match treatAgents g parms hospital_engines agents stats with
  | None => None
  | Some (agents, stats) =>
      Some (map (to_hospital_position g) agents, stats)
  end.

(** ** Interaction kernels (FAST_INTERACTIONS) *)

(** A dense counter array of [int], addressed by a flattened group index. *)
Definition Counter := Z -> Z.

(** dev_memset(ptr, 0, ...) *)
Definition zero_counter : Counter := fun _ => 0.

(** Gpu::Atomic::AddNoRet(&ptr[idx], v) *)
Definition AtomicAdd (c : Counter) (idx v : Z) : Counter :=
  fun k => if k =? idx then c k + v else c k.

(** [prob_ptr[i] *= f] on the column of disease [d]. *)
Definition mul_prob (d : nat) (f : Q) (a : Agent) : Agent :=
  modify_runtime d (fun r => set_prob (prob r * f)%Q r) a.

(** A counting loop over the tile whose body may assert. *)
Fixpoint tally_loop {C} (body : C -> Agent -> option C) (agents : list Agent) (c : C)
  : option C :=
  match agents with
  | [] => Some c
  | a :: agents' =>
      match body c a with
      | None => None
      | Some c' => tally_loop body agents' c'
      end
  end.

Definition FAMILIES_PER_CLUSTER := 4.

Record HomeCounters := mkHomeCounters {
  infected_family : Counter;
  infected_family_not_withdrawn : Counter;
  infected_nc : Counter
}.

Record NborhoodCounters := mkNborhoodCounters {
  infected_community : Counter;
  infected_nborhood : Counter
}.

Record SchoolCounters := mkSchoolCounters {
  infected_school : Counter;
  infected_daycare : Counter
}.

Section Interactions.

(** GetCommunityIndex of the tile: the dense index of the community
    that contains a position, and the number of communities. *)
Variable comm_index : Q * Q -> Z.
Variable max_communities : Z.

Definition getCommunityIndex (a : Agent) : Z := comm_index (pos a).

(** *** InteractionModHome.H *)

Definition HomeCandidate (a : Agent) : bool :=
  negb (inHospital a) && (random_travel a <? 0) && (air_travel a <? 0).

Definition home_count_body (d : nat) (adults : bool) (max_family max_nborhood num_ncs : Z)
           (c : HomeCounters) (a : Agent) : option HomeCounters :=
  if isInfectious d a && HomeCandidate a && Bool.eqb (isAnAdult a) adults then
    let community := getCommunityIndex a in
    if negb (community <=? max_communities) then None
    else
      let family_i := community * max_family + family a in
      let fam := AtomicAdd (infected_family c) family_i 1 in
      if withdrawn a =? 0 then
        let famnw := AtomicAdd (infected_family_not_withdrawn c) family_i 1 in
        let cluster := family a ÷ FAMILIES_PER_CLUSTER in
        let nc := (community * max_nborhood + nborhood a) * num_ncs + cluster in
        Some (mkHomeCounters fam famnw (AtomicAdd (infected_nc c) nc 1))
      else Some (mkHomeCounters fam (infected_family_not_withdrawn c) (infected_nc c))
  else Some c.

Definition home_update_body (d : nat) (adults : bool) (lparm : DiseaseParm)
           (max_family max_nborhood num_ncs : Z) (c : HomeCounters) (a : Agent)
  : option Agent :=
  let scale := 1%Q in
  let infect := (1 - vac_eff lparm)%Q in
  if isSusceptible d a && HomeCandidate a then
    let xmit_family_prob :=
      if adults then arr (xmit_hh_adult lparm) (age_group a)
      else arr (xmit_hh_child lparm) (age_group a) in
    let xmit_nc_prob :=
      if adults then arr (xmit_nc_adult lparm) (age_group a)
      else arr (xmit_nc_child lparm) (age_group a) in
    let community := getCommunityIndex a in
    if negb (community <=? max_communities) then None
    else
      let family_i := community * max_family + family a in
      let num_infected_family := infected_family c family_i in
      let family_prob := (1 - infect * xmit_family_prob * scale)%Q in
      let a1 := mul_prob d (Qpower family_prob num_infected_family) a in
      if withdrawn a =? 0 then
        let num_infected_family_not_withdrawn := infected_family_not_withdrawn c family_i in
        if negb (num_infected_family >=? num_infected_family_not_withdrawn) then None
        else
          let cluster := family a ÷ FAMILIES_PER_CLUSTER in
          let nc := (community * max_nborhood + nborhood a) * num_ncs + cluster in
          let num_infected_nc := infected_nc c nc - num_infected_family_not_withdrawn in
          if negb (num_infected_nc >=? 0) then None
          else
            let nc_prob := (1 - infect * xmit_nc_prob * scale)%Q in
            Some (mul_prob d (Qpower nc_prob num_infected_nc) a1)
      else Some a1
  else Some a.

(** One round of the home kernel: disease [d], transmitters of one age
    class. *)
Definition home_pass (max_family max_nborhood num_ncs : Z)
           (d : nat) (lparm : DiseaseParm) (adults : bool) (agents : list Agent)
  : option (list Agent) :=
  match tally_loop (home_count_body d adults max_family max_nborhood num_ncs) agents
                   (mkHomeCounters zero_counter zero_counter zero_counter) with
  | None => None
  | Some c =>
      ParallelFor_assert
        (home_update_body d adults lparm max_family max_nborhood num_ncs c) agents
  end.

Definition fastInteractHome (parms : list DiseaseParm) (agents : list Agent)
  : option (list Agent) :=
  let max_family := getMaxGroup family agents + 1 in
  let max_nborhood := getMaxGroup nborhood agents + 1 in
  let num_ncs := max_family ÷ FAMILIES_PER_CLUSTER + 1 in
  for_diseases_assert
    (fun d lparm ags =>
       match home_pass max_family max_nborhood num_ncs d lparm true ags with
       | None => None
       | Some ags' => home_pass max_family max_nborhood num_ncs d lparm false ags'
       end)
    parms 0%nat agents.

(** *** InteractionModHomeNborhood.H and InteractionModWorkNborhood.H *)

Definition HomeNborhoodCandidate (a : Agent) : bool :=
  negb (inHospital a) && (withdrawn a =? 0).

Definition WorkNborhoodCandidate (a : Agent) : bool :=
  negb (inHospital a) && (withdrawn a =? 0) && (random_travel a <? 0).

(** The two kernels have the same text up to the candidate predicate and
    the attribute read as the neighbourhood ([nborhood_ptr] in the home
    kernel, [work_nborhood_ptr] in the work kernel). *)
Definition nborhood_count_body (isCandidate : Agent -> bool) (nborhood_ptr : Agent -> Z)
           (d : nat) (max_nborhood : Z) (c : NborhoodCounters) (a : Agent)
  : NborhoodCounters :=
  if isInfectious d a && isCandidate a then
    let community := getCommunityIndex a in
    let nborhood := nborhood_ptr a in
    mkNborhoodCounters
      (AtomicAdd (infected_community c) community 1)
      (AtomicAdd (infected_nborhood c) (community * max_nborhood + nborhood) 1)
  else c.

Definition nborhood_update_body (isCandidate : Agent -> bool) (nborhood_ptr : Agent -> Z)
           (d : nat) (lparm : DiseaseParm) (max_nborhood : Z)
           (c : NborhoodCounters) (a : Agent) : option Agent :=
  let scale := 1%Q in
  let infect := (1 - vac_eff lparm)%Q in
  if isSusceptible d a && isCandidate a then
    let community := getCommunityIndex a in
    let nborhood := nborhood_ptr a in
    let num_infected_nborhood := infected_nborhood c (community * max_nborhood + nborhood) in
    let num_infected_community := infected_community c community in
    if negb (num_infected_community >=? num_infected_nborhood) then None
    else
      let comm_prob := (1 - infect * arr (xmit_comm lparm) (age_group a) * scale)%Q in
      let a1 := mul_prob d (Qpower comm_prob (num_infected_community - num_infected_nborhood)) a in
      let nborhood_prob := (1 - infect * arr (xmit_hood lparm) (age_group a) * scale)%Q in
      Some (mul_prob d (Qpower nborhood_prob num_infected_nborhood) a1)
  else Some a.

Definition nborhood_pass (isCandidate : Agent -> bool) (nborhood_ptr : Agent -> Z)
           (max_nborhood : Z) (d : nat) (lparm : DiseaseParm) (agents : list Agent)
  : option (list Agent) :=
  let c := fold_left (nborhood_count_body isCandidate nborhood_ptr d max_nborhood) agents
                     (mkNborhoodCounters zero_counter zero_counter) in
  ParallelFor_assert (nborhood_update_body isCandidate nborhood_ptr d lparm max_nborhood c)
                     agents.

Definition fastInteractHomeNborhood (parms : list DiseaseParm) (agents : list Agent)
  : option (list Agent) :=
  match agents with
  | [] => Some agents
  | _ =>
      let max_nborhood := getMaxGroup nborhood agents + 1 in
      if negb (max_nborhood <=? Z.of_nat (length agents)) then None
      else for_diseases_assert (nborhood_pass HomeNborhoodCandidate nborhood max_nborhood)
                               parms 0%nat agents
  end.

Definition fastInteractWorkNborhood (parms : list DiseaseParm) (agents : list Agent)
  : option (list Agent) :=
  let max_nborhood := getMaxGroup work_nborhood agents + 1 in
  for_diseases_assert (nborhood_pass WorkNborhoodCandidate work_nborhood max_nborhood)
                      parms 0%nat agents.

(** *** InteractionModWork.H *)

Definition WorkCandidate (a : Agent) : bool :=
  negb (inHospital a) && (0 <=? work_i a) && (workgroup a >? 0) && (withdrawn a =? 0)
  && (air_travel a <? 0) && (random_travel a <? 0).

Definition work_count_body (d : nat) (max_workgroup max_naics : Z) (c : Counter) (a : Agent)
  : Counter :=
  if isInfectious d a && WorkCandidate a then
    let community := getCommunityIndex a in
    let wgroup_i := (community * max_workgroup + workgroup a) * max_naics + naics a in
    AtomicAdd c wgroup_i 1
  else c.

Definition work_update_body (d : nat) (lparm : DiseaseParm) (max_workgroup max_naics : Z)
           (c : Counter) (a : Agent) : Agent :=
  let scale := 1%Q in
  let infect := (1 - vac_eff lparm)%Q in
  if isSusceptible d a && WorkCandidate a then
    let community := getCommunityIndex a in
    let wgroup_i := (community * max_workgroup + workgroup a) * max_naics + naics a in
    let num_infected_workgroup := c wgroup_i in
    let workgroup_prob := (1 - infect * xmit_work lparm * scale)%Q in
    mul_prob d (Qpower workgroup_prob num_infected_workgroup) a
  else a.

Definition fastInteractWork (parms : list DiseaseParm) (agents : list Agent) : list Agent :=
  let max_workgroup := getMaxGroup workgroup agents + 1 in
  let max_naics := getMaxGroup naics agents + 1 in
  for_diseases
    (fun d lparm ags =>
       let c := fold_left (work_count_body d max_workgroup max_naics) ags zero_counter in
       map (work_update_body d lparm max_workgroup max_naics c) ags)
    parms 0%nat agents.

(** *** InteractionModSchool.H *)

Definition SchoolCandidate (a : Agent) : bool :=
  negb (inHospital a) && (school_id a >? 0) && (school_closed a =? 0) && (withdrawn a =? 0)
  && (air_travel a <? 0) && (random_travel a <? 0).

Definition school_count_body (d : nat) (adults : bool) (max_school_id max_school_grade : Z)
           (c : SchoolCounters) (a : Agent) : SchoolCounters :=
  if isInfectious d a && SchoolCandidate a && Bool.eqb (isAnAdult a) adults then
    let community := getCommunityIndex a in
    let pos := (community * max_school_id + school_id a) * max_school_grade + school_grade a in
    if getSchoolType (school_grade a) =? SchoolType.daycare then
      mkSchoolCounters (infected_school c) (AtomicAdd (infected_daycare c) pos 1)
    else
      mkSchoolCounters (AtomicAdd (infected_school c) pos 1) (infected_daycare c)
  else c.

Definition school_update_body (d : nat) (adults : bool) (lparm : DiseaseParm)
           (max_school_id max_school_grade : Z) (c : SchoolCounters) (a : Agent) : Agent :=
  let scale := 1%Q in
  let infect := (1 - vac_eff lparm)%Q in
  if isSusceptible d a && SchoolCandidate a then
    let community := getCommunityIndex a in
    let pos := (community * max_school_id + school_id a) * max_school_grade + school_grade a in
    if getSchoolType (school_grade a) =? SchoolType.daycare then
      let num_infected_daycare := infected_daycare c pos in
      let daycare_prob :=
        (1 - infect * arr (xmit_school lparm) SchoolType.daycare * scale)%Q in
      mul_prob d (Qpower daycare_prob num_infected_daycare) a
    else
      let num_infected_school := infected_school c pos in
      let xmit :=
        if adults then
          if age_group a <=? AgeGroups.a5to17
          then arr (xmit_school_a2c lparm) (getSchoolType (school_grade a))
          else arr (xmit_school lparm) (getSchoolType (school_grade a))
        else
          if age_group a <=? AgeGroups.a5to17
          then arr (xmit_school lparm) (getSchoolType (school_grade a))
          else arr (xmit_school_c2a lparm) (getSchoolType (school_grade a)) in
      let school_prob := (1 - infect * xmit * scale)%Q in
      mul_prob d (Qpower school_prob num_infected_school) a
  else a.

Definition school_pass (max_school_id max_school_grade : Z) (d : nat) (lparm : DiseaseParm)
           (adults : bool) (agents : list Agent) : list Agent :=
  let c := fold_left (school_count_body d adults max_school_id max_school_grade) agents
                     (mkSchoolCounters zero_counter zero_counter) in
  map (school_update_body d adults lparm max_school_id max_school_grade c) agents.

Definition fastInteractSchool (parms : list DiseaseParm) (agents : list Agent) : list Agent :=
  let max_school_grade := getMaxGroup school_grade agents + 1 in
  let max_school_id := getMaxGroup school_id agents + 1 in
  for_diseases
    (fun d lparm ags =>
       school_pass max_school_id max_school_grade d lparm false
                   (school_pass max_school_id max_school_grade d lparm true ags))
    parms 0%nat agents.

(** *** AgentContainer::interactDay and interactNight

    (every interaction model is present in the container; the hospital
    model's interactAgents does nothing) *)
Definition interactDay (parms : list DiseaseParm) (agents : list Agent)
  : option (list Agent) :=
  fastInteractWorkNborhood parms (fastInteractSchool parms (fastInteractWork parms agents)).

Definition interactNight (parms : list DiseaseParm) (agents : list Agent)
  : option (list Agent) :=
  match fastInteractHome parms agents with
  | None => None
  | Some agents' => fastInteractHomeNborhood parms agents'
  end.

End Interactions.

(** *** The pairwise path of the work-neighbourhood model
    (compiled only without FAST_INTERACTIONS) *)

Definition infectProb (infectious susceptible : Agent) (xmit_SC xmit : list Q) : Q :=
  if school_closed infectious =? 1 then arr xmit_SC (age_group susceptible)
  else arr xmit (age_group susceptible).

(** The neighbourhood an agent is taken to be in by the pairwise path. *)
Definition pairwise_nborhood (a : Agent) : Z :=
  if age_group a >? 1 then work_nborhood a else nborhood a.

Definition BinaryInteractionWorkNborhood (infectious susceptible : Agent)
           (a_lparm : DiseaseParm) (a_social_scale : Q) : option Q :=
  if negb ((work_i infectious =? work_i susceptible) && (work_j infectious =? work_j susceptible))
  then None
  else if negb ((random_travel infectious <? 0) && (random_travel susceptible <? 0)) then None
  else
    let nborhood_infectious := pairwise_nborhood infectious in
    let nborhood_susceptible := pairwise_nborhood susceptible in
    if nborhood_infectious =? nborhood_susceptible then
      Some (infectProb infectious susceptible (xmit_hood_SC a_lparm) (xmit_hood a_lparm)
            * a_social_scale)%Q
    else
      Some (infectProb infectious susceptible (xmit_comm_SC a_lparm) (xmit_comm a_lparm)
            * a_social_scale)%Q.

(** ** Travel and the UrbanPop grid (AgentContainer.H, AgentContainer.cpp) *)

Definition set_random_travel (v : Z) (a : Agent) :=
  mkAgent (age_group a) (family a) (home_i a) (home_j a) (work_i a) (work_j a)
          (hosp_i a) (hosp_j a) (trav_i a) (trav_j a) (nborhood a) (school_grade a)
          (school_id a) (school_closed a) (naics a) (workgroup a) (work_nborhood a)
          (withdrawn a) v (air_travel a) (pos a) (rt a).

(** static_cast<int> of a real, and int(...): truncation towards zero. *)
Definition truncQ (x : Q) : Z := if Qle_bool 0 x then Qfloor x else Qceiling x.

(** The members of LngLatToGrid and of GridToLngLat (both structs hold
    the same four). *)
Record GridSpacing := mkGridSpacing {
  min_lng : Q;
  min_lat : Q;
  gspacing_x : Q;
  gspacing_y : Q
}.

(** LngLatToGrid::operator() *)
Definition LngLatToGrid (s : GridSpacing) (lng lat : Q) : Z * Z :=
  let rx := ((lng - min_lng s) / gspacing_x s)%Q in
  let ry := ((lat - min_lat s) / gspacing_y s)%Q in
  (truncQ (rx + 0.001), truncQ (ry + 0.001)).

(** GridToLngLat::operator() *)
Definition GridToLngLat (s : GridSpacing) (x y : Z) : Q * Q :=
  ((inject_Z x * gspacing_x s + min_lng s + 0.001)%Q,
   (inject_Z y * gspacing_y s + min_lat s + 0.001)%Q).

(** amrex::ParallelForRNG with a body that reads its index. *)
Fixpoint ParallelForRNG_index {A B} (body : nat -> A -> RandomEngine -> B)
         (engines : nat -> RandomEngine) (i : nat) (l : list A) : list B :=
  match l with
  | [] => []
  | a :: l' => body i a (engines i) :: ParallelForRNG_index body engines (S i) l'
  end.

Definition moveAgentsRandomWalk (g : Geometry) (engines : nat -> RandomEngine)
           (agents : list Agent) : list Agent :=
  ParallelForRNG
    (fun a engine =>
       let '(u0, e1) := Random engine in
       let x := (fst (pos a) + (2 * u0 - 1) * fst (dx g))%Q in
       let '(u1, e2) := Random e1 in
       let y := (snd (pos a) + (2 * u1 - 1) * snd (dx g))%Q in
       set_pos (x, y) a)
    engines 0%nat agents.

(** The body of moveRandomTravel for the agent of index [i]; [i_max] and
    [j_max] are the lengths of the domain. *)
Definition random_travel_body (i_max j_max : Z) (random_travel_prob : Q)
           (i : nat) (a : Agent) (engine : RandomEngine) : Agent :=
  if negb (inHospital a) && (withdrawn a =? 0) then
    let '(u, e1) := Random engine in
    if Qltb u random_travel_prob then
      let a := set_random_travel (Z.of_nat i) a in
      let '(u1, e2) := Random e1 in
      let i_random := truncQ (inject_Z i_max * u1) in
      let '(u2, e3) := Random e2 in
      let j_random := truncQ (inject_Z j_max * u2) in
      set_pos (inject_Z i_random, inject_Z j_random) a
    else a
  else a.

Definition moveRandomTravel (i_max j_max : Z) (random_travel_prob : Q)
           (engines : nat -> RandomEngine) (agents : list Agent) : list Agent :=
  ParallelForRNG_index (random_travel_body i_max j_max random_travel_prob) engines 0%nat agents.

Definition returnRandomTravel (g : Geometry) (agents : list Agent) : list Agent :=
  map (fun a => if 0 <=? random_travel a
                then set_pos (cell_position g (home_i a) (home_j a)) (set_random_travel (-1) a)
                else a) agents.




(** generateCellData: the mesh data is read at a cell and a component;
    [cell_of] is getParticleCell for the geometry of the level. The data
    is not zeroed first (the last argument of ParticleToMesh). *)
Definition MeshData := Z * Z -> Z -> Q.

Definition AtomicAddMesh (count : MeshData) (iv : Z * Z) (n : Z) (v : Q) : MeshData :=
  fun iv' n' =>
    if (fst iv' =? fst iv) && (snd iv' =? snd iv) && (n' =? n)
    then (count iv' n' + v)%Q else count iv' n'.

Definition cell_data_body (cell_of : Q * Q -> Z * Z) (n_disease : nat)
           (count : MeshData) (a : Agent) : MeshData :=
  let iv := cell_of (pos a) in
  fold_left
    (fun count d =>
       let status := status (runtime d a) in
       let count := AtomicAddMesh count iv (5 * Z.of_nat d + 0) 1 in
       if negb (Status.eqb status Status.dead)
       then AtomicAddMesh count iv (5 * Z.of_nat d + Z.of_nat (Status.to_nat status) + 1) 1
       else count)
    (seq 0 n_disease) count.

Definition generateCellData (cell_of : Q * Q -> Z * Z) (n_disease : nat)
           (agents : list Agent) (mf : MeshData) : MeshData :=
  fold_left (cell_data_body cell_of n_disease) agents mf.

(** updateStatus on [n] consecutive days, starting with day [day]; the
    engines are those of the day. *)
Fixpoint updateStatus_days (g : Geometry) (parms : list DiseaseParm)
         (symptomatic_withdraw_compliance : Q)
         (status_engines hospital_engines : nat -> nat -> nat -> RandomEngine)
         (n day : nat) (agents : list Agent) (a_disease_stats : nat -> Stats)
  : option (list Agent * (nat -> Stats)) :=
  match n with
  | O => Some (agents, a_disease_stats)
  | S n' =>
      match updateStatus g parms symptomatic_withdraw_compliance
                         (status_engines day) (hospital_engines day)
                         agents a_disease_stats with
      | None => None
      | Some (agents', stats') =>
          updateStatus_days g parms symptomatic_withdraw_compliance
                            status_engines hospital_engines n' (S day) agents' stats'
      end
  end.

(** printStudentTeacherCounts: the ten flags of one agent, educators by
    school type and then students by school type. The store
    [counts[pos + getSchoolType(grade) - SchoolType::college] = 1] is out
    of bounds when the index is negative; such a run is undefined and
    gives [None] here. *)
Definition student_teacher_body (a : Agent) : option (list Z) :=
  let counts := [0; 0; 0; 0; 0; 0; 0; 0; 0; 0] in
  if school_id a >? 0 then
    let pos := if workgroup a >? 0 then 0 else 5 in
    let grade := school_grade a in
    let idx := pos + getSchoolType grade - SchoolType.college in
    if (0 <=? idx) && (idx <? 10) then Some (set_arr (Z.to_nat idx) 1 counts) else None
  else Some counts.

(** ParticleReduce with ReduceOpSum in every component, for a body that
    may be undefined. *)
Fixpoint ParticleReduce_sum (body : Agent -> option (list Z)) (agents : list Agent)
         (acc : list Z) : option (list Z) :=
  match agents with
  | [] => Some acc
  | a :: agents' =>
      match body a with
      | None => None
      | Some v => ParticleReduce_sum body agents' (ReduceOpSum acc v)
      end
  end.

(** The counts printed by printStudentTeacherCounts, and its two totals. *)
Definition studentTeacherCounts (agents : list Agent) : option (list Z) :=
  ParticleReduce_sum student_teacher_body agents [0; 0; 0; 0; 0; 0; 0; 0; 0; 0].

Definition total_educators (counts : list Z) : Z :=
  fold_left (fun s i => s + nth i counts 0) (seq 0 5) 0.

Definition total_students (counts : list Z) : Z :=
  fold_left (fun s i => s + nth (i + 5) counts 0) (seq 0 5) 0.

(** notSusceptible of AgentDefinitions.H. *)
Definition notSusceptible (d : nat) (a : Agent) : bool :=
  Status.eqb (status (runtime d a)) Status.immune
  || Status.eqb (status (runtime d a)) Status.dead
  || Status.eqb (status (runtime d a)) Status.infected.

(** * Properties *)

(** ** Basic facts *)

Lemma Status_eqb_eq a b : Status.eqb a b = true <-> a = b.
Proof. destruct a, b; simpl; split; intro H; congruence. Qed.

Lemma Status_eqb_neq a b : Status.eqb a b = false <-> a <> b.
Proof. destruct a, b; simpl; split; intro H; congruence. Qed.

Lemma Qltb_lt x y : Qltb x y = true <-> (x < y)%Q.
Proof.
  unfold Qltb. rewrite negb_true_iff. split; intro H.
  - apply Qnot_le_lt. intro Hle. apply Qle_bool_iff in Hle. congruence.
  - destruct (Qle_bool y x) eqn:E; [|reflexivity].
    apply Qle_bool_iff in E. exfalso. revert E. apply Qlt_not_le, H.
Qed.

Lemma Qltb_ge x y : Qltb x y = false <-> (y <= x)%Q.
Proof. unfold Qltb. rewrite negb_false_iff. apply Qle_bool_iff. Qed.

Lemma floorQ_le x : (floorQ x <= x)%Q.
Proof. apply Qfloor_le. Qed.

Lemma floorQ_nonneg x : (0 <= x)%Q -> (0 <= floorQ x)%Q.
Proof.
  intro H. unfold floorQ.
  change 0%Q with (inject_Z 0). rewrite <- Zle_Qle.
  change 0 with (Qfloor (inject_Z 0)). apply Qfloor_resp_le, H.
Qed.

Lemma runtime_modify_same d f a : runtime d (modify_runtime d f a) = f (runtime d a).
Proof. unfold runtime, modify_runtime; simpl. now rewrite Nat.eqb_refl. Qed.

Lemma runtime_modify_other d d' f a :
  d' <> d -> runtime d' (modify_runtime d f a) = runtime d' a.
Proof.
  intro H. unfold runtime, modify_runtime; simpl.
  apply Nat.eqb_neq in H. now rewrite H.
Qed.

Lemma runtime_put_same d r a : runtime d (put_runtime d r a) = r.
Proof. unfold put_runtime. now rewrite runtime_modify_same. Qed.

Lemma runtime_put_other d d' r a : d' <> d -> runtime d' (put_runtime d r a) = runtime d' a.
Proof. intro H. unfold put_runtime. now rewrite runtime_modify_other. Qed.

Lemma runtime_set_withdrawn d w a : runtime d (set_withdrawn w a) = runtime d a.
Proof. reflexivity. Qed.

Lemma ParallelForRNG_Forall2 {A B} (R : A -> B -> Prop) (body : A -> RandomEngine -> B) engines l :
  (forall a e, R a (body a e)) ->
  forall i, Forall2 R l (ParallelForRNG body engines i l).
Proof.
  intro H. induction l as [|a l IH]; intro i; simpl; constructor; auto.
Qed.

(** ** Commuting: moveAgentsToWork and moveAgentsToHome *)

Lemma inHospital_set_pos p a : inHospital (set_pos p a) = inHospital a.
Proof. reflexivity. Qed.

(** C9. After moveAgentsToWork and then moveAgentsToHome the position of
    every agent that is not in hospital is the position of its home cell,
    which for census data is the point ((home_i + 0.5) dx0, (home_j + 0.5) dx1);
    an agent in hospital is left as it was by each of the two calls, and
    so by both. *)
Theorem moveAgentsToWork_then_Home (g : Geometry) (agents : list Agent) :
  moveAgentsToHome g (moveAgentsToWork g agents)
  = map (fun a => if inHospital a then a
                  else set_pos (cell_position g (home_i a) (home_j a)) a) agents
  /\ Forall2 (fun a a' => if inHospital a then a' = a
                          else pos a' = cell_position g (work_i a) (work_j a))
             agents (moveAgentsToWork g agents)
  /\ Forall2 (fun a a' => if inHospital a then a' = a
                          else pos a' = cell_position g (home_i a) (home_j a))
             agents (moveAgentsToHome g agents)
  /\ (if is_census g
      then forall i j, cell_position g i j
                       = (((inject_Z i + 0.5) * fst (dx g))%Q, ((inject_Z j + 0.5) * snd (dx g))%Q)
      else forall i j, cell_position g i j = grid_to_lnglat g i j).
Proof.
  repeat split.
  - unfold moveAgentsToHome, moveAgentsToWork. rewrite map_map.
    apply map_ext. intro a.
    destruct (inHospital a) eqn:E; simpl.
    + now rewrite E.
    + rewrite inHospital_set_pos, E. reflexivity.
  - unfold moveAgentsToWork. induction agents as [|a l IH]; simpl; constructor; auto.
    destruct (inHospital a); reflexivity.
  - unfold moveAgentsToHome. induction agents as [|a l IH]; simpl; constructor; auto.
    destruct (inHospital a); reflexivity.
  - unfold cell_position. destruct (is_census g); reflexivity.
Qed.

(** ** Shelter in place *)

Definition no_attribs : DiseaseAttribs :=
  mkAttribs Status.never SymptomStatus.presymptomatic 0 0 1 0 0 0.

Definition withdrawn_agent : Agent :=
  mkAgent 3 0 0 0 0 0 (-1) (-1) (-1) (-1) 0 0 0 0 0 1 0 1 (-1) (-1) (0, 0)%Q
          (fun _ => no_attribs).

Definition quiet_engine : RandomEngine :=
  mkEngine (fun _ => 0.5%Q) (fun _ => 5%Q) 0 0.

(** C3, as stated, fails: an agent that had withdrawn (for instance with
    symptoms) before the order is no longer withdrawn after the stop
    command. *)
Lemma shelter_roundtrip_counterexample :
  map withdrawn (shelterStop (shelterStart 0.95 (fun _ => quiet_engine) [withdrawn_agent]))
  <> map withdrawn [withdrawn_agent].
Proof. vm_compute. discriminate. Qed.

(** C3, amended. After shelterStart and then shelterStop every agent has
    withdrawn = 0, whatever the compliance and the draws: the flag has its
    value from before the order exactly for the agents that were not
    withdrawn then. Nothing else of an agent changes. *)
Theorem shelterStart_then_Stop (m_shelter_compliance : Q) (engines : nat -> RandomEngine)
        (agents : list Agent) :
  Forall2 (fun a a' => a' = set_withdrawn 0 a
                       /\ withdrawn a' = 0
                       /\ (withdrawn a' = withdrawn a <-> withdrawn a = 0))
          agents (shelterStop (shelterStart m_shelter_compliance engines agents)).
Proof.
  unfold shelterStop, shelterStart.
  generalize 0%nat. induction agents as [|a l IH]; intro i; simpl; constructor; auto.
  destruct (Qltb _ _); simpl; repeat split; intros; simpl in *; congruence.
Qed.

(** ** getTotals *)

Definition component (v : list Z) (i : nat) : Z := nth i v 0.

Definition first_five (v : list Z) : Z :=
  component v 0 + component v 1 + component v 2 + component v 3 + component v 4.

Definition last_four (v : list Z) : Z :=
  component v 5 + component v 6 + component v 7 + component v 8.

Lemma ReduceOpSum_component u : forall v i,
  length u = length v ->
  component (ReduceOpSum u v) i = component u i + component v i.
Proof.
  unfold component.
  induction u as [|x u IH]; intros [|y v] i Hlen; simpl in *; try discriminate.
  - now destruct i.
  - destruct i; [reflexivity|]. apply IH. congruence.
Qed.

Lemma ReduceOpSum_length u : forall v,
  length u = length v -> length (ReduceOpSum u v) = length u.
Proof.
  induction u as [|x u IH]; intros [|y v] Hlen; simpl in *; try discriminate; auto.
Qed.

Lemma totals_body_shape a_d a :
  length (totals_body a_d a) = 9%nat
  /\ first_five (totals_body a_d a) = 1
  /\ last_four (totals_body a_d a) = component (totals_body a_d a) 1.
Proof.
  unfold totals_body.
  destruct (status (runtime a_d a)); simpl; try (repeat split; reflexivity).
  destruct (notInfectiousButInfected a_d a); [repeat split; reflexivity|].
  destruct (symptomatic (runtime a_d a)); repeat split; reflexivity.
Qed.

Lemma getTotals_fold a_d agents : forall acc,
  length acc = 9%nat ->
  let r := fold_left (fun acc a => ReduceOpSum acc (totals_body a_d a)) agents acc in
  length r = 9%nat
  /\ first_five r = first_five acc + Z.of_nat (length agents)
  /\ last_four r - component r 1 = last_four acc - component acc 1.
Proof.
  induction agents as [|a l IH]; intros acc Hacc; simpl.
  - repeat split; auto; lia.
  - destruct (totals_body_shape a_d a) as (Hl & H5 & H4).
    assert (Hlen : length acc = length (totals_body a_d a)) by congruence.
    specialize (IH (ReduceOpSum acc (totals_body a_d a))).
    rewrite ReduceOpSum_length in IH by exact Hlen.
    destruct (IH Hacc) as (IH1 & IH2 & IH3).
    split; [exact IH1|]. split.
    + rewrite IH2. unfold first_five in *.
      rewrite !ReduceOpSum_component by exact Hlen. lia.
    + rewrite IH3. unfold last_four in *.
      rewrite !ReduceOpSum_component by exact Hlen. lia.
Qed.

Ltac flags01 :=
  repeat (apply Forall_cons; [first [now left | now right]|]); apply Forall_nil.

(** C10. getTotals counts every agent in exactly one of its first five
    components and every infected agent in exactly one of its last four:
    per agent the first five flags are 0 or 1 and add up to 1, the last
    four add up to the infected flag; over the tile the first five
    components add up to the number of agents and components 5 to 8 add up
    to component 1. An infected agent whose disease_counter is at most its
    latent_period (equality included) is counted as exposed and in none of
    the symptom components; an agent counted in a symptom component has
    disease_counter above latent_period. *)
Theorem getTotals_partition (a_d : nat) (agents : list Agent) :
  first_five (getTotals a_d agents) = Z.of_nat (length agents)
  /\ last_four (getTotals a_d agents) = component (getTotals a_d agents) 1
  /\ Forall (fun a =>
       let s := totals_body a_d a in
       Forall (fun x => x = 0 \/ x = 1) s
       /\ first_five s = 1
       /\ component s (Status.to_nat (status (runtime a_d a))) = 1
       /\ last_four s
          = (if Status.eqb (status (runtime a_d a)) Status.infected then 1 else 0)
       /\ (if Status.eqb (status (runtime a_d a)) Status.infected
           then if Qle_bool (disease_counter (runtime a_d a)) (latent_period (runtime a_d a))
                then component s 5 = 1 /\ component s 6 = 0
                     /\ component s 7 = 0 /\ component s 8 = 0
                else component s 5 = 0
                     /\ (latent_period (runtime a_d a) < disease_counter (runtime a_d a))%Q
                     /\ component s 6
                        = (if SymptomStatus.eqb (symptomatic (runtime a_d a))
                                                SymptomStatus.asymptomatic then 1 else 0)
                     /\ component s 7
                        = (if SymptomStatus.eqb (symptomatic (runtime a_d a))
                                                SymptomStatus.presymptomatic then 1 else 0)
                     /\ component s 8
                        = (if SymptomStatus.eqb (symptomatic (runtime a_d a))
                                                SymptomStatus.symptomatic then 1 else 0)
           else True))
     agents.
Proof.
  unfold getTotals.
  pose proof (getTotals_fold a_d agents [0; 0; 0; 0; 0; 0; 0; 0; 0] eq_refl) as (_ & H1 & H2).
  split; [rewrite H1; reflexivity|].
  split; [change (last_four [0; 0; 0; 0; 0; 0; 0; 0; 0]) with 0 in H2;
          change (component [0; 0; 0; 0; 0; 0; 0; 0; 0] 1) with 0 in H2; lia|].
  apply Forall_forall. intros a _. cbv zeta.
  unfold totals_body, notInfectiousButInfected.
  destruct (status (runtime a_d a)) eqn:Es; simpl;
    try (split; [flags01|repeat split; reflexivity]).
  destruct (Qle_bool (disease_counter (runtime a_d a)) (latent_period (runtime a_d a))) eqn:Ec.
  - split; [flags01|repeat split; reflexivity].
  - assert (Hlt : (latent_period (runtime a_d a) < disease_counter (runtime a_d a))%Q).
    { apply Qnot_le_lt. intro Hle. apply Qle_bool_iff in Hle. congruence. }
    destruct (symptomatic (runtime a_d a)); simpl;
      (split; [flags01|repeat split; try reflexivity; exact Hlt]).
Qed.

(** ** The infection resolver *)

Definition clamp0 (x : Q) : Q := if Qltb x 0 then 0%Q else x.

Lemma clamp0_nonneg x : (0 <= clamp0 x)%Q.
Proof.
  unfold clamp0. destruct (Qltb x 0) eqn:E.
  - apply Qle_refl.
  - now apply Qltb_ge in E.
Qed.

Lemma incubation_bound (x0 x1 x2 : Q) :
  (0 <= x0)%Q -> (0 <= x1)%Q -> (0 <= x2)%Q ->
  let inc := if Qltb (x1 + x0) x2 then floorQ (x1 + x0) else x2 in
  (0 <= x0)%Q /\ (0 <= x1)%Q /\ (0 <= inc)%Q /\ (inc <= x0 + x1)%Q.
Proof.
  intros H0 H1 H2. cbv zeta.
  destruct (Qltb (x1 + x0) x2) eqn:E.
  - pose proof (floorQ_le (x1 + x0)) as Hle.
    assert (Hs : (0 <= x1 + x0)%Q) by lra.
    pose proof (floorQ_nonneg (x1 + x0) Hs) as Hge.
    repeat split; try assumption.
    apply Qle_trans with (x1 + x0)%Q; [exact Hle|]. rewrite Qplus_comm. apply Qle_refl.
  - apply Qltb_ge in E. repeat split; try assumption.
    apply Qle_trans with (x1 + x0)%Q; [exact E|]. rewrite Qplus_comm. apply Qle_refl.
Qed.

Lemma setInfected_eq (r : DiseaseAttribs) (engine : RandomEngine) (lparm : DiseaseParm) :
  setInfected r engine lparm
  = (let g := fun k => gamma_src engine (n_gamma engine + k) in
     mkAttribs Status.infected (symptomatic r) (treatment_timer r) 0 (prob r)
               (clamp0 (g 0%nat)) (clamp0 (g 1%nat))
               (if Qltb (clamp0 (g 1%nat) + clamp0 (g 0%nat)) (clamp0 (g 2%nat))
                then floorQ (clamp0 (g 1%nat) + clamp0 (g 0%nat))
                else clamp0 (g 2%nat)),
     mkEngine (uniform_src engine) (gamma_src engine) (n_uniform engine)
              (n_gamma engine + 3)).
Proof.
  unfold setInfected, RandomGamma, clamp0. cbv zeta. simpl.
  rewrite Nat.add_0_r.
  replace (n_gamma engine + 1)%nat with (S (n_gamma engine)) by lia.
  replace (n_gamma engine + 2)%nat with (S (S (n_gamma engine))) by lia.
  replace (n_gamma engine + 3)%nat with (S (S (S (n_gamma engine)))) by lia.
  destruct (Qltb (gamma_src engine (n_gamma engine)) 0); simpl;
    destruct (Qltb (gamma_src engine (S (n_gamma engine))) 0); simpl;
      destruct (Qltb (gamma_src engine (S (S (n_gamma engine)))) 0); simpl;
        repeat match goal with
               | |- context [Qltb ?a ?b] => destruct (Qltb a b)
               end; reflexivity.
Qed.

(** C7. In the body of infectAgents, for an agent whose status is never or
    susceptible, the agent becomes infected exactly when the uniform draw
    is below 1 - prob (so with probability 1 - prob for a uniform draw);
    then status is infected, disease_counter is 0, the three periods are
    the next three Gamma draws, each clamped at 0, and an incubation
    period above latent + infectious is replaced by floor(latent +
    infectious), so that 0 <= incubation <= latent + infectious. When the
    draw is not below 1 - prob, and for every other status, the status is
    unchanged (and no Gamma draw is taken). *)
Theorem infect_body_spec (lparm : DiseaseParm) (r : DiseaseAttribs) (engine : RandomEngine) :
  let u := uniform_src engine (n_uniform engine) in
  let g := fun k => gamma_src engine (n_gamma engine + k) in
  let r' := fst (infect_body lparm r engine) in
  let e' := snd (infect_body lparm r engine) in
  if Status.eqb (status r) Status.never || Status.eqb (status r) Status.susceptible then
    if Qltb u (1 - prob r) then
      status r' = Status.infected
      /\ disease_counter r' = 0%Q
      /\ latent_period r' = clamp0 (g 0%nat)
      /\ infectious_period r' = clamp0 (g 1%nat)
      /\ incubation_period r'
         = (if Qltb (clamp0 (g 1%nat) + clamp0 (g 0%nat)) (clamp0 (g 2%nat))
            then floorQ (clamp0 (g 1%nat) + clamp0 (g 0%nat))
            else clamp0 (g 2%nat))
      /\ (0 <= latent_period r')%Q
      /\ (0 <= infectious_period r')%Q
      /\ (0 <= incubation_period r')%Q
      /\ (incubation_period r' <= latent_period r' + infectious_period r')%Q
      /\ n_gamma e' = (n_gamma engine + 3)%nat
    else status r' = status r /\ n_gamma e' = n_gamma engine
  else status r' = status r /\ e' = engine.
Proof.
  cbv zeta. unfold infect_body. cbn [status set_prob prob].
  destruct (Status.eqb (status r) Status.never || Status.eqb (status r) Status.susceptible);
    [|split; reflexivity].
  cbn [Random fst snd].
  destruct (Qltb (uniform_src engine (n_uniform engine)) (1 - prob r)); [|split; reflexivity].
  rewrite setInfected_eq. cbn [fst snd status disease_counter latent_period
                                infectious_period incubation_period n_gamma n_uniform
                                gamma_src uniform_src].
  rewrite !Nat.add_0_r.
  set (g0 := gamma_src engine (n_gamma engine)).
  set (g1 := gamma_src engine (n_gamma engine + 1)).
  set (g2 := gamma_src engine (n_gamma engine + 2)).
  pose proof (incubation_bound (clamp0 g0) (clamp0 g1) (clamp0 g2)
                (clamp0_nonneg g0) (clamp0_nonneg g1) (clamp0_nonneg g2)) as Hshape.
  cbv zeta in Hshape. destruct Hshape as (? & ? & ? & ?).
  repeat split; try reflexivity; assumption.
Qed.

(** ** Loops and relations *)

Lemma Forall2_refl_of {A} (R : A -> A -> Prop) :
  (forall x, R x x) -> forall l, Forall2 R l l.
Proof. intros H l. induction l; constructor; auto. Qed.

Lemma Forall2_trans_of {A} (R : A -> A -> Prop) :
  (forall x y z, R x y -> R y z -> R x z) ->
  forall l1 l2 l3, Forall2 R l1 l2 -> Forall2 R l2 l3 -> Forall2 R l1 l3.
Proof.
  intros H l1 l2 l3 H12. revert l3.
  induction H12; intros l3 H23; inversion H23; subst; constructor; eauto.
Qed.

Lemma Forall2_map_same {A B} (R : A -> B -> Prop) (f : A -> B) l :
  (forall a, R a (f a)) -> Forall2 R l (map f l).
Proof. intro H. induction l; simpl; constructor; auto. Qed.

Lemma for_diseases_rel {T} (R : T -> T -> Prop) (body : nat -> DiseaseParm -> T -> T) :
  (forall x, R x x) ->
  (forall x y z, R x y -> R y z -> R x z) ->
  forall parms,
    (forall d lparm s, In lparm parms -> R s (body d lparm s)) ->
    forall d s, R s (for_diseases body parms d s).
Proof.
  intros Hr Ht parms. induction parms as [|p ps IH]; intros Hb d s; simpl.
  - apply Hr.
  - apply Ht with (body d p s); [apply Hb; left; reflexivity|].
    apply IH. intros; apply Hb; right; assumption.
Qed.

Lemma for_diseases_assert_rel {T} (R : T -> T -> Prop)
      (body : nat -> DiseaseParm -> T -> option T) :
  (forall x, R x x) ->
  (forall x y z, R x y -> R y z -> R x z) ->
  forall parms,
    (forall d lparm s s', In lparm parms -> body d lparm s = Some s' -> R s s') ->
    forall d s s', for_diseases_assert body parms d s = Some s' -> R s s'.
Proof.
  intros Hr Ht parms. induction parms as [|p ps IH]; intros Hb d s s' H; simpl in H.
  - inversion H; subst. apply Hr.
  - destruct (body d p s) as [s1|] eqn:E; [|discriminate].
    apply Ht with s1; [eapply Hb; [left; reflexivity|exact E]|].
    eapply IH; [|exact H]. intros; eapply Hb; [right; eassumption|eassumption].
Qed.

Lemma ParallelFor_assert_Forall2 {A B} (R : A -> B -> Prop) (body : A -> option B) :
  forall l l',
    (forall a b, In a l -> body a = Some b -> R a b) ->
    ParallelFor_assert body l = Some l' -> Forall2 R l l'.
Proof.
  induction l as [|a l IH]; intros l' Hb H; simpl in H.
  - inversion H; constructor.
  - destruct (body a) as [b|] eqn:E; [|discriminate].
    destruct (ParallelFor_assert body l) as [bs|] eqn:E'; [|discriminate].
    inversion H; subst. constructor.
    + apply Hb; [now left|exact E].
    + apply IH; [|reflexivity]. intros; apply Hb; [now right|assumption].
Qed.

Lemma ParallelForRNG_assert_Forall2 {A B} (R : A -> B -> Prop)
      (body : A -> RandomEngine -> option (B * RandomEngine)) engines :
  (forall a e b e', body a e = Some (b, e') -> R a b) ->
  forall l i l', ParallelForRNG_assert body engines i l = Some l' -> Forall2 R l l'.
Proof.
  intro Hb. induction l as [|a l IH]; intros i l' H; simpl in H.
  - inversion H; constructor.
  - destruct (body a (engines i)) as [[b e']|] eqn:E; [|discriminate].
    destruct (ParallelForRNG_assert body engines (S i) l) as [bs|] eqn:E'; [|discriminate].
    inversion H; subst. constructor; [eapply Hb; exact E|eapply IH; exact E'].
Qed.

Lemma Forall2_Forall_r {A B} (R : A -> B -> Prop) (P : A -> Prop) (Q : B -> Prop) l l' :
  (forall a b, R a b -> P a -> Q b) -> Forall2 R l l' -> Forall P l -> Forall Q l'.
Proof.
  intros H H2. induction H2; intro HP; inversion HP; subst; constructor; eauto.
Qed.

(** ** The hospital model: one disease of one agent *)

Definition hospitalised_agent : Agent :=
  mkAgent AgeGroups.o65 0 0 0 0 0 0 0 (-1) (-1) 0 0 0 0 0 0 0 1 (-1) (-1) (0.5, 0.5)%Q
          (fun d => match d with
                    | O => mkAttribs Status.infected SymptomStatus.symptomatic 21 10 1 3 5 4
                    | _ => mkAttribs Status.immune SymptomStatus.presymptomatic 0 50 1 3 5 4
                    end).

(** The probability row read by the outcome draw when the decremented
    timer is [t1]: ventilator, ICU or hospital, or none away from the
    phase boundaries. *)
Definition outcome_row (disease_parm : DiseaseParm) (t1 : Q) : option Z :=
  if Qeq_bool t1 (2 * m_t_hosp_offset disease_parm) then Some AgeGroups_Hosp.o65
  else if Qeq_bool t1 (m_t_hosp_offset disease_parm) then Some AgeGroups_Hosp.a50to64
  else if Qeq_bool t1 0 then Some AgeGroups_Hosp.u50
  else None.

(** C6. For a hospitalised agent and a disease, the treatment body leaves
    everything as it is (timer and status included, no draw) when
    disease_counter = floor(incubation_period), or the timer is 0, or the
    agent is marked dead. Otherwise (the agent being infected, which the
    kernel asserts) the timer is decremented by 1 and at most one uniform
    draw is taken: when the decremented timer equals 2 T_offset, T_offset
    or 0 the draw is compared with row 2 (ventilator), 1 (ICU) or 0
    (hospital) of hospToDeath at the agent's age group; on death the
    status is dead and the timer stays decremented, on survival the status
    is immune and the timer is set to 0. Away from the boundaries, and
    with no flag left on the agent, nothing but the timer changes and no
    draw is taken. *)
Theorem treat_body_spec (disease_parm : DiseaseParm) (d : nat) (a : Agent) (h : HospAux)
        (engine : RandomEngine) :
  (0 < m_t_hosp_offset disease_parm)%Q ->
  inHospital a = true ->
  let r := runtime d a in
  let t1 := (treatment_timer r - 1)%Q in
  let u := uniform_src engine (n_uniform engine) in
  if Qeq_bool (disease_counter r) (floorQ (incubation_period r))
     || Qeq_bool (treatment_timer r) 0 || (is_alive h =? 0)
  then treat_body disease_parm d (a, h) engine = Some (a, h, engine)
  else if negb (Status.eqb (status r) Status.infected)
  then treat_body disease_parm d (a, h) engine = None
  else
    exists a' h' e',
      treat_body disease_parm d (a, h) engine = Some (a', h', e')
      /\ (n_uniform e' <= n_uniform engine + 1)%nat
      /\ match outcome_row disease_parm t1 with
         | Some row =>
             n_uniform e' = (n_uniform engine + 1)%nat
             /\ if Qltb u (arr2 (m_hospToDeath disease_parm) row (age_group a))
                then status (runtime d a') = Status.dead
                     /\ treatment_timer (runtime d a') = t1
                     /\ is_alive h' = 0 /\ flag_status h' = - (row + 1)
                else status (runtime d a') = Status.immune
                     /\ treatment_timer (runtime d a') = 0%Q
                     /\ disease_counter (runtime d a') = gamma_src engine (n_gamma engine)
                     /\ symptomatic (runtime d a') = SymptomStatus.presymptomatic
                     /\ withdrawn a' = 0
                     /\ is_alive h' = is_alive h /\ flag_status h' = row + 1
         | None =>
             treatment_timer (runtime d a') = t1 \/ treatment_timer (runtime d a') = 0%Q
         end
      /\ (if flag_status h >? 0 then True
          else match outcome_row disease_parm t1 with
               | Some _ => True
               | None => a' = put_runtime d (set_timer t1 r) a /\ h' = h /\ e' = engine
               end).
Proof.
  intros Hoff Hin. cbv zeta. unfold treat_body.
  rewrite Hin. cbn [negb].
  destruct (Qeq_bool (disease_counter (runtime d a)) (floorQ (incubation_period (runtime d a))));
    [reflexivity|].
  destruct (Qeq_bool (treatment_timer (runtime d a)) 0); [reflexivity|].
  destruct (is_alive h =? 0) eqn:Ealive; [reflexivity|]. cbn [orb].
  destruct (negb (Status.eqb (status (runtime d a)) Status.infected)); [reflexivity|].
  cbn [treatment_timer set_timer].
  set (t1 := (treatment_timer (runtime d a) - 1)%Q).
  unfold outcome_row.
  assert (Hexcl1 : Qeq_bool t1 (2 * m_t_hosp_offset disease_parm) = true ->
                   Qeq_bool t1 0 = false /\ Qeq_bool t1 (m_t_hosp_offset disease_parm) = false).
  { intro E. apply Qeq_bool_iff in E. split; apply not_true_is_false; intro E';
      apply Qeq_bool_iff in E'; lra. }
  assert (Hexcl2 : Qeq_bool t1 (m_t_hosp_offset disease_parm) = true -> Qeq_bool t1 0 = false).
  { intro E. apply Qeq_bool_iff in E. apply not_true_is_false; intro E';
      apply Qeq_bool_iff in E'; lra. }
  destruct (Qeq_bool t1 (2 * m_t_hosp_offset disease_parm)) eqn:E2.
  { destruct (Hexcl1 eq_refl) as [-> ->].
    cbn [Z.gtb Z.compare DiseaseStats.ventilator Z.add Pos.add Random fst snd n_uniform uniform_src].
    change (DiseaseStats.ventilator + 1 >? 0) with true. cbv iota.
    change (DiseaseStats.ventilator + 1 - 1) with AgeGroups_Hosp.o65.
    destruct (Qltb _ _).
    - do 3 eexists. split; [reflexivity|]. cbn [n_uniform].
      rewrite runtime_put_same.
      repeat split; try reflexivity; try lia. destruct (flag_status h >? 0); exact I.
    - cbn [RandomGamma]. do 3 eexists. split; [reflexivity|]. cbn [n_uniform].
      rewrite runtime_set_withdrawn, runtime_put_same.
      repeat split; try reflexivity; try lia. destruct (flag_status h >? 0); exact I. }
  destruct (Qeq_bool t1 (m_t_hosp_offset disease_parm)) eqn:E1.
  { rewrite (Hexcl2 eq_refl).
    change (DiseaseStats.ICU + 1 >? 0) with true. cbv iota.
    change (DiseaseStats.ICU + 1 - 1) with AgeGroups_Hosp.a50to64.
    cbn [Random fst snd n_uniform uniform_src].
    destruct (Qltb _ _).
    - do 3 eexists. split; [reflexivity|]. cbn [n_uniform].
      rewrite runtime_put_same.
      repeat split; try reflexivity; try lia. destruct (flag_status h >? 0); exact I.
    - cbn [RandomGamma]. do 3 eexists. split; [reflexivity|]. cbn [n_uniform].
      rewrite runtime_set_withdrawn, runtime_put_same.
      repeat split; try reflexivity; try lia. destruct (flag_status h >? 0); exact I. }
  destruct (Qeq_bool t1 0) eqn:E0.
  { change (DiseaseStats.hospitalization + 1 >? 0) with true. cbv iota.
    change (DiseaseStats.hospitalization + 1 - 1) with AgeGroups_Hosp.u50.
    cbn [Random fst snd n_uniform uniform_src].
    destruct (Qltb _ _).
    - do 3 eexists. split; [reflexivity|]. cbn [n_uniform].
      rewrite runtime_put_same.
      repeat split; try reflexivity; try lia. destruct (flag_status h >? 0); exact I.
    - cbn [RandomGamma]. do 3 eexists. split; [reflexivity|]. cbn [n_uniform].
      rewrite runtime_set_withdrawn, runtime_put_same.
      repeat split; try reflexivity; try lia. destruct (flag_status h >? 0); exact I. }
  destruct (flag_status h >? 0) eqn:Ef.
  - cbn [Random fst snd n_uniform uniform_src].
    destruct (Qltb _ _).
    + do 3 eexists. split; [reflexivity|]. cbn [n_uniform].
      rewrite runtime_put_same. repeat split; try lia. now left.
    + cbn [RandomGamma]. do 3 eexists. split; [reflexivity|]. cbn [n_uniform].
      rewrite runtime_set_withdrawn, runtime_put_same. repeat split; try lia. now right.
  - do 3 eexists. split; [reflexivity|].
    rewrite runtime_put_same. repeat split; try lia; try reflexivity.
    + now left.
    + destruct h; reflexivity.
Qed.

Definition alive_unflagged : HospAux := mkAux 1 0.

(** A patient of 65 or more whose timer goes from 21 to 20 = 2 T_offset
    ends the ventilator phase; with the default table the draw 0.5 is
    below hospToDeath[2][o65] = 1 and the patient dies. *)
Lemma treat_body_spec_witness :
  exists a' h' e',
    treat_body default_parm 0 (hospitalised_agent, alive_unflagged) quiet_engine
    = Some (a', h', e')
    /\ status (runtime 0 a') = Status.dead
    /\ flag_status h' = -3.
Proof.
  pose proof (treat_body_spec default_parm 0 hospitalised_agent alive_unflagged quiet_engine
                              eq_refl eq_refl) as H.
  vm_compute in H.
  destruct H as (a' & h' & e' & Heq & _ & (_ & Hs & _ & _ & Hf) & _).
  exists a', h', e'. split; [vm_compute; exact Heq|]. split; [exact Hs|exact Hf].
Defined.

(** ** The hospital model: statistics *)

Definition census_geometry : Geometry :=
  mkGeometry true (1, 1)%Q (fun i j => (inject_Z i, inject_Z j)).

Definition no_stats : nat -> Stats := fun _ _ _ _ => 0%Q.

(** C1, as stated, fails: the patient of [hospitalised_agent] dies at the
    end of the ventilator phase; the death counter of its community goes
    up by one, and the hospitalization, ICU and ventilator counters each
    go down by one. *)
Lemma death_statistics_counterexample :
  match treatAgents census_geometry [default_parm] (fun _ _ => quiet_engine)
                    [hospitalised_agent] no_stats with
  | Some (agents, stats) =>
      Forall (fun a => status (runtime 0 a) = Status.dead) agents
      /\ (stats 0%nat 0%Z 0%Z DiseaseStats.death == 1)%Q
      /\ ~ (stats 0%nat 0%Z 0%Z DiseaseStats.hospitalization == 0)%Q
      /\ ~ (stats 0%nat 0%Z 0%Z DiseaseStats.ICU == 0)%Q
      /\ ~ (stats 0%nat 0%Z 0%Z DiseaseStats.ventilator == 0)%Q
  | None => False
  end.
Proof.
  vm_compute. split; [repeat constructor|].
  repeat split; intro H; discriminate H.
Qed.

Lemma AtomicAddStat_other ds i j n v i' j' n' :
  (i', j', n') <> (i, j, n) -> AtomicAddStat ds i j n v i' j' n' = ds i' j' n'.
Proof.
  intro H. unfold AtomicAddStat.
  destruct (i' =? i) eqn:Ei; [|reflexivity].
  destruct (j' =? j) eqn:Ej; [|reflexivity].
  destruct (n' =? n) eqn:En; [|reflexivity].
  apply Z.eqb_eq in Ei, Ej, En. subst. congruence.
Qed.

(** C1, amended. For an agent whose outcome draw produced death (negative
    flag, of magnitude 1, 2 or 3 for the end of the hospital, ICU or
    ventilator phase) the statistics kernel adds 1 to the death counter of
    the home community and, exactly as for a survivor, subtracts 1 from
    the hospitalization counter, from the ICU counter when the magnitude
    is above 1, and from the ventilator counter when it is above 2. For a
    survivor only the death counter differs (it is unchanged). No other
    community is touched. *)
Theorem outcome_stats_body_spec (ds_arr : Stats) (a : Agent) (h : HospAux) :
  let ds := outcome_stats_body ds_arr (a, h) in
  let f := flag_status h in
  let here := ds (home_i a) (home_j a) in
  let before := ds_arr (home_i a) (home_j a) in
  (here DiseaseStats.death
   == before DiseaseStats.death + (if f <? 0 then 1 else 0))%Q
  /\ (here DiseaseStats.hospitalization
      == before DiseaseStats.hospitalization - (if Z.abs f >? 0 then 1 else 0))%Q
  /\ (here DiseaseStats.ICU
      == before DiseaseStats.ICU - (if Z.abs f >? 1 then 1 else 0))%Q
  /\ (here DiseaseStats.ventilator
      == before DiseaseStats.ventilator - (if Z.abs f >? 2 then 1 else 0))%Q
  /\ (forall i j n, (i, j) <> (home_i a, home_j a) -> ds i j n = ds_arr i j n).
Proof.
  cbv zeta. unfold outcome_stats_body.
  change DiseaseStats.hospitalization with 0. change DiseaseStats.ICU with 1.
  change DiseaseStats.ventilator with 2. change DiseaseStats.death with 3.
  destruct (flag_status h <? 0), (Z.abs (flag_status h) >? 0),
           (Z.abs (flag_status h) >? 1), (Z.abs (flag_status h) >? 2);
    (split; [|split; [|split; [|split]]]);
    try (intros i j n Hne;
         rewrite ?AtomicAddStat_other by (intro E; inversion E; subst; congruence);
         reflexivity);
    unfold AtomicAddStat; rewrite ?Z.eqb_refl; cbn [andb Z.eqb Pos.eqb]; ring.
Qed.

(** ** Death is shared by all diseases *)

Definition all_dead (n_disease : nat) (a : Agent) : Prop :=
  forall d, (d < n_disease)%nat -> status (runtime d a) = Status.dead.

Definition none_dead (n_disease : nat) (a : Agent) : Prop :=
  forall d, (d < n_disease)%nat -> status (runtime d a) <> Status.dead.

(** Invariant 1 of the data model, for the diseases [0 .. n_disease - 1]. *)
Definition dead_coupled (n_disease : nat) (a : Agent) : Prop :=
  (exists d, (d < n_disease)%nat /\ status (runtime d a) = Status.dead) ->
  all_dead n_disease a.

(** What holds of an agent and its auxiliary entries between the kernels
    of treatAgents. *)
Definition treat_inv (n_disease : nat) (x : Agent * HospAux) : Prop :=
  (is_alive (snd x) <> 0 -> none_dead n_disease (fst x))
  /\ (is_alive (snd x) = 0 -> inHospital (fst x) = true \/ all_dead n_disease (fst x))
  /\ (flag_status (snd x) < 0 -> is_alive (snd x) = 0 /\ inHospital (fst x) = true).

Lemma alive_body_inv n a x : alive_body n a = Some x -> treat_inv n x.
Proof.
  unfold alive_body, treat_inv.
  destruct (Status.eqb (status (runtime 0 a)) Status.dead) eqn:E0.
  - destruct (forallb _ _) eqn:Ef; [|discriminate]. intro H; inversion H; subst; simpl.
    repeat split; try congruence; try lia.
    intros _. right. intros d Hd. destruct d.
    + now apply Status_eqb_eq.
    + rewrite forallb_forall in Ef. apply Status_eqb_eq, Ef, in_seq. lia.
  - destruct (forallb _ _) eqn:Ef; [|discriminate]. intro H; inversion H; subst; simpl.
    repeat split; try congruence; try lia.
    intros _ d Hd. destruct d.
    + now apply Status_eqb_neq.
    + rewrite forallb_forall in Ef. apply Status_eqb_neq, negb_true_iff, Ef, in_seq. lia.
Qed.

Lemma treat_body_inv n disease_parm d x engine x' e' :
  treat_body disease_parm d x engine = Some (x', e') -> treat_inv n x -> treat_inv n x'.
Proof.
  destruct x as [a h]. unfold treat_body.
  destruct (negb (inHospital a)) eqn:Ehosp; [intro H; inversion H; subst; auto|].
  destruct (Qeq_bool _ _); [intro H; inversion H; subst; auto|].
  destruct (Qeq_bool _ _); [intro H; inversion H; subst; auto|].
  destruct (is_alive h =? 0) eqn:Ealive; [intro H; inversion H; subst; auto|].
  destruct (negb (Status.eqb _ _)); [discriminate|].
  apply negb_false_iff in Ehosp. apply Z.eqb_neq in Ealive.
  match goal with |- context [if ?c >? 0 then _ else _] => set (flag := c) end.
  pose proof (Zgt_cases flag 0) as Hflag.
  destruct (flag >? 0).
  - cbn [Random]. destruct (Qltb _ _).
    + intro H; inversion H; subst x' e'. intros _. unfold treat_inv; simpl.
      split; [congruence|]. split; [now left|]. intros _. split; [reflexivity|exact Ehosp].
    + cbn [RandomGamma]. intro H; inversion H; subst x' e'.
      intros (J1 & _ & _). unfold treat_inv; cbn [fst snd is_alive flag_status].
      split; [|split; [congruence|lia]].
      intros Hal d' Hd'. rewrite runtime_set_withdrawn.
      destruct (Nat.eq_dec d' d) as [->|Hne].
      * rewrite runtime_put_same. simpl. discriminate.
      * rewrite runtime_put_other by exact Hne. now apply J1.
  - intro H; inversion H; subst x' e'.
    intros (J1 & _ & J3). unfold treat_inv; cbn [fst snd is_alive flag_status] in *.
    split; [|split; [congruence|]].
    + intros Hal d' Hd'.
      destruct (Nat.eq_dec d' d) as [->|Hne].
      * rewrite runtime_put_same. simpl. now apply J1.
      * rewrite runtime_put_other by exact Hne. now apply J1.
    + intro Hneg. exfalso. subst flag.
      repeat match goal with
             | H : context [if ?c then _ else _] |- _ => destruct c
             end; try (unfold DiseaseStats.hospitalization, DiseaseStats.ICU,
                       DiseaseStats.ventilator in *; lia).
Qed.

Lemma kill_all_diseases l : forall a d,
  In d l \/ status (runtime d a) = Status.dead ->
  status (runtime d (fold_left (fun a d => modify_runtime d (set_status Status.dead) a) l a))
  = Status.dead.
Proof.
  induction l as [|x l IH]; intros a d H; simpl.
  - destruct H as [[]|H]; exact H.
  - apply IH. destruct (Nat.eq_dec d x) as [->|Hne].
    + right. now rewrite runtime_modify_same.
    + destruct H as [[Hx|Hin]|Hd]; [congruence|now left|].
      right. now rewrite runtime_modify_other.
Qed.

Lemma discharge_body_coupled g n x :
  treat_inv n x ->
  dead_coupled n (fst (discharge_body g n x))
  /\ (flag_status (snd (discharge_body g n x)) < 0 -> all_dead n (fst (discharge_body g n x))).
Proof.
  destruct x as [a h]. intros (J1 & J2 & J3). cbn [fst snd] in *.
  assert (Hbase : is_alive h <> 0 -> dead_coupled n a).
  { intros Hal (d & Hd & Hdead). exfalso. exact (J1 Hal d Hd Hdead). }
  unfold discharge_body.
  destruct (negb (inHospital a)) eqn:Ehosp.
  - apply negb_true_iff in Ehosp. cbn [fst snd]. split.
    + destruct (Z.eq_dec (is_alive h) 0) as [E|E]; [|now apply Hbase].
      destruct (J2 E) as [Hh|Hd]; [congruence|]. intros _. exact Hd.
    + intro Hf. destruct (J3 Hf) as [_ Hh]. congruence.
  - destruct (is_alive h =? 0) eqn:Ealive.
    + cbn [fst snd].
      assert (Hall : all_dead n
                (set_withdrawn 0 (set_hosp (-1) (-1)
                   (fold_left (fun a d => modify_runtime d (set_status Status.dead) a)
                              (seq 0 n) a)))).
      { intros d Hd. change (runtime d (set_withdrawn 0 (set_hosp (-1) (-1) ?y)))
                       with (runtime d y).
        apply kill_all_diseases. left. apply in_seq. lia. }
      split; [intros _; exact Hall|intros _; exact Hall].
    + apply Z.eqb_neq in Ealive.
      assert (Hnone : forall y, (forall d, runtime d y = runtime d a) ->
                                dead_coupled n y
                                /\ (flag_status h < 0 -> all_dead n y)).
      { intros y Hy. split.
        - intros (d & Hd & Hdead). exfalso. rewrite Hy in Hdead. exact (J1 Ealive d Hd Hdead).
        - intro Hf. destruct (J3 Hf) as [Hal _]. congruence. }
      destruct (Qeq_bool _ 0); cbn [fst snd]; apply Hnone; reflexivity.
Qed.

Lemma treat_tile_coupled g parms engines agents xs :
  treat_tile g parms engines agents = Some xs ->
  Forall (fun x => dead_coupled (length parms) (fst x)
                   /\ (flag_status (snd x) < 0 -> all_dead (length parms) (fst x))) xs.
Proof.
  unfold treat_tile. set (n := length parms).
  destruct (ParallelFor_assert (alive_body n) agents) as [xs0|] eqn:E0; [|discriminate].
  destruct (for_diseases_assert _ parms 0%nat xs0) as [xs1|] eqn:E1; [|discriminate].
  intro H; inversion H; subst xs. clear H.
  assert (H0 : Forall (treat_inv n) xs0).
  { eapply Forall2_Forall_r with (P := fun _ => True);
      [|eapply ParallelFor_assert_Forall2 with (R := fun a x => alive_body n a = Some x);
        [|exact E0]|].
    - intros a b Hab _. exact (alive_body_inv n a b Hab).
    - intros a b _ Hab. exact Hab.
    - apply Forall_forall. intros; exact I. }
  assert (H1 : Forall (treat_inv n) xs1).
  { eapply Forall2_Forall_r with (R := fun x x' => treat_inv n x -> treat_inv n x');
      [intros a b Hab Ha; exact (Hab Ha)| |exact H0].
    eapply for_diseases_assert_rel
      with (R := Forall2 (fun x x' => treat_inv n x -> treat_inv n x')); [| | |exact E1].
    - apply Forall2_refl_of. auto.
    - apply Forall2_trans_of. auto.
    - intros d lparm s s' _ Hs.
      eapply ParallelForRNG_assert_Forall2; [|exact Hs].
      intros a e b e' Hb. now apply treat_body_inv with (1 := Hb). }
  apply Forall_forall. intros x' Hin. apply in_map_iff in Hin.
  destruct Hin as (x & <- & Hin).
  apply discharge_body_coupled. rewrite Forall_forall in H1. now apply H1.
Qed.

(** The infection resolver neither makes nor unmakes a dead status. *)
Definition same_dead (a a' : Agent) : Prop :=
  forall d, status (runtime d a') = Status.dead <-> status (runtime d a) = Status.dead.

Lemma infect_body_dead lparm r engine :
  status (fst (infect_body lparm r engine)) = Status.dead <-> status r = Status.dead.
Proof.
  unfold infect_body. cbn [status set_prob].
  destruct (status r) eqn:Es; cbn [Status.eqb orb]; try (simpl; rewrite Es; tauto).
  - cbn [Random]. destruct (Qltb _ _).
    + rewrite setInfected_eq. simpl. split; discriminate.
    + simpl. rewrite Es. tauto.
  - cbn [Random]. destruct (Qltb _ _).
    + rewrite setInfected_eq. simpl. split; discriminate.
    + simpl. rewrite Es. tauto.
Qed.

Lemma infectAgents_same_dead parms engines agents :
  Forall2 same_dead agents (infectAgents parms engines agents).
Proof.
  unfold infectAgents.
  apply for_diseases_rel with (R := Forall2 same_dead).
  - apply Forall2_refl_of. intros x d. tauto.
  - apply Forall2_trans_of. intros x y z Hxy Hyz d.
    split; intro H; [apply Hxy, Hyz, H | apply Hyz, Hxy, H].
  - intros d lparm s _. apply ParallelForRNG_Forall2. intros a e d'.
    destruct (Nat.eq_dec d' d) as [->|Hne].
    + rewrite runtime_modify_same. apply infect_body_dead.
    + rewrite runtime_modify_other by exact Hne. tauto.
Qed.

Lemma dead_coupled_same_dead n a a' : same_dead a a' -> dead_coupled n a -> dead_coupled n a'.
Proof.
  intros Hs Hc (d & Hd & Hdead) d' Hd'. apply Hs. apply Hc; [|exact Hd'].
  exists d. split; [exact Hd|]. now apply Hs.
Qed.

(** C8. After updateStatus (disease progression, hospital treatment and
    the move to hospital), and again after infectAgents, every agent is
    dead for all diseases as soon as it is dead for one. In particular an
    agent for which an outcome draw of the hospital model produced death
    (negative flag) leaves that same kernel dead for every disease. The
    daily update completes whenever the kernels of treatAgents pass their
    assertions. *)
Theorem dead_for_all_diseases (g : Geometry) (parms : list DiseaseParm)
        (symptomatic_withdraw_compliance : Q)
        (status_engines hospital_engines infect_engines : nat -> nat -> RandomEngine)
        (agents : list Agent) (a_disease_stats : nat -> Stats)
        (xs : list (Agent * HospAux)) :
  treat_tile g parms hospital_engines
             (fst (updateAgents parms symptomatic_withdraw_compliance status_engines
                                agents a_disease_stats)) = Some xs ->
  let agents' := map (to_hospital_position g) (map fst xs) in
  (exists stats',
      updateStatus g parms symptomatic_withdraw_compliance status_engines hospital_engines
                   agents a_disease_stats = Some (agents', stats'))
  /\ Forall (fun x => flag_status (snd x) < 0 -> all_dead (length parms) (fst x)) xs
  /\ Forall (dead_coupled (length parms)) agents'
  /\ Forall (dead_coupled (length parms)) (infectAgents parms infect_engines agents').
Proof.
  intros Htile agents'.
  pose proof (treat_tile_coupled _ _ _ _ _ Htile) as Hxs.
  assert (Hc : Forall (dead_coupled (length parms)) agents').
  { unfold agents'. rewrite map_map. apply Forall_forall. intros a Hin.
    apply in_map_iff in Hin. destruct Hin as (x & <- & Hin). rewrite Forall_forall in Hxs.
    destruct (Hxs x Hin) as [Hcx _]. unfold to_hospital_position.
    destruct (inHospital (fst x)); exact Hcx. }
  split; [|split; [|split]].
  - unfold updateStatus.
    destruct (updateAgents parms symptomatic_withdraw_compliance status_engines
                           agents a_disease_stats) as [ags1 st1].
    cbn [fst] in Htile. unfold treatAgents. rewrite Htile.
    eexists. reflexivity.
  - eapply Forall_impl; [|exact Hxs]. intros x [_ H]. exact H.
  - exact Hc.
  - eapply Forall2_Forall_r; [|apply infectAgents_same_dead|exact Hc].
    intros a b Hab Ha. exact (dead_coupled_same_dead _ _ _ Hab Ha).
Qed.

Definition two_diseases : list DiseaseParm := [default_parm; default_parm].

(** The patient of [hospitalised_agent], immune to a second disease, dies
    of the first: it leaves the daily update dead for both. *)
Lemma dead_for_all_diseases_witness :
  exists xs,
    treat_tile census_geometry two_diseases (fun _ _ => quiet_engine)
               (fst (updateAgents two_diseases 0.95 (fun _ _ => quiet_engine)
                                  [hospitalised_agent] no_stats)) = Some xs
    /\ map (fun x => (status (runtime 0 (fst x)), status (runtime 1 (fst x)),
                      flag_status (snd x))) xs
       = [(Status.dead, Status.dead, -3)]
    /\ Forall (dead_coupled 2) (map (to_hospital_position census_geometry) (map fst xs)).
Proof.
  destruct (treat_tile census_geometry two_diseases (fun _ _ => quiet_engine)
               (fst (updateAgents two_diseases 0.95 (fun _ _ => quiet_engine)
                                  [hospitalised_agent] no_stats))) as [xs|] eqn:E1;
    [|vm_compute in E1; discriminate E1].
  exists xs. split; [reflexivity|]. split.
  - vm_compute in E1. inversion E1. reflexivity.
  - exact (proj1 (proj2 (proj2 (dead_for_all_diseases census_geometry two_diseases 0.95
                           (fun _ _ => quiet_engine) (fun _ _ => quiet_engine)
                           (fun _ _ => quiet_engine) [hospitalised_agent] no_stats
                           xs E1)))).
Defined.

(** ** The survival accumulator *)

Definition unit_interval (x : Q) : Prop := (0 <= x)%Q /\ (x <= 1)%Q.

(** Every transmission probability of the parameter block, and the
    infection factor 1 - vac_eff, lie in the unit interval. *)
Definition parm_unit (lparm : DiseaseParm) : Prop :=
  Forall unit_interval (xmit_comm lparm)
  /\ Forall unit_interval (xmit_hood lparm)
  /\ Forall unit_interval (xmit_hh_adult lparm)
  /\ Forall unit_interval (xmit_hh_child lparm)
  /\ Forall unit_interval (xmit_nc_adult lparm)
  /\ Forall unit_interval (xmit_nc_child lparm)
  /\ Forall unit_interval (xmit_school lparm)
  /\ Forall unit_interval (xmit_school_a2c lparm)
  /\ Forall unit_interval (xmit_school_c2a lparm)
  /\ unit_interval (xmit_work lparm)
  /\ unit_interval (1 - vac_eff lparm)%Q.

(** Between two states of an agent: every accumulator that was in the
    unit interval is still non-negative and has not grown. *)
Definition prob_decreasing (a a' : Agent) : Prop :=
  forall d, unit_interval (prob (runtime d a)) ->
            (0 <= prob (runtime d a'))%Q /\ (prob (runtime d a') <= prob (runtime d a))%Q.

Definition nonneg_counter (c : Counter) : Prop := forall k, 0 <= c k.

Lemma arr_unit l i : Forall unit_interval l -> unit_interval (arr l i).
Proof.
  intro H. unfold arr. destruct (nth_in_or_default (Z.to_nat i) l 0%Q) as [Hin | Hdef].
  - rewrite Forall_forall in H. now apply H.
  - rewrite Hdef. split; [apply Qle_refl|discriminate].
Qed.

Lemma survival_base_unit infect xmit :
  unit_interval infect -> unit_interval xmit -> unit_interval (1 - infect * xmit * 1)%Q.
Proof.
  intros [Hi0 Hi1] [Hx0 Hx1]. unfold unit_interval.
  assert (H0 : (0 <= infect * xmit)%Q) by (apply Qmult_le_0_compat; assumption).
  assert (H1 : (infect * xmit <= 1 * 1)%Q).
  { apply Qle_trans with (1 * xmit)%Q.
    - apply Qmult_le_compat_r; assumption.
    - rewrite !Qmult_1_l. exact Hx1. }
  rewrite Qmult_1_l in H1. rewrite Qmult_1_r. split; lra.
Qed.

Lemma Qpower_unit b n : unit_interval b -> 0 <= n -> unit_interval (Qpower b n).
Proof.
  intros [Hb0 Hb1] Hn. pattern n. apply natlike_ind; [| |exact Hn].
  - simpl. split; discriminate.
  - intros k Hk [IH0 IH1].
    assert (E : (b ^ Z.succ k == b ^ k * b)%Q).
    { unfold Z.succ. rewrite Qpower_plus' by lia. simpl (b ^ 1)%Q. reflexivity. }
    unfold unit_interval. rewrite E. split.
    + apply Qmult_le_0_compat; assumption.
    + apply Qle_trans with (1 * b)%Q.
      * apply Qmult_le_compat_r; assumption.
      * rewrite Qmult_1_l. exact Hb1.
Qed.

Lemma prob_decreasing_refl a : prob_decreasing a a.
Proof. intros d [H0 H1]. split; [exact H0|apply Qle_refl]. Qed.

Lemma prob_decreasing_trans a b c :
  prob_decreasing a b -> prob_decreasing b c -> prob_decreasing a c.
Proof.
  intros Hab Hbc d Ha. destruct (Hab d Ha) as [Hb0 Hb1].
  assert (Hb : unit_interval (prob (runtime d b))).
  { split; [exact Hb0|]. destruct Ha as [_ Ha1]. eapply Qle_trans; eassumption. }
  destruct (Hbc d Hb) as [Hc0 Hc1]. split; [exact Hc0|eapply Qle_trans; eassumption].
Qed.

Lemma prob_decreasing_same a a' :
  (forall d, runtime d a' = runtime d a) -> prob_decreasing a a'.
Proof. intros H d Ha. rewrite H. now apply prob_decreasing_refl. Qed.

Lemma mul_prob_decreasing d f a : unit_interval f -> prob_decreasing a (mul_prob d f a).
Proof.
  intros [Hf0 Hf1] d' [Ha0 Ha1]. unfold mul_prob.
  destruct (Nat.eq_dec d' d) as [->|Hne].
  - rewrite runtime_modify_same. cbn [prob set_prob]. split.
    + apply Qmult_le_0_compat; assumption.
    + apply Qle_trans with (1 * prob (runtime d a))%Q.
      * rewrite (Qmult_comm (prob (runtime d a)) f).
        apply Qmult_le_compat_r; assumption.
      * rewrite Qmult_1_l. apply Qle_refl.
  - rewrite runtime_modify_other by exact Hne. split; [exact Ha0|apply Qle_refl].
Qed.

Lemma nonneg_zero : nonneg_counter zero_counter.
Proof. intro k. unfold zero_counter. lia. Qed.

Lemma nonneg_AtomicAdd c idx : nonneg_counter c -> nonneg_counter (AtomicAdd c idx 1).
Proof.
  intros H k. unfold AtomicAdd. specialize (H k). destruct (k =? idx); lia.
Qed.

Lemma tally_loop_inv {C} (P : C -> Prop) (body : C -> Agent -> option C) :
  (forall c a c', P c -> body c a = Some c' -> P c') ->
  forall agents c c', P c -> tally_loop body agents c = Some c' -> P c'.
Proof.
  intro Hb. induction agents as [|a l IH]; intros c c' Hc H; simpl in H.
  - inversion H; subst; exact Hc.
  - destruct (body c a) as [c1|] eqn:E; [|discriminate].
    eapply IH; [|exact H]. eapply Hb; eassumption.
Qed.

Lemma fold_left_inv {A C} (P : C -> Prop) (body : C -> A -> C) :
  (forall c a, P c -> P (body c a)) ->
  forall l c, P c -> P (fold_left body l c).
Proof.
  intro Hb. induction l as [|a l IH]; intros c Hc; simpl; [exact Hc|].
  apply IH, Hb, Hc.
Qed.

Section SurvivalKernels.

Variable comm_index : Q * Q -> Z.
Variable max_communities : Z.

Definition nonneg_home (c : HomeCounters) : Prop :=
  nonneg_counter (infected_family c)
  /\ nonneg_counter (infected_family_not_withdrawn c)
  /\ nonneg_counter (infected_nc c).

Lemma home_count_body_nonneg d adults mf mn nn c a c' :
  nonneg_home c ->
  home_count_body comm_index max_communities d adults mf mn nn c a = Some c' ->
  nonneg_home c'.
Proof.
  intros (H1 & H2 & H3). unfold home_count_body.
  destruct (_ && _ && _); [|intro H; inversion H; subst; repeat split; assumption].
  destruct (negb _); [discriminate|].
  destruct (withdrawn a =? 0); intro H; inversion H; subst; unfold nonneg_home; simpl;
    repeat split; try assumption; apply nonneg_AtomicAdd; assumption.
Qed.

Lemma home_update_body_decreasing d adults lparm mf mn nn c a a' :
  parm_unit lparm -> nonneg_home c ->
  home_update_body comm_index max_communities d adults lparm mf mn nn c a = Some a' ->
  prob_decreasing a a'.
Proof.
  intros (_ & _ & Hhha & Hhhc & Hnca & Hncc & _ & _ & _ & _ & Hinf) (Hc1 & _ & _).
  unfold home_update_body.
  destruct (isSusceptible d a && HomeCandidate a);
    [|intro H; inversion H; subst; apply prob_decreasing_refl].
  destruct (negb _); [discriminate|].
  assert (Hbase : forall tbl, Forall unit_interval tbl ->
                    unit_interval (1 - (1 - vac_eff lparm) * arr tbl (age_group a) * 1)%Q).
  { intros tbl Htbl. apply survival_base_unit; [exact Hinf|now apply arr_unit]. }
  assert (Hstep : forall tbl k a0, Forall unit_interval tbl -> 0 <= k ->
            prob_decreasing a0
              (mul_prob d ((1 - (1 - vac_eff lparm) * arr tbl (age_group a) * 1) ^ k) a0)).
  { intros tbl k a0 Htbl Hk. apply mul_prob_decreasing, Qpower_unit; auto. }
  destruct (withdrawn a =? 0).
  - destruct (negb _); [discriminate|].
    destruct (negb (_ >=? 0)) eqn:Enc; [discriminate|].
    apply negb_false_iff in Enc.
    intro H; inversion H; subst.
    destruct adults;
      match goal with
      | |- prob_decreasing a (mul_prob d _ (mul_prob d ?f1 a)) =>
          apply prob_decreasing_trans with (mul_prob d f1 a)
      end;
      try (apply Hstep; [assumption|apply Hc1]);
      (apply Hstep; [assumption|lia]).
  - intro H; inversion H; subst.
    destruct adults; (apply Hstep; [assumption|apply Hc1]).
Qed.

Lemma home_pass_decreasing mf mn nn d lparm adults agents agents' :
  parm_unit lparm ->
  home_pass comm_index max_communities mf mn nn d lparm adults agents = Some agents' ->
  Forall2 prob_decreasing agents agents'.
Proof.
  intros Hp. unfold home_pass.
  destruct (tally_loop _ agents _) as [c|] eqn:Ec; [|discriminate].
  assert (Hc : nonneg_home c).
  { eapply tally_loop_inv with (P := nonneg_home); [|..|exact Ec].
    - intros c0 a0 c1 H0 H1. eapply home_count_body_nonneg; eassumption.
    - repeat split; apply nonneg_zero. }
  intro H. eapply ParallelFor_assert_Forall2; [|exact H].
  intros a b _ Hab. eapply home_update_body_decreasing; eassumption.
Qed.

Lemma Forall2_prob_decreasing_refl l : Forall2 prob_decreasing l l.
Proof. apply Forall2_refl_of, prob_decreasing_refl. Qed.

Lemma Forall2_prob_decreasing_trans l1 l2 l3 :
  Forall2 prob_decreasing l1 l2 -> Forall2 prob_decreasing l2 l3 ->
  Forall2 prob_decreasing l1 l3.
Proof. apply Forall2_trans_of, prob_decreasing_trans. Qed.

Lemma fastInteractHome_decreasing parms agents agents' :
  Forall parm_unit parms ->
  fastInteractHome comm_index max_communities parms agents = Some agents' ->
  Forall2 prob_decreasing agents agents'.
Proof.
  intros Hp. unfold fastInteractHome.
  apply for_diseases_assert_rel with (R := Forall2 prob_decreasing).
  - apply Forall2_prob_decreasing_refl.
  - apply Forall2_prob_decreasing_trans.
  - intros d lparm s s' Hin. rewrite Forall_forall in Hp. specialize (Hp _ Hin).
    destruct (home_pass _ _ _ _ _ d lparm true s) as [s1|] eqn:E1; [|discriminate].
    intro E2. eapply Forall2_prob_decreasing_trans; eapply home_pass_decreasing; eassumption.
Qed.

Definition nonneg_nborhood (c : NborhoodCounters) : Prop :=
  nonneg_counter (infected_community c) /\ nonneg_counter (infected_nborhood c).

Lemma nborhood_pass_decreasing isCandidate nborhood_ptr mn d lparm agents agents' :
  parm_unit lparm ->
  nborhood_pass comm_index isCandidate nborhood_ptr mn d lparm agents = Some agents' ->
  Forall2 prob_decreasing agents agents'.
Proof.
  intros (Hcomm & Hhood & _ & _ & _ & _ & _ & _ & _ & _ & Hinf). unfold nborhood_pass.
  set (c := fold_left _ agents _).
  assert (Hc : nonneg_nborhood c).
  { apply fold_left_inv with (P := nonneg_nborhood).
    - intros c0 a0 [H1 H2]. unfold nborhood_count_body.
      destruct (_ && _); [|split; assumption].
      split; simpl; apply nonneg_AtomicAdd; assumption.
    - split; apply nonneg_zero. }
  destruct Hc as [_ Hc2].
  intro H. eapply ParallelFor_assert_Forall2; [|exact H].
  intros a b _. unfold nborhood_update_body.
  destruct (_ && _); [|intro E; inversion E; subst; apply prob_decreasing_refl].
  destruct (negb _) eqn:Eas; [discriminate|]. apply negb_false_iff in Eas.
  intro E; inversion E; subst.
  eapply prob_decreasing_trans; apply mul_prob_decreasing, Qpower_unit;
    try (apply survival_base_unit; [exact Hinf|now apply arr_unit]).
  - lia.
  - apply Hc2.
Qed.

Lemma fastInteractHomeNborhood_decreasing parms agents agents' :
  Forall parm_unit parms ->
  fastInteractHomeNborhood comm_index parms agents = Some agents' ->
  Forall2 prob_decreasing agents agents'.
Proof.
  intros Hp. unfold fastInteractHomeNborhood.
  destruct agents as [|a0 l].
  - intro H; inversion H; constructor.
  - destruct (negb _); [discriminate|].
    apply for_diseases_assert_rel with (R := Forall2 prob_decreasing).
    + apply Forall2_prob_decreasing_refl.
    + apply Forall2_prob_decreasing_trans.
    + intros d lparm s s' Hin. rewrite Forall_forall in Hp.
      apply nborhood_pass_decreasing. now apply Hp.
Qed.

Lemma fastInteractWorkNborhood_decreasing parms agents agents' :
  Forall parm_unit parms ->
  fastInteractWorkNborhood comm_index parms agents = Some agents' ->
  Forall2 prob_decreasing agents agents'.
Proof.
  intros Hp. unfold fastInteractWorkNborhood.
  apply for_diseases_assert_rel with (R := Forall2 prob_decreasing).
  - apply Forall2_prob_decreasing_refl.
  - apply Forall2_prob_decreasing_trans.
  - intros d lparm s s' Hin. rewrite Forall_forall in Hp.
    apply nborhood_pass_decreasing. now apply Hp.
Qed.

Lemma fastInteractWork_decreasing parms agents :
  Forall parm_unit parms ->
  Forall2 prob_decreasing agents (fastInteractWork comm_index parms agents).
Proof.
  intros Hp. unfold fastInteractWork.
  apply for_diseases_rel with (R := Forall2 prob_decreasing).
  - apply Forall2_prob_decreasing_refl.
  - apply Forall2_prob_decreasing_trans.
  - intros d lparm s Hin. rewrite Forall_forall in Hp.
    destruct (Hp _ Hin) as (_ & _ & _ & _ & _ & _ & _ & _ & _ & Hwork & Hinf).
    set (c := fold_left _ s _).
    assert (Hc : nonneg_counter c).
    { apply fold_left_inv with (P := nonneg_counter).
      - intros c0 a0 H0. unfold work_count_body.
        destruct (_ && _); [apply nonneg_AtomicAdd|]; assumption.
      - apply nonneg_zero. }
    apply Forall2_map_same. intro a. unfold work_update_body.
    destruct (_ && _); [|apply prob_decreasing_refl].
    apply mul_prob_decreasing, Qpower_unit; [|apply Hc].
    apply survival_base_unit; assumption.
Qed.

Definition nonneg_school (c : SchoolCounters) : Prop :=
  nonneg_counter (infected_school c) /\ nonneg_counter (infected_daycare c).

Lemma school_pass_decreasing ms mg d lparm adults agents :
  parm_unit lparm ->
  Forall2 prob_decreasing agents (school_pass comm_index ms mg d lparm adults agents).
Proof.
  intros (_ & _ & _ & _ & _ & _ & Hs & Ha2c & Hc2a & _ & Hinf). unfold school_pass.
  set (c := fold_left _ agents _).
  assert (Hc : nonneg_school c).
  { apply fold_left_inv with (P := nonneg_school).
    - intros c0 a0 [H1 H2]. unfold school_count_body.
      destruct (_ && _ && _); [|split; assumption].
      destruct (_ =? _); split; simpl; try assumption; apply nonneg_AtomicAdd; assumption.
    - split; apply nonneg_zero. }
  destruct Hc as [Hc1 Hc2].
  apply Forall2_map_same. intro a. unfold school_update_body.
  destruct (_ && _); [|apply prob_decreasing_refl].
  destruct (_ =? SchoolType.daycare).
  - apply mul_prob_decreasing, Qpower_unit; [|apply Hc2].
    apply survival_base_unit; [exact Hinf|now apply arr_unit].
  - apply mul_prob_decreasing, Qpower_unit; [|apply Hc1].
    apply survival_base_unit; [exact Hinf|].
    destruct adults, (age_group a <=? AgeGroups.a5to17); now apply arr_unit.
Qed.

Lemma fastInteractSchool_decreasing parms agents :
  Forall parm_unit parms ->
  Forall2 prob_decreasing agents (fastInteractSchool comm_index parms agents).
Proof.
  intros Hp. unfold fastInteractSchool.
  apply for_diseases_rel with (R := Forall2 prob_decreasing).
  - apply Forall2_prob_decreasing_refl.
  - apply Forall2_prob_decreasing_trans.
  - intros d lparm s Hin. rewrite Forall_forall in Hp. specialize (Hp _ Hin).
    eapply Forall2_prob_decreasing_trans; apply school_pass_decreasing; exact Hp.
Qed.

End SurvivalKernels.

(** ** The progression kernel resets the accumulator *)

Lemma update_body_prob disease_parm swc d x engine :
  prob (runtime d (fst (fst (update_body disease_parm swc d x engine)))) = 1%Q
  /\ forall d', d' <> d ->
       runtime d' (fst (fst (update_body disease_parm swc d x engine))) = runtime d' (fst x).
Proof.
  destruct x as [a m]. unfold update_body. cbn [status set_prob fst].
  destruct (status (runtime d a));
    cbn [Random RandomGamma disease_counter set_counter symptomatic incubation_period
         latent_period infectious_period];
    repeat match goal with
           | |- context [if ?c then _ else _] => destruct c
           | |- context [check_hospitalization ?p ?g ?e] =>
               destruct (check_hospitalization p g e) as [[[? ?] ?] ?]
           end;
    cbn [fst snd]; rewrite ?runtime_set_withdrawn, ?runtime_put_same;
    (split; [reflexivity|]);
    intros d' Hd'; rewrite ?runtime_set_withdrawn, runtime_put_other by exact Hd';
    reflexivity.
Qed.

Lemma updateAgents_resets_prob parms swc engines agents a_stats :
  Forall (fun a' => forall d, (d < length parms)%nat -> prob (runtime d a') = 1%Q)
         (fst (updateAgents parms swc engines agents a_stats)).
Proof.
  unfold updateAgents. cbn [fst].
  set (body := fun d parm xs => ParallelForRNG _ (engines d) 0%nat xs).
  assert (Hloop : forall ps d0 (xs : list (Agent * Marks)),
             Forall (fun x => forall d, (d < d0)%nat -> prob (runtime d (fst x)) = 1%Q) xs ->
             Forall (fun x => forall d, (d < d0 + length ps)%nat ->
                                        prob (runtime d (fst x)) = 1%Q)
                    (for_diseases body ps d0 xs)).
  { induction ps as [|p ps IH]; intros d0 xs Hxs; simpl.
    - eapply Forall_impl; [|exact Hxs]. intros x Hx d Hd. apply Hx. lia.
    - replace (d0 + S (length ps))%nat with (S d0 + length ps)%nat by lia.
      apply IH. unfold body.
      eapply Forall2_Forall_r; [|apply ParallelForRNG_Forall2
                                   with (R := fun x x' =>
                                     prob (runtime d0 (fst x')) = 1%Q
                                     /\ forall d', d' <> d0 ->
                                          runtime d' (fst x') = runtime d' (fst x))|exact Hxs].
      + intros x x' [H1 H2] Hx d Hd. destruct (Nat.eq_dec d d0) as [->|Hne]; [exact H1|].
        rewrite H2 by exact Hne. apply Hx. lia.
      + intros x e. apply update_body_prob. }
  assert (Hall : Forall (fun x => forall d, (d < length parms)%nat ->
                                         prob (runtime d (fst x)) = 1%Q)
                        (for_diseases body parms 0%nat
                                      (map (fun a => (a, mkMarks 0 0 0)) agents))).
  { apply (Hloop parms 0%nat). apply Forall_forall. intros y _ d Hd. lia. }
  rewrite map_map. apply Forall_forall. intros a' Hin. apply in_map_iff in Hin.
  destruct Hin as (x & <- & Hin).
  rewrite Forall_forall in Hall. specialize (Hall x Hin).
  destruct (_ && _); exact Hall.
Qed.

(** ** The accumulator across the day *)

Definition probs_reset (n_disease : nat) (a : Agent) : Prop :=
  forall d, (d < n_disease)%nat -> prob (runtime d a) = 1%Q.

Definition probs_unit (n_disease : nat) (a : Agent) : Prop :=
  forall d, (d < n_disease)%nat -> unit_interval (prob (runtime d a)).

Lemma moveAgentsToWork_prob g agents :
  Forall2 prob_decreasing agents (moveAgentsToWork g agents).
Proof.
  apply Forall2_map_same. intro a. apply prob_decreasing_same. intro d.
  destruct (negb (inHospital a)); reflexivity.
Qed.

Lemma moveAgentsToHome_prob g agents :
  Forall2 prob_decreasing agents (moveAgentsToHome g agents).
Proof.
  apply Forall2_map_same. intro a. apply prob_decreasing_same. intro d.
  destruct (negb (inHospital a)); reflexivity.
Qed.

Lemma probs_unit_decreasing n l l' :
  Forall2 prob_decreasing l l' -> Forall (probs_unit n) l -> Forall (probs_unit n) l'.
Proof.
  apply Forall2_Forall_r. intros a b Hab Ha d Hd.
  destruct (Hab d (Ha d Hd)) as [H0 H1]. split; [exact H0|].
  destruct (Ha d Hd) as [_ Ha1]. eapply Qle_trans; eassumption.
Qed.

(** C4. With every transmission probability and 1 - vac_eff in the unit
    interval (scale is the constant 1 in every kernel): the progression
    kernel sets the accumulator of every disease to 1; each of the five
    interaction kernels leaves an accumulator that was in the unit
    interval non-negative and no larger than before; hence, from the reset
    on, through the day kernels (work, school, work neighbourhood) and
    the night kernels (home, home neighbourhood), every accumulator stays
    in the unit interval and never grows. The kernels with an assertion
    are taken on the runs where it holds. *)
Theorem survival_accumulator (comm_index : Q * Q -> Z) (max_communities : Z) (g : Geometry)
        (parms : list DiseaseParm) :
  Forall parm_unit parms ->
  (forall swc engines agents a_stats,
      Forall (probs_reset (length parms))
             (fst (updateAgents parms swc engines agents a_stats)))
  /\ (forall agents agents',
         fastInteractHome comm_index max_communities parms agents = Some agents' ->
         Forall2 prob_decreasing agents agents')
  /\ (forall agents agents',
         fastInteractHomeNborhood comm_index parms agents = Some agents' ->
         Forall2 prob_decreasing agents agents')
  /\ (forall agents, Forall2 prob_decreasing agents (fastInteractWork comm_index parms agents))
  /\ (forall agents agents',
         fastInteractWorkNborhood comm_index parms agents = Some agents' ->
         Forall2 prob_decreasing agents agents')
  /\ (forall agents, Forall2 prob_decreasing agents (fastInteractSchool comm_index parms agents))
  /\ (forall agents day night,
         Forall (probs_reset (length parms)) agents ->
         interactDay comm_index parms (moveAgentsToWork g agents) = Some day ->
         interactNight comm_index max_communities parms (moveAgentsToHome g day) = Some night ->
         Forall2 prob_decreasing agents day
         /\ Forall2 prob_decreasing day night
         /\ Forall (probs_unit (length parms)) day
         /\ Forall (probs_unit (length parms)) night).
Proof.
  intro Hp.
  split; [intros; apply updateAgents_resets_prob|].
  split; [intros agents agents'; now apply fastInteractHome_decreasing|].
  split; [intros agents agents'; now apply fastInteractHomeNborhood_decreasing|].
  split; [intros agents; now apply fastInteractWork_decreasing|].
  split; [intros agents agents'; now apply fastInteractWorkNborhood_decreasing|].
  split; [intros agents; now apply fastInteractSchool_decreasing|].
  intros agents day night Hreset Hday Hnight.
  assert (H1 : Forall2 prob_decreasing agents day).
  { unfold interactDay in Hday.
    eapply Forall2_prob_decreasing_trans; [apply (moveAgentsToWork_prob g)|].
    eapply Forall2_prob_decreasing_trans; [apply fastInteractWork_decreasing, Hp|].
    eapply Forall2_prob_decreasing_trans; [apply fastInteractSchool_decreasing, Hp|].
    eapply fastInteractWorkNborhood_decreasing; [exact Hp|exact Hday]. }
  assert (H2 : Forall2 prob_decreasing day night).
  { unfold interactNight in Hnight.
    destruct (fastInteractHome _ _ _ _) as [h|] eqn:Eh; [|discriminate].
    eapply Forall2_prob_decreasing_trans; [apply (moveAgentsToHome_prob g)|].
    eapply Forall2_prob_decreasing_trans;
      [eapply fastInteractHome_decreasing; [exact Hp|exact Eh]|].
    eapply fastInteractHomeNborhood_decreasing; [exact Hp|exact Hnight]. }
  assert (H0 : Forall (probs_unit (length parms)) agents).
  { eapply Forall_impl; [|exact Hreset]. intros a Ha d Hd. rewrite (Ha d Hd).
    split; discriminate. }
  pose proof (probs_unit_decreasing _ _ _ H1 H0) as H3.
  pose proof (probs_unit_decreasing _ _ _ H2 H3) as H4.
  repeat split; assumption.
Qed.

Ltac unit_table :=
  repeat first [apply Forall_cons | apply Forall_nil | split];
  try (vm_compute; discriminate).

Lemma default_parm_unit : parm_unit default_parm.
Proof. unfold parm_unit. unit_table. Qed.

Definition at_home (age fam nb : Z) (r : DiseaseAttribs) : Agent :=
  mkAgent age fam 0 0 0 0 (-1) (-1) (-1) (-1) nb 0 0 0 0 0 nb 0 (-1) (-1) (0.5, 0.5)%Q
          (fun _ => r).

Definition infectious_attribs : DiseaseAttribs :=
  mkAttribs Status.infected SymptomStatus.presymptomatic 0 4 1 3 5 4.

(** Scenario S2: a household of an infectious child and an adult who has
    never been infected. *)
Definition household : list Agent :=
  [at_home AgeGroups.u5 0 0 infectious_attribs; at_home AgeGroups.a30to49 0 0 no_attribs].

Lemma survival_accumulator_witness :
  Forall parm_unit [default_parm]
  /\ exists night,
       fastInteractHome (fun _ => 0) 1 [default_parm] household = Some night
       /\ map (fun a => prob (runtime 0 a)) night = [1; 0.7]%Q
       /\ Forall2 prob_decreasing household night.
Proof.
  assert (Hp : Forall parm_unit [default_parm]).
  { constructor; [exact default_parm_unit|constructor]. }
  split; [exact Hp|].
  destruct (fastInteractHome (fun _ => 0) 1 [default_parm] household) as [night|] eqn:E;
    [|vm_compute in E; discriminate E].
  exists night. split; [reflexivity|]. split.
  - vm_compute in E. inversion E. reflexivity.
  - exact (proj1 (proj2 (survival_accumulator (fun _ => 0) 1 census_geometry [default_parm] Hp))
                 household night E).
Defined.

(** ** Counting infectious agents by group *)

(** The number of agents of a tile that satisfy a predicate. *)
Definition count_if (f : Agent -> bool) (l : list Agent) : Z :=
  Z.of_nat (length (filter f l)).

Lemma count_if_cons f a l :
  count_if f (a :: l) = (if f a then 1 else 0) + count_if f l.
Proof. unfold count_if. simpl. destruct (f a); simpl length; lia. Qed.

Lemma count_if_le f g l :
  (forall b, In b l -> f b = true -> g b = true) -> count_if f l <= count_if g l.
Proof.
  induction l as [|a l IH]; intro H; [unfold count_if; simpl; lia|].
  rewrite !count_if_cons.
  assert (IH' : count_if f l <= count_if g l) by (apply IH; intros; apply H; [now right|assumption]).
  specialize (H a (or_introl eq_refl)).
  destruct (f a), (g a); try lia; try (specialize (H eq_refl); discriminate).
Qed.

Lemma count_if_ext_in f g l :
  (forall b, In b l -> f b = g b) -> count_if f l = count_if g l.
Proof.
  induction l as [|a l IH]; intro H; [reflexivity|].
  rewrite !count_if_cons, (H a (or_introl eq_refl)), IH; [reflexivity|].
  intros; apply H; now right.
Qed.

Lemma AtomicAdd_at c idx k :
  AtomicAdd c idx 1 k = c k + (if idx =? k then 1 else 0).
Proof. unfold AtomicAdd. rewrite (Z.eqb_sym idx k). destruct (k =? idx); lia. Qed.

Lemma getMaxGroup_ge group agents :
  forall b, In b agents -> group b <= getMaxGroup group agents.
Proof.
  unfold getMaxGroup. generalize (- 2 ^ 31).
  induction agents as [|a l IH]; intros m b Hin; [destruct Hin|]. simpl.
  assert (Hmono : forall l' m', m' <= fold_left (fun m a => Z.max m (group a)) l' m').
  { induction l' as [|x l' IH']; intro m'; simpl; [lia|].
    specialize (IH' (Z.max m' (group x))). lia. }
  destruct Hin as [->|Hin].
  - specialize (Hmono l (Z.max m (group b))). lia.
  - now apply IH.
Qed.

(** A flattened index [x * m + y] with [0 <= y < m] determines [x] and [y]. *)
Lemma flat_index_eqb m x1 y1 x2 y2 :
  0 <= y1 < m -> 0 <= y2 < m ->
  (x1 * m + y1 =? x2 * m + y2) = (x1 =? x2) && (y1 =? y2).
Proof.
  intros H1 H2.
  destruct (x1 =? x2) eqn:Ex; simpl.
  - apply Z.eqb_eq in Ex. subst.
    destruct (y1 =? y2) eqn:Ey.
    + apply Z.eqb_eq in Ey. subst. apply Z.eqb_refl.
    + apply Z.eqb_neq in Ey. apply Z.eqb_neq. lia.
  - apply Z.eqb_neq in Ex. apply Z.eqb_neq. intro E.
    assert (Hd : (x1 - x2) * m = y2 - y1) by lia.
    assert (Hx : x1 - x2 <= -1 \/ 1 <= x1 - x2) by lia.
    destruct Hx as [Hx|Hx]; nia.
Qed.

Section Counting.

Variable comm_index : Q * Q -> Z.
Variable max_communities : Z.

Local Abbreviation community := (getCommunityIndex comm_index).

(** The counters of the neighbourhood kernels after the counting loop. *)
Lemma nborhood_count_fold isCandidate nborhood_ptr d mn agents : forall c,
  let c' := fold_left (nborhood_count_body comm_index isCandidate nborhood_ptr d mn) agents c in
  (forall k, infected_community c' k
             = infected_community c k
               + count_if (fun b => isInfectious d b && isCandidate b && (community b =? k)) agents)
  /\ (forall k, infected_nborhood c' k
                = infected_nborhood c k
                  + count_if (fun b => isInfectious d b && isCandidate b
                                       && (community b * mn + nborhood_ptr b =? k)) agents).
Proof.
  induction agents as [|a l IH]; intro c; cbv zeta.
  - split; intro k; unfold count_if; simpl; lia.
  - cbn [fold_left]. destruct (IH (nborhood_count_body comm_index isCandidate nborhood_ptr d mn c a))
      as [IH1 IH2].
    split; intro k; rewrite ?IH1, ?IH2, count_if_cons; unfold nborhood_count_body;
      destruct (isInfectious d a && isCandidate a); cbn [infected_community infected_nborhood andb];
      rewrite ?AtomicAdd_at; lia.
Qed.

(** The counters of the home kernel after the counting loop. *)
Lemma home_count_loop d adults mf mn nn agents : forall c c',
  tally_loop (home_count_body comm_index max_communities d adults mf mn nn) agents c = Some c' ->
  let transmitter := fun b => isInfectious d b && HomeCandidate b
                              && Bool.eqb (isAnAdult b) adults in
  (forall k, infected_family c' k
             = infected_family c k
               + count_if (fun b => transmitter b
                                    && (community b * mf + family b =? k)) agents)
  /\ (forall k, infected_family_not_withdrawn c' k
                = infected_family_not_withdrawn c k
                  + count_if (fun b => transmitter b && (withdrawn b =? 0)
                                       && (community b * mf + family b =? k)) agents)
  /\ (forall k, infected_nc c' k
                = infected_nc c k
                  + count_if (fun b => transmitter b && (withdrawn b =? 0)
                                       && ((community b * mn + nborhood b) * nn
                                           + family b ÷ FAMILIES_PER_CLUSTER =? k)) agents).
Proof.
  induction agents as [|a l IH]; intros c c' H; cbv zeta; simpl in H.
  - inversion H; subst. repeat split; intro k; unfold count_if; simpl; lia.
  - destruct (home_count_body comm_index max_communities d adults mf mn nn c a) as [c1|] eqn:E;
      [|discriminate].
    destruct (IH c1 c' H) as (IH1 & IH2 & IH3).
    unfold home_count_body in E.
    destruct (isInfectious d a && HomeCandidate a && Bool.eqb (isAnAdult a) adults) eqn:Et.
    + destruct (negb _); [discriminate|].
      destruct (withdrawn a =? 0) eqn:Ew; inversion E; subst c1;
        cbn [infected_family infected_family_not_withdrawn infected_nc] in *;
        (repeat split; intro k; rewrite ?IH1, ?IH2, ?IH3, count_if_cons, Et, ?Ew;
         cbn [andb]; rewrite ?AtomicAdd_at; lia).
    + inversion E; subst c1.
      repeat split; intro k; rewrite ?IH1, ?IH2, ?IH3, count_if_cons, Et; cbn [andb]; lia.
Qed.

End Counting.

(** ** The work-neighbourhood kernel *)

(** The same-neighbourhood count of an agent under the grouping of the
    pairwise path: among the infectious candidates of its community,
    those whose neighbourhood (work_nborhood for adults, nborhood for
    children) is the agent's. *)
Definition pairwise_same_nborhood_count (comm_index : Q * Q -> Z) (d : nat)
           (agents : list Agent) (a : Agent) : Z :=
  count_if (fun b => isInfectious d b && WorkNborhoodCandidate b
                     && (getCommunityIndex comm_index b =? getCommunityIndex comm_index a)
                     && (pairwise_nborhood b =? pairwise_nborhood a)) agents.

(** Two children of the same home neighbourhood 1, in the same community
    during the day; the infectious one has work neighbourhood 0, the other
    work neighbourhood 2. *)
Definition day_child (age wnb : Z) (r : DiseaseAttribs) : Agent :=
  mkAgent age 0 0 0 0 0 (-1) (-1) (-1) (-1) 1 0 0 0 0 0 wnb 0 (-1) (-1) (0.5, 0.5)%Q
          (fun _ => r).

Definition two_children : list Agent :=
  [day_child AgeGroups.u5 0 infectious_attribs; day_child AgeGroups.a5to17 2 no_attribs].

(** C2, as stated, fails: for the susceptible child of [two_children] the
    kernel counts no infectious agent in its neighbourhood (it reads
    work_nborhood), while the grouping by home nborhood for children
    counts one; the child's accumulator is multiplied by the community
    factor, not by the neighbourhood factor. *)
Lemma work_nborhood_children_counterexample :
  let a := day_child AgeGroups.a5to17 2 no_attribs in
  let max_nborhood := getMaxGroup work_nborhood two_children + 1 in
  let c := fold_left (nborhood_count_body (fun _ => 0) WorkNborhoodCandidate work_nborhood
                                          0 max_nborhood)
                     two_children (mkNborhoodCounters zero_counter zero_counter) in
  infected_nborhood c (0 * max_nborhood + work_nborhood a) = 0
  /\ pairwise_same_nborhood_count (fun _ => 0) 0 two_children a = 1
  /\ infected_nborhood c (0 * max_nborhood + work_nborhood a)
     <> pairwise_same_nborhood_count (fun _ => 0) 0 two_children a
  /\ option_map (map (fun a => prob (runtime 0 a)))
                (fastInteractWorkNborhood (fun _ => 0) [default_parm] two_children)
     = Some [1; 1 - 0.000054375]%Q.
Proof. vm_compute. repeat split; discriminate. Qed.

(** C2, amended. In the work-neighbourhood kernel the same-neighbourhood
    group of every agent, adult or child, is given by work_nborhood: the
    neighbourhood counter read for an agent is the number of infectious
    candidates of its community with the same work_nborhood, the
    community counter the number of infectious candidates of its
    community, and a susceptible candidate's accumulator is multiplied by
    the community factor to the power of the difference and by the
    neighbourhood factor to the power of the neighbourhood count. The
    home nborhood is not read. (The age-dependent choice is made only by
    the pairwise path, which is not compiled.) *)
Theorem work_nborhood_groups (comm_index : Q * Q -> Z) (d : nat) (lparm : DiseaseParm)
        (agents : list Agent) (a : Agent) :
  let community := getCommunityIndex comm_index in
  let max_nborhood := getMaxGroup work_nborhood agents + 1 in
  let c := fold_left (nborhood_count_body comm_index WorkNborhoodCandidate work_nborhood
                                          d max_nborhood)
                     agents (mkNborhoodCounters zero_counter zero_counter) in
  let num_infected_nborhood :=
    count_if (fun b => isInfectious d b && WorkNborhoodCandidate b
                       && (community b =? community a)
                       && (work_nborhood b =? work_nborhood a)) agents in
  let num_infected_community :=
    count_if (fun b => isInfectious d b && WorkNborhoodCandidate b
                       && (community b =? community a)) agents in
  (forall b, In b agents -> 0 <= work_nborhood b) ->
  In a agents ->
  infected_nborhood c (community a * max_nborhood + work_nborhood a) = num_infected_nborhood
  /\ infected_community c (community a) = num_infected_community
  /\ num_infected_nborhood <= num_infected_community
  /\ nborhood_update_body comm_index WorkNborhoodCandidate work_nborhood d lparm
                          max_nborhood c a
     = if isSusceptible d a && WorkNborhoodCandidate a then
         Some (mul_prob d
                 (Qpower (1 - (1 - vac_eff lparm) * arr (xmit_hood lparm) (age_group a) * 1)
                         num_infected_nborhood)
                 (mul_prob d
                    (Qpower (1 - (1 - vac_eff lparm) * arr (xmit_comm lparm) (age_group a) * 1)
                            (num_infected_community - num_infected_nborhood))
                    a))
       else Some a.
Proof.
  intros community max_nborhood c nnb ncomm Hrange Ha.
  destruct (nborhood_count_fold comm_index WorkNborhoodCandidate work_nborhood d max_nborhood
                                agents (mkNborhoodCounters zero_counter zero_counter))
    as [Hc Hn].
  fold c in Hc, Hn. cbn [infected_community infected_nborhood zero_counter] in Hc, Hn.
  assert (Hbound : forall b, In b agents -> 0 <= work_nborhood b < max_nborhood).
  { intros b Hb. split; [now apply Hrange|].
    pose proof (getMaxGroup_ge work_nborhood agents b Hb). unfold max_nborhood. lia. }
  assert (E1 : infected_nborhood c (community a * max_nborhood + work_nborhood a) = nnb).
  { rewrite Hn. unfold zero_counter. rewrite Z.add_0_l. apply count_if_ext_in.
    intros b Hb. fold community.
    rewrite (flat_index_eqb max_nborhood) by (now apply Hbound).
    now rewrite andb_assoc. }
  assert (E2 : infected_community c (community a) = ncomm).
  { rewrite Hc. unfold zero_counter. rewrite Z.add_0_l. reflexivity. }
  assert (Hle : nnb <= ncomm).
  { apply count_if_le. intros b _ Hb. apply andb_true_iff in Hb. tauto. }
  split; [exact E1|]. split; [exact E2|]. split; [exact Hle|].
  unfold nborhood_update_body. fold community. rewrite E1, E2.
  destruct (isSusceptible d a && WorkNborhoodCandidate a); [|reflexivity].
  replace (ncomm >=? nnb) with true by (symmetry; apply Z.geb_le; lia).
  reflexivity.
Qed.

Lemma work_nborhood_groups_witness :
  let a := day_child AgeGroups.a5to17 2 no_attribs in
  let c := fold_left (nborhood_count_body (fun _ => 0) WorkNborhoodCandidate work_nborhood
                                          0 (getMaxGroup work_nborhood two_children + 1))
                     two_children (mkNborhoodCounters zero_counter zero_counter) in
  infected_nborhood c (0 * (getMaxGroup work_nborhood two_children + 1) + 2)
  = count_if (fun b => isInfectious 0 b && WorkNborhoodCandidate b && (0 =? 0)
                       && (work_nborhood b =? 2)) two_children.
Proof.
  cbv zeta.
  refine (proj1 (work_nborhood_groups (fun _ => 0) 0 default_parm two_children
                                      (day_child AgeGroups.a5to17 2 no_attribs) _ _)).
  - intros b Hb. simpl in Hb. destruct Hb as [<-|[<-|[]]]; simpl; lia.
  - simpl. right. left. reflexivity.
Defined.

(** ** The home kernel: family and cluster exposure *)

(** C5. In the home kernel, for a susceptible candidate that is not
    withdrawn, with the counters left by the counting loop for one age
    class of transmitters: the family exponent is the number of infectious
    candidates of that class in the agent's family (withdrawn or not); the
    cluster exponent is the number of infectious candidates of that class,
    not withdrawn, in the agent's (community, nborhood, family / 4) group,
    minus the number of those in the agent's own family. The kernel goes
    on only with a non-negative difference (it asserts it), and the
    difference is non-negative whenever the members of a family of a
    community share their nborhood. Family and nborhood identifiers are
    non-negative. *)
Theorem home_cluster_exposure (comm_index : Q * Q -> Z) (max_communities : Z)
        (d : nat) (lparm : DiseaseParm) (adults : bool)
        (agents : list Agent) (c : HomeCounters) (a : Agent) :
  let community := getCommunityIndex comm_index in
  let max_family := getMaxGroup family agents + 1 in
  let max_nborhood := getMaxGroup nborhood agents + 1 in
  let num_ncs := max_family ÷ FAMILIES_PER_CLUSTER + 1 in
  let transmitter := fun b => isInfectious d b && HomeCandidate b
                              && Bool.eqb (isAnAdult b) adults in
  let num_infected_family :=
    count_if (fun b => transmitter b
                       && ((community b =? community a) && (family b =? family a))) agents in
  let num_infected_family_not_withdrawn :=
    count_if (fun b => transmitter b && (withdrawn b =? 0)
                       && ((community b =? community a) && (family b =? family a))) agents in
  let num_infected_cluster :=
    count_if (fun b => transmitter b && (withdrawn b =? 0)
                       && ((community b =? community a) && (nborhood b =? nborhood a)
                           && (family b ÷ FAMILIES_PER_CLUSTER
                               =? family a ÷ FAMILIES_PER_CLUSTER))) agents in
  let num_infected_nc := num_infected_cluster - num_infected_family_not_withdrawn in
  let family_prob :=
    (1 - (1 - vac_eff lparm)
         * (if adults then arr (xmit_hh_adult lparm) (age_group a)
            else arr (xmit_hh_child lparm) (age_group a)) * 1)%Q in
  let nc_prob :=
    (1 - (1 - vac_eff lparm)
         * (if adults then arr (xmit_nc_adult lparm) (age_group a)
            else arr (xmit_nc_child lparm) (age_group a)) * 1)%Q in
  (forall b, In b agents -> 0 <= family b /\ 0 <= nborhood b) ->
  tally_loop (home_count_body comm_index max_communities d adults
                              max_family max_nborhood num_ncs)
             agents (mkHomeCounters zero_counter zero_counter zero_counter) = Some c ->
  In a agents ->
  isSusceptible d a && HomeCandidate a = true ->
  withdrawn a = 0 ->
  community a <= max_communities ->
  home_update_body comm_index max_communities d adults lparm
                   max_family max_nborhood num_ncs c a
  = (if 0 <=? num_infected_nc
     then Some (mul_prob d (Qpower nc_prob num_infected_nc)
                         (mul_prob d (Qpower family_prob num_infected_family) a))
     else None)
  /\ ((forall b1 b2, In b1 agents -> In b2 agents ->
                     community b1 = community b2 -> family b1 = family b2 ->
                     nborhood b1 = nborhood b2) ->
      0 <= num_infected_nc).
Proof.
  intros community max_family max_nborhood num_ncs transmitter nfam nfnw ncl nnc
         family_prob nc_prob Hrange Hloop Ha Hsus Hw Hcomm.
  destruct (home_count_loop comm_index max_communities d adults max_family max_nborhood
                            num_ncs agents _ c Hloop) as (H1 & H2 & H3).
  cbn [infected_family infected_family_not_withdrawn infected_nc] in H1, H2, H3.
  fold transmitter in H1, H2, H3.
  assert (Hfam : forall b, In b agents -> 0 <= family b < max_family).
  { intros b Hb. split; [now apply Hrange|].
    pose proof (getMaxGroup_ge family agents b Hb). unfold max_family. lia. }
  assert (Hnb : forall b, In b agents -> 0 <= nborhood b < max_nborhood).
  { intros b Hb. split; [now apply Hrange|].
    pose proof (getMaxGroup_ge nborhood agents b Hb). unfold max_nborhood. lia. }
  assert (Hcl : forall b, In b agents -> 0 <= family b ÷ FAMILIES_PER_CLUSTER < num_ncs).
  { intros b Hb. destruct (Hfam b Hb) as [Hf0 Hf1]. unfold num_ncs, FAMILIES_PER_CLUSTER.
    rewrite !Z.quot_div_nonneg by lia.
    pose proof (Z.div_pos (family b) 4 Hf0 ltac:(lia)).
    pose proof (Z.div_le_mono (family b) max_family 4 ltac:(lia) ltac:(lia)). lia. }
  assert (E1 : infected_family c (community a * max_family + family a) = nfam).
  { rewrite H1. unfold zero_counter. rewrite Z.add_0_l. apply count_if_ext_in.
    intros b Hb. fold community.
    now rewrite (flat_index_eqb max_family) by (now apply Hfam). }
  assert (E2 : infected_family_not_withdrawn c (community a * max_family + family a) = nfnw).
  { rewrite H2. unfold zero_counter. rewrite Z.add_0_l. apply count_if_ext_in.
    intros b Hb. fold community.
    now rewrite (flat_index_eqb max_family) by (now apply Hfam). }
  assert (E3 : infected_nc c ((community a * max_nborhood + nborhood a) * num_ncs
                              + family a ÷ FAMILIES_PER_CLUSTER) = ncl).
  { rewrite H3. unfold zero_counter. rewrite Z.add_0_l. apply count_if_ext_in.
    intros b Hb. fold community.
    rewrite (flat_index_eqb num_ncs) by (now apply Hcl).
    now rewrite (flat_index_eqb max_nborhood) by (now apply Hnb). }
  assert (Hle : nfnw <= nfam).
  { apply count_if_le. intros b _ Hb.
    apply andb_true_iff in Hb. destruct Hb as [Hb1 Hb2].
    apply andb_true_iff in Hb1. destruct Hb1 as [Hb1 _]. now rewrite Hb1, Hb2. }
  split.
  - unfold home_update_body. fold community. rewrite Hsus.
    replace (negb (community a <=? max_communities)) with false
      by (symmetry; apply negb_false_iff, Z.leb_le; exact Hcomm).
    rewrite Hw. cbn [Z.eqb]. rewrite E1, E2, E3.
    replace (negb (nfam >=? nfnw)) with false
      by (symmetry; apply negb_false_iff, Z.geb_le; lia).
    fold nnc. rewrite Z.geb_leb.
    destruct (0 <=? nnc); cbn [negb]; destruct adults; reflexivity.
  - intro Hshare. unfold nnc.
    assert (nfnw <= ncl); [|lia].
    apply count_if_le. intros b Hb Hin.
    apply andb_true_iff in Hin. destruct Hin as [Hb1 Hb2].
    apply andb_true_iff in Hb2. destruct Hb2 as [Hc Hf].
    apply Z.eqb_eq in Hc, Hf. rewrite Hb1. cbn [andb].
    rewrite (Hshare b a Hb Ha Hc Hf), Hc, Hf, !Z.eqb_refl. reflexivity.
Qed.

(** Scenario S4: a cluster of four families; three infectious adults, not
    withdrawn, in families 0 and 1; a susceptible adult in family 2. The
    cluster exponent is 3 - 0 = 3. *)
Definition home_cluster : list Agent :=
  [at_home AgeGroups.a30to49 0 0 infectious_attribs;
   at_home AgeGroups.a30to49 0 0 infectious_attribs;
   at_home AgeGroups.a18to29 1 0 infectious_attribs;
   at_home AgeGroups.a30to49 2 0 no_attribs].

Lemma home_cluster_exposure_witness :
  exists c,
    tally_loop (home_count_body (fun _ => 0) 1 0 true 3 1 1) home_cluster
               (mkHomeCounters zero_counter zero_counter zero_counter) = Some c
    /\ home_update_body (fun _ => 0) 1 0 true default_parm 3 1 1 c
                        (at_home AgeGroups.a30to49 2 0 no_attribs)
       = Some (mul_prob 0 (Qpower (1 - (1 - 0) * 0.05 * 1) 3)
                        (mul_prob 0 (Qpower (1 - (1 - 0) * 0.4 * 1) 0)
                                  (at_home AgeGroups.a30to49 2 0 no_attribs))).
Proof.
  destruct (tally_loop (home_count_body (fun _ => 0) 1 0 true 3 1 1) home_cluster
                       (mkHomeCounters zero_counter zero_counter zero_counter))
    as [c|] eqn:E; [|vm_compute in E; discriminate E].
  exists c. split; [reflexivity|].
  refine (proj1 (home_cluster_exposure (fun _ => 0) 1 0 default_parm true home_cluster c
                   (at_home AgeGroups.a30to49 2 0 no_attribs) _ E _ eq_refl eq_refl _)).
  - intros b Hb. simpl in Hb. destruct Hb as [<-|[<-|[<-|[<-|[]]]]]; simpl; lia.
  - simpl. tauto.
  - vm_compute. discriminate.
Defined.

(** * Further properties of the kernels *)

(** ** School types *)

Ltac split_comparisons :=
  repeat (match goal with
          | |- context [?a =? ?b] => destruct (Z.eqb_spec a b)
          | |- context [?a <=? ?b] => destruct (Z.leb_spec a b)
          | |- context [?a <? ?b] => destruct (Z.ltb_spec a b)
          end; try (exfalso; lia); cbn [andb orb negb]).

(** X1. getSchoolType sends every non-negative grade to one of the five
    school types college .. daycare (a valid index of the school tables,
    never none): the grade ranges leave no gap. Grade 0 alone is daycare,
    the grades from 29 on are college, and a negative grade is none. *)
Theorem getSchoolType_total (grade : Z) :
  (if grade <? 0 then getSchoolType grade = SchoolType.none
   else SchoolType.college <= getSchoolType grade <= SchoolType.daycare)
  /\ 0 <= getSchoolType grade < SchoolType.total
  /\ (getSchoolType grade = SchoolType.daycare <-> grade = 0)
  /\ (getSchoolType grade = SchoolType.college <-> 29 <= grade)
  /\ (getSchoolType grade = SchoolType.none <-> grade < 0).
Proof.
  unfold getSchoolType, SchoolType.none, SchoolType.college, SchoolType.high,
    SchoolType.middle, SchoolType.elem, SchoolType.daycare, SchoolType.total.
  split_comparisons; repeat split; intros; try lia.
Qed.

(** ** Hospitalisation days *)

Definition uniform_draws (e : RandomEngine) : Prop :=
  forall k, (0 <= uniform_src e k)%Q /\ (uniform_src e k < 1)%Q.

Lemma arr_in (l : list Q) (i : Z) : (Z.to_nat i < length l)%nat -> In (arr l i) l.
Proof. intro H. unfold arr. now apply nth_In. Qed.

(** X2. check_hospitalization, when every entry of m_t_hosp lies strictly
    between 0 and T_offset: the timer it returns tells the treatment of
    the agent apart. It is 0 with no mark when the agent is not
    hospitalised; strictly between 0 and T_offset for a hospital stay;
    strictly between T_offset and 2 T_offset with the ICU mark alone;
    strictly between 2 T_offset and 3 T_offset with both marks. The
    ventilator mark is never set without the ICU mark, and between one and
    three uniform draws are taken. *)
Theorem check_hospitalization_bands (p : DiseaseParm) (a_age_group : Z) (e : RandomEngine) :
  length (m_t_hosp p) = 3%nat ->
  Forall (fun t => (0 < t)%Q /\ (t < m_t_hosp_offset p)%Q) (m_t_hosp p) ->
  let T := m_t_hosp_offset p in
  let t := fst (fst (fst (check_hospitalization p a_age_group e))) in
  let icu := snd (fst (fst (check_hospitalization p a_age_group e))) in
  let vent := snd (fst (check_hospitalization p a_age_group e)) in
  let e' := snd (check_hospitalization p a_age_group e) in
  ((t = 0%Q /\ icu = 0 /\ vent = 0)
   \/ ((0 < t)%Q /\ (t < T)%Q /\ icu = 0 /\ vent = 0)
   \/ ((T < t)%Q /\ (t < 2 * T)%Q /\ icu = 1 /\ vent = 0)
   \/ ((2 * T < t)%Q /\ (t < 3 * T)%Q /\ icu = 1 /\ vent = 1))
  /\ (n_uniform e + 1 <= n_uniform e' <= n_uniform e + 3)%nat.
Proof.
  intros Hlen Hall. cbv zeta.
  assert (Hth : exists th,
             (if a_age_group =? AgeGroups.o65 then arr (m_t_hosp p) AgeGroups_Hosp.o65
              else if a_age_group =? AgeGroups.a50to64
                   then arr (m_t_hosp p) AgeGroups_Hosp.a50to64
                   else arr (m_t_hosp p) AgeGroups_Hosp.u50) = th
             /\ (0 < th)%Q /\ (th < m_t_hosp_offset p)%Q).
  { eexists. split; [reflexivity|]. rewrite Forall_forall in Hall.
    destruct (a_age_group =? AgeGroups.o65); [|destruct (a_age_group =? AgeGroups.a50to64)];
      apply Hall, arr_in; rewrite Hlen; simpl; lia. }
  destruct Hth as (th & Eth & H0 & H1).
  unfold check_hospitalization. cbn [Random]. rewrite Eth.
  destruct (Qltb _ (arr (m_CHR p) a_age_group)); cbn [fst snd n_uniform];
    [|split; [left; repeat split|lia]].
  destruct (Qltb _ (arr (m_CIC p) a_age_group)); cbn [fst snd n_uniform];
    [|split; [right; left; repeat split; assumption|lia]].
  destruct (Qltb _ (arr (m_CVE p) a_age_group)); cbn [fst snd n_uniform].
  - split; [right; right; right; repeat split; lra|lia].
  - split; [right; right; left; repeat split; lra|lia].
Qed.

Lemma check_hospitalization_bands_witness :
  exists t,
    check_hospitalization default_parm AgeGroups.o65 quiet_engine
    = (t, 0, 0, mkEngine (fun _ => 0.5%Q) (fun _ => 5%Q) 2 0)
    /\ (0 < t)%Q /\ (t < 10)%Q.
Proof.
  pose proof (check_hospitalization_bands default_parm AgeGroups.o65 quiet_engine eq_refl) as H.
  assert (Hall : Forall (fun t => (0 < t)%Q /\ (t < m_t_hosp_offset default_parm)%Q)
                        (m_t_hosp default_parm)).
  { repeat constructor. }
  specialize (H Hall). cbv zeta in H. destruct H as [H _].
  exists 7%Q. split; [reflexivity|].
  destruct H as [H|[H|[H|H]]].
  - destruct H as (H & _). vm_compute in H. discriminate H.
  - destruct H as (Ha & Hb & _). split; [exact Ha|exact Hb].
  - destruct H as (_ & _ & H & _). vm_compute in H. discriminate H.
  - destruct H as (_ & _ & H & _). vm_compute in H. discriminate H.
Defined.

(** ** Grid and geographic coordinates *)

Lemma Qfloor_unique (z : Z) (q : Q) :
  (inject_Z z <= q)%Q -> (q < inject_Z (z + 1))%Q -> Qfloor q = z.
Proof.
  intros Hlo Hhi.
  assert (H1 : z <= Qfloor q).
  { rewrite <- (Qfloor_Z z). now apply Qfloor_resp_le. }
  assert (H2 : Qfloor q < z + 1).
  { rewrite Zlt_Qlt. eapply Qle_lt_trans; [apply Qfloor_le|exact Hhi]. }
  lia.
Qed.

(** Truncation of a real strictly between two consecutive integers. *)
Lemma truncQ_between (x : Z) (v : Q) :
  (inject_Z x < v)%Q -> (v < inject_Z x + 1)%Q ->
  truncQ v = if 0 <=? x then x else x + 1.
Proof.
  intros Hlo Hhi. unfold truncQ.
  assert (Hhi' : (v < inject_Z (x + 1))%Q) by (rewrite inject_Z_plus; exact Hhi).
  destruct (Z.leb_spec 0 x) as [Hx|Hx].
  - assert (H0 : (0 <= v)%Q).
    { apply Qle_trans with (inject_Z x); [|now apply Qlt_le_weak].
      change 0%Q with (inject_Z 0). now rewrite <- Zle_Qle. }
    apply Qle_bool_iff in H0. rewrite H0.
    apply Qfloor_unique; [now apply Qlt_le_weak|exact Hhi'].
  - assert (H0 : (v < 0)%Q).
    { eapply Qlt_le_trans; [exact Hhi'|].
      change 0%Q with (inject_Z 0). rewrite <- Zle_Qle. lia. }
    assert (Hb : Qle_bool 0 v = false).
    { apply not_true_is_false. intro Hb. apply Qle_bool_iff in Hb. lra. }
    rewrite Hb. unfold Qceiling.
    rewrite (Qfloor_unique (- (x + 1)) (- v)); [lia| |].
    + rewrite inject_Z_opp. lra.
    + replace (- (x + 1) + 1) with (- x) by lia. rewrite inject_Z_opp. lra.
Qed.

(** X3. Grid to coordinates and back. With both grid spacings above
    1/999, LngLatToGrid applied to the coordinates GridToLngLat gives for
    the cell (x, y) returns (x, y) when x and y are non-negative; a
    negative index comes back one too large (the cast truncates towards
    zero). *)
Theorem grid_lnglat_round_trip (s : GridSpacing) (x y : Z) :
  ((1 # 999) < gspacing_x s)%Q ->
  ((1 # 999) < gspacing_y s)%Q ->
  LngLatToGrid s (fst (GridToLngLat s x y)) (snd (GridToLngLat s x y))
  = (if 0 <=? x then x else x + 1, if 0 <=? y then y else y + 1).
Proof.
  assert (Hone : forall gs m (k : Z), ((1 # 999) < gs)%Q ->
            truncQ ((inject_Z k * gs + m + 0.001 - m) / gs + 0.001)
            = if 0 <=? k then k else k + 1).
  { intros gs m k Hgs.
    assert (Hpos : (0 < gs)%Q) by lra.
    assert (E : ((inject_Z k * gs + m + 0.001 - m) / gs == inject_Z k + 0.001 / gs)%Q).
    { field. lra. }
    assert (Hd0 : (0 < 0.001 / gs)%Q) by (apply Qlt_shift_div_l; lra).
    assert (Hd1 : (0.001 / gs < 0.999)%Q) by (apply Qlt_shift_div_r; lra).
    apply truncQ_between; rewrite E; lra. }
  intros Hx Hy. unfold LngLatToGrid, GridToLngLat. cbn [fst snd].
  now rewrite (Hone _ _ x Hx), (Hone _ _ y Hy).
Qed.

Definition tenth_degree_grid : GridSpacing := mkGridSpacing (-125) 24 0.1 0.1.

Lemma grid_lnglat_round_trip_witness :
  LngLatToGrid tenth_degree_grid (fst (GridToLngLat tenth_degree_grid 12 0))
               (snd (GridToLngLat tenth_degree_grid 12 0)) = (12, 0).
Proof.
  exact (grid_lnglat_round_trip tenth_degree_grid 12 0 eq_refl eq_refl).
Defined.

(** ** Travel *)




Definition traveller : Agent :=
  mkAgent 3 0 2 3 2 3 (-1) (-1) 7 8 0 0 0 0 0 1 0 0 (-1) (-1) (2.5, 3.5)%Q
          (fun _ => no_attribs).

Lemma quiet_engine_uniform : uniform_draws quiet_engine.
Proof. intro k. split; vm_compute; [discriminate|reflexivity]. Qed.


(** X5. Random travel and back: for agents that are not on random travel
    (random_travel = -1) and, unless in hospital or withdrawn, stand at
    their home cell, returnRandomTravel after moveRandomTravel gives the
    tile back unchanged, whoever travelled. Whatever the tile,
    after returnRandomTravel no agent is marked as travelling, and a
    second returnRandomTravel changes nothing. *)
Theorem random_travel_round_trip (g : Geometry) (i_max j_max : Z) (random_travel_prob : Q)
        (engines : nat -> RandomEngine) (agents : list Agent) :
  Forall (fun a => random_travel a = -1
                   /\ (inHospital a = false -> withdrawn a = 0 ->
                       pos a = cell_position g (home_i a) (home_j a))) agents ->
  returnRandomTravel g (moveRandomTravel i_max j_max random_travel_prob engines agents) = agents
  /\ (forall l, Forall (fun a => random_travel a < 0) (returnRandomTravel g l))
  /\ (forall l, returnRandomTravel g (returnRandomTravel g l) = returnRandomTravel g l).
Proof.
  intro Hall. split; [|split].
  - unfold returnRandomTravel, moveRandomTravel. generalize 0%nat.
    induction Hall as [|a l [Hrt Hpos] Hl IH]; intro i; [reflexivity|].
    cbn [ParallelForRNG_index map]. rewrite IH. f_equal.
    unfold random_travel_body.
    destruct (inHospital a) eqn:Eh; cbn [negb andb].
    { rewrite Hrt. reflexivity. }
    destruct (withdrawn a =? 0) eqn:Ew.
    2:{ rewrite Hrt. reflexivity. }
    apply Z.eqb_eq in Ew. cbn [Random].
    destruct (Qltb _ random_travel_prob).
    2:{ rewrite Hrt. reflexivity. }
    cbn [random_travel set_pos set_random_travel].
    replace (0 <=? Z.of_nat i) with true by (symmetry; apply Z.leb_le; lia).
    specialize (Hpos eq_refl Ew). destruct a; cbn in *. subst. reflexivity.
  - intro l. unfold returnRandomTravel. apply Forall_forall. intros a' Hin.
    apply in_map_iff in Hin. destruct Hin as (a & <- & _).
    destruct (Z.leb_spec 0 (random_travel a)); simpl; lia.
  - intro l. unfold returnRandomTravel. rewrite map_map. apply map_ext. intro a.
    destruct (Z.leb_spec 0 (random_travel a)) as [H|H].
    + reflexivity.
    + replace (0 <=? random_travel a) with false by (symmetry; apply Z.leb_gt; exact H).
      reflexivity.
Qed.

Lemma random_travel_round_trip_witness :
  returnRandomTravel census_geometry
                     (moveRandomTravel 10 20 0.75 (fun _ => quiet_engine) [traveller])
  = [traveller]
  /\ map random_travel (moveRandomTravel 10 20 0.75 (fun _ => quiet_engine) [traveller]) = [0].
Proof.
  split; [|reflexivity].
  refine (proj1 (random_travel_round_trip census_geometry 10 20 0.75 (fun _ => quiet_engine)
                                          [traveller] _)).
  repeat constructor.
Defined.



(** ** getMaxGroup *)




(** ** Shelter in place, one way *)

Lemma ParallelForRNG_Forall2_at {A B} (R : A -> B -> Prop)
      (body : A -> RandomEngine -> B) engines l :
  (forall i a, R a (body a (engines i))) ->
  forall i, Forall2 R l (ParallelForRNG body engines i l).
Proof.
  intro H. induction l as [|a l IH]; intro i; simpl; constructor; auto.
Qed.

(** X8. shelterStart with uniform draws in [0, 1): every agent is either
    left as it is or gets withdrawn = 1 and nothing else; a withdrawal is
    never cleared; with a compliance of 1 or more every agent is
    withdrawn, with a compliance of 0 or less the tile is unchanged. *)
Theorem shelterStart_spec (m_shelter_compliance : Q) (engines : nat -> RandomEngine)
        (agents : list Agent) :
  (forall i, uniform_draws (engines i)) ->
  Forall2 (fun a a' => (a' = a \/ a' = set_withdrawn 1 a)
                       /\ (withdrawn a = 1 -> withdrawn a' = 1)
                       /\ ((1 <= m_shelter_compliance)%Q -> withdrawn a' = 1)
                       /\ ((m_shelter_compliance <= 0)%Q -> a' = a))
          agents (shelterStart m_shelter_compliance engines agents).
Proof.
  intro Hu. unfold shelterStart. apply ParallelForRNG_Forall2_at. intros i a.
  destruct (Hu i (n_uniform (engines i))) as [H0 H1]. cbn [Random fst].
  destruct (Qltb _ _) eqn:E.
  - split; [now right|]. split; [reflexivity|]. split; [reflexivity|].
    intro Hc. apply Qltb_lt in E. exfalso.
    apply (Qlt_irrefl 0). eapply Qle_lt_trans; [exact H0|].
    eapply Qlt_le_trans; [exact E|exact Hc].
  - split; [now left|]. split; [tauto|]. split; [|reflexivity].
    intro Hc. apply Qltb_ge in E. exfalso.
    apply (Qlt_irrefl 1). eapply Qle_lt_trans; [exact Hc|].
    eapply Qle_lt_trans; [exact E|exact H1].
Qed.

Lemma shelterStart_spec_witness :
  map withdrawn (shelterStart 1 (fun _ => quiet_engine) household) = map (fun _ => 1) household.
Proof.
  pose proof (shelterStart_spec 1 (fun _ => quiet_engine) household
                                (fun _ => quiet_engine_uniform)) as H.
  induction H as [|a a' l l' (_ & _ & Hw & _) _ IH]; [reflexivity|].
  cbn [map]. rewrite IH. f_equal. apply Hw. discriminate.
Defined.

(** ** Disease progression over a tile *)

(** The attributes assigned when the agents are created. *)
Definition census_attribs (a : Agent) :=
  (age_group a, family a, (home_i a, home_j a), (work_i a, work_j a), (trav_i a, trav_j a),
   nborhood a, (school_grade a, school_id a, school_closed a),
   (naics a, workgroup a, work_nborhood a)).

Definition travel_state (a : Agent) := (random_travel a, air_travel a, pos a).

Definition hospital (a : Agent) : Z * Z := (hosp_i a, hosp_j a).

(** What one day of updateAgents can do to a status. *)
Definition progression_step (s s' : Status.t) : Prop :=
  s' = s
  \/ (s = Status.immune /\ s' = Status.susceptible)
  \/ (s = Status.infected /\ s' = Status.immune).

(** A disease that justifies an admission: symptomatic, with a running
    treatment timer. *)
Definition admitted_for (d : nat) (a : Agent) : Prop :=
  status (runtime d a) = Status.infected
  /\ symptomatic (runtime d a) = SymptomStatus.symptomatic
  /\ (0 < treatment_timer (runtime d a))%Q.

Definition update_rel (d : nat) (x x' : Agent * Marks) : Prop :=
  census_attribs (fst x') = census_attribs (fst x)
  /\ travel_state (fst x') = travel_state (fst x)
  /\ hospital (fst x') = hospital (fst x)
  /\ (forall d', d' <> d -> runtime d' (fst x') = runtime d' (fst x))
  /\ progression_step (status (runtime d (fst x))) (status (runtime d (fst x')))
  /\ (inHospital (fst x) = true -> status (runtime d (fst x)) = Status.infected ->
      status (runtime d (fst x')) = Status.infected)
  /\ (marked_for_hosp (snd x') = 1 ->
      marked_for_hosp (snd x) = 1 \/ admitted_for d (fst x')).

Lemma update_body_rel disease_parm swc d x engine :
  update_rel d x (fst (update_body disease_parm swc d x engine)).
Proof.
  destruct x as [a m]. unfold update_rel, update_body. cbn [fst snd status set_prob].
  destruct (status (runtime d a)) eqn:Es;
    cbn [Random RandomGamma disease_counter set_counter symptomatic incubation_period
         latent_period infectious_period];
    repeat match goal with
           | |- context [check_hospitalization ?p ?g ?e] =>
               destruct (check_hospitalization p g e) as [[[t icu] vent] e2]
           | |- context [if ?c then _ else _] => destruct c eqn:?
           end;
    cbn [fst snd marked_for_hosp];
    repeat apply conj;
    try reflexivity;
    try (intros d' Hd'; rewrite ?runtime_set_withdrawn, runtime_put_other by exact Hd';
         reflexivity);
    try (rewrite ?runtime_set_withdrawn, runtime_put_same; simpl; rewrite ?Es;
         unfold progression_step; tauto);
    try (intros Hh Hs; try discriminate Hs;
         rewrite ?runtime_set_withdrawn, runtime_put_same; simpl; rewrite ?Es;
         try reflexivity; rewrite Hh in *; discriminate);
    try (intro Hm; left; exact Hm).
  all: intros _; right; unfold admitted_for.
  all: rewrite ?runtime_set_withdrawn, runtime_put_same; simpl; rewrite Es.
  all: repeat apply conj; try reflexivity.
  all: match goal with H : Qltb 0 ?t = true |- (0 < ?t)%Q => apply Qltb_lt in H; exact H end.
Qed.

Lemma Forall2_compose {A B C} (R1 : A -> B -> Prop) (R2 : B -> C -> Prop) (R3 : A -> C -> Prop) :
  (forall a b c, R1 a b -> R2 b c -> R3 a c) ->
  forall l1 l2 l3, Forall2 R1 l1 l2 -> Forall2 R2 l2 l3 -> Forall2 R3 l1 l3.
Proof.
  intros H l1 l2 l3 H12. revert l3.
  induction H12; intros l3 H23; inversion H23; subst; constructor; eauto.
Qed.

Lemma Forall2_map_r {A B C} (R : A -> B -> Prop) (R' : A -> C -> Prop) (f : B -> C) :
  (forall a b, R a b -> R' a (f b)) ->
  forall l l', Forall2 R l l' -> Forall2 R' l (map f l').
Proof. intros H l l' H2. induction H2; simpl; constructor; auto. Qed.

(** A loop over the diseases with an invariant that depends on how many
    diseases have been processed. *)
Lemma for_diseases_indexed {T} (I : nat -> T -> Prop) (body : nat -> DiseaseParm -> T -> T) :
  (forall d p s, I d s -> I (S d) (body d p s)) ->
  forall ps d s, I d s -> I (d + length ps)%nat (for_diseases body ps d s).
Proof.
  intros Hb ps. induction ps as [|p ps IH]; intros d s Hs; simpl.
  - now rewrite Nat.add_0_r.
  - replace (d + S (length ps))%nat with (S d + length ps)%nat by lia.
    apply IH, Hb, Hs.
Qed.

Lemma inHospital_hospital a b : hospital a = hospital b -> inHospital a = inHospital b.
Proof. unfold hospital, inHospital. intro H. inversion H. reflexivity. Qed.

(** What holds of an agent and its marks after the diseases below [d0]
    have been processed, [a] being the agent before the kernel. *)
Definition progression_inv (d0 : nat) (a : Agent) (x : Agent * Marks) : Prop :=
  census_attribs (fst x) = census_attribs a
  /\ travel_state (fst x) = travel_state a
  /\ hospital (fst x) = hospital a
  /\ (forall d, (d < d0)%nat ->
                progression_step (status (runtime d a)) (status (runtime d (fst x))))
  /\ (forall d, (d0 <= d)%nat -> runtime d (fst x) = runtime d a)
  /\ (inHospital a = true -> forall d, status (runtime d a) = Status.infected ->
                                       status (runtime d (fst x)) = Status.infected)
  /\ (marked_for_hosp (snd x) = 1 -> exists d, (d < d0)%nat /\ admitted_for d (fst x)).

Lemma progression_inv_step d0 a x x' :
  progression_inv d0 a x -> update_rel d0 x x' -> progression_inv (S d0) a x'.
Proof.
  intros (I1 & I2 & I3 & I4 & I5 & I6 & I7) (U1 & U2 & U3 & U4 & U5 & U6 & U7).
  unfold progression_inv. repeat apply conj.
  - congruence.
  - congruence.
  - congruence.
  - intros d Hd. destruct (Nat.eq_dec d d0) as [->|Hne].
    + rewrite <- (I5 d0) by lia. exact U5.
    + rewrite U4 by exact Hne. apply I4. lia.
  - intros d Hd. rewrite U4 by lia. apply I5. lia.
  - intros Hh d Hs. destruct (Nat.eq_dec d d0) as [->|Hne].
    + apply U6.
      * rewrite (inHospital_hospital _ _ I3). exact Hh.
      * rewrite I5 by lia. exact Hs.
    + rewrite U4 by exact Hne. now apply I6.
  - intro Hm. destruct (U7 Hm) as [Hm0|Hadm].
    + destruct (I7 Hm0) as (d & Hd & Ha). exists d. split; [lia|].
      unfold admitted_for in *. rewrite U4 by lia. exact Ha.
    + exists d0. split; [lia|exact Hadm].
Qed.

(** The outcome of updateAgents for one agent: [a] before, [a'] after. *)
Definition progression_outcome (n_disease : nat) (a a' : Agent) : Prop :=
  census_attribs a' = census_attribs a
  /\ travel_state a' = travel_state a
  /\ (forall d, progression_step (status (runtime d a)) (status (runtime d a')))
  /\ (forall d, (n_disease <= d)%nat -> runtime d a' = runtime d a)
  /\ (inHospital a = true ->
      forall d, status (runtime d a) = Status.infected ->
                status (runtime d a') = Status.infected)
  /\ (hospital a' = hospital a
      \/ (inHospital a = false
          /\ hospital a' = (home_i a, home_j a)
          /\ exists d, (d < n_disease)%nat /\ admitted_for d a')).

Lemma updateAgents_rel parms swc engines agents a_stats :
  Forall2 (progression_outcome (length parms)) agents
          (fst (updateAgents parms swc engines agents a_stats)).
Proof.
  unfold progression_outcome, updateAgents. cbn [fst]. rewrite map_map.
  set (body := fun d parm xs => ParallelForRNG _ (engines d) 0%nat xs).
  assert (Hloop : Forall2 (progression_inv (0 + length parms)) agents
                          (for_diseases body parms 0%nat
                                        (map (fun a => (a, mkMarks 0 0 0)) agents))).
  { apply (for_diseases_indexed (fun d xs => Forall2 (progression_inv d) agents xs)).
    - intros d p s Hs. unfold body.
      eapply Forall2_compose; [|exact Hs|apply ParallelForRNG_Forall2
                                           with (R := update_rel d)].
      + intros a x x'. apply progression_inv_step.
      + intros x e. apply update_body_rel.
    - apply Forall2_map_same. intro a. unfold progression_inv. cbn [fst snd marked_for_hosp].
      repeat apply conj; try reflexivity.
      + intros d Hd. lia.
      + intros _ d Hs. exact Hs.
      + discriminate. }
  eapply Forall2_map_r; [|exact Hloop].
  intros a [a1 m] (I1 & I2 & I3 & I4 & I5 & I6 & I7). cbn [fst snd] in *.
  assert (Hstep : forall d, progression_step (status (runtime d a)) (status (runtime d a1))).
  { intro d. destruct (Nat.lt_ge_cases d (0 + length parms)) as [Hd|Hd].
    - now apply I4.
    - rewrite I5 by exact Hd. now left. }
  destruct (marked_for_hosp m =? 1) eqn:Em; cbn [andb].
  - destruct (inHospital a1) eqn:Eh; cbn [negb fst].
    + repeat apply conj; try assumption. now left.
    + change (census_attribs (assign_hospital a1)) with (census_attribs a1).
      change (travel_state (assign_hospital a1)) with (travel_state a1).
      repeat apply conj; try assumption.
      right. split; [now rewrite <- (inHospital_hospital _ _ I3)|].
      split; [unfold hospital, assign_hospital; cbn; inversion I1; reflexivity|].
      apply Z.eqb_eq in Em. destruct (I7 Em) as (d & Hd & Ha). exists d. split; [exact Hd|].
      exact Ha.
  - cbn [fst]. repeat apply conj; try assumption. now left.
Qed.

(** X9. updateAgents on a tile. The attributes assigned at creation, the
    travel marks and the position are kept, and so are the runtime columns
    of indices that are not diseases. Per disease a status stays or moves
    immune -> susceptible or infected -> immune, nothing else (dead stays
    dead, nobody becomes infected here). An agent in hospital is never
    moved out of infected by this kernel and keeps its hospital. The
    hospital of an agent changes only by an admission: the agent was not
    in hospital, the hospital is its home community, and for some disease
    the agent is infected and symptomatic with a positive treatment
    timer. *)
Theorem updateAgents_progression (parms : list DiseaseParm) (symptomatic_withdraw_compliance : Q)
        (engines : nat -> nat -> RandomEngine) (agents : list Agent) (a_stats : nat -> Stats) :
  Forall2 (fun a a' =>
             census_attribs a' = census_attribs a
             /\ travel_state a' = travel_state a
             /\ (forall d, progression_step (status (runtime d a)) (status (runtime d a')))
             /\ (forall d, (length parms <= d)%nat -> runtime d a' = runtime d a)
             /\ (inHospital a = true ->
                 forall d, status (runtime d a) = Status.infected ->
                           status (runtime d a') = Status.infected)
             /\ (hospital a' = hospital a
                 \/ (inHospital a = false
                     /\ hospital a' = (home_i a, home_j a)
                     /\ exists d, (d < length parms)%nat /\ admitted_for d a')))
          agents
          (fst (updateAgents parms symptomatic_withdraw_compliance engines agents a_stats)).
Proof.
  exact (updateAgents_rel parms symptomatic_withdraw_compliance engines agents a_stats).
Qed.

(** ** The hospital model over a tile *)

(** What the disease loop of treatAgents can do to a status, *)
Definition hospital_step (s s' : Status.t) : Prop :=
  s' = s \/ (s = Status.infected /\ (s' = Status.immune \/ s' = Status.dead)).

(** and what treatAgents as a whole can. *)
Definition hospital_outcome (s s' : Status.t) : Prop :=
  s' = s \/ (s = Status.infected /\ s' = Status.immune) \/ s' = Status.dead.

(** The sum of the treatment timers read by the discharge kernel. *)
Definition sum_timers (n_disease : nat) (a : Agent) : Q :=
  fold_left (fun s d => (s + treatment_timer (runtime d a))%Q) (seq 0 n_disease) 0%Q.

Definition treat_step (x x' : Agent * HospAux) : Prop :=
  census_attribs (fst x') = census_attribs (fst x)
  /\ travel_state (fst x') = travel_state (fst x)
  /\ hospital (fst x') = hospital (fst x)
  /\ (inHospital (fst x) = false -> x' = x)
  /\ (forall d, hospital_step (status (runtime d (fst x))) (status (runtime d (fst x'))))
  /\ (withdrawn (fst x') = withdrawn (fst x) \/ withdrawn (fst x') = 0).

Lemma treat_step_refl x : treat_step x x.
Proof. unfold treat_step, hospital_step. repeat apply conj; auto. Qed.

Lemma treat_step_trans x y z : treat_step x y -> treat_step y z -> treat_step x z.
Proof.
  intros (A1 & A2 & A3 & A4 & A5 & A6) (B1 & B2 & B3 & B4 & B5 & B6).
  unfold treat_step. repeat apply conj; try congruence.
  - intro Hh. pose proof (A4 Hh) as E. subst y. exact (B4 Hh).
  - intro d. specialize (A5 d). specialize (B5 d). unfold hospital_step in *.
    destruct A5 as [A5|[A5 A5']]; [rewrite A5 in B5; exact B5|].
    right. split; [exact A5|].
    destruct B5 as [B5|[B5 _]]; [now rewrite B5|].
    destruct A5' as [E|E]; rewrite E in B5; discriminate.
  - destruct B6 as [B6|B6]; [rewrite B6; exact A6|now right].
Qed.

Lemma treat_body_step disease_parm d x engine x' e' :
  treat_body disease_parm d x engine = Some (x', e') -> treat_step x x'.
Proof.
  destruct x as [a h]. unfold treat_body.
  destruct (negb (inHospital a)) eqn:Ehosp;
    [intro H; inversion H; subst; apply treat_step_refl|].
  destruct (Qeq_bool _ _); [intro H; inversion H; subst; apply treat_step_refl|].
  destruct (Qeq_bool _ _); [intro H; inversion H; subst; apply treat_step_refl|].
  destruct (is_alive h =? 0); [intro H; inversion H; subst; apply treat_step_refl|].
  destruct (negb (Status.eqb _ _)) eqn:Einf; [discriminate|].
  apply negb_false_iff in Ehosp. apply negb_false_iff, Status_eqb_eq in Einf.
  assert (Hcol : forall r s', (s' = Status.infected \/ s' = Status.immune \/ s' = Status.dead) ->
                              status r = s' ->
                              forall d', hospital_step (status (runtime d' a))
                                                       (status (runtime d' (put_runtime d r a)))).
  { intros r s' Hs' Hr d'. destruct (Nat.eq_dec d' d) as [->|Hne].
    - rewrite runtime_put_same, Hr, Einf. unfold hospital_step.
      destruct Hs' as [->|[->| ->]]; auto.
    - rewrite runtime_put_other by exact Hne. now left. }
  destruct (_ >? 0).
  - cbn [Random]. destruct (Qltb _ _).
    + intro H; inversion H; subst x' e'. unfold treat_step; cbn [fst snd].
      repeat apply conj; try reflexivity; try congruence.
      * apply Hcol with (s' := Status.dead); [tauto|reflexivity].
      * now left.
    + cbn [RandomGamma]. intro H; inversion H; subst x' e'. unfold treat_step; cbn [fst snd].
      repeat apply conj; try reflexivity; try congruence.
      * intro d'. change (runtime d' (set_withdrawn 0 ?y)) with (runtime d' y).
        apply Hcol with (s' := Status.immune); [tauto|reflexivity].
      * now right.
  - intro H; inversion H; subst x' e'. unfold treat_step; cbn [fst snd].
    repeat apply conj; try reflexivity; try congruence.
    + apply Hcol with (s' := Status.infected); [tauto|exact Einf].
    + now left.
Qed.

Lemma alive_body_fst n a x : alive_body n a = Some x -> fst x = a /\ flag_status (snd x) = 0.
Proof.
  unfold alive_body. destruct (Status.eqb _ _); destruct (forallb _ _);
    intro H; inversion H; subst; split; reflexivity.
Qed.

Lemma kill_static l : forall a,
  let a' := fold_left (fun a d => modify_runtime d (set_status Status.dead) a) l a in
  census_attribs a' = census_attribs a /\ travel_state a' = travel_state a
  /\ hospital a' = hospital a /\ withdrawn a' = withdrawn a.
Proof.
  induction l as [|x l IH]; intro a; simpl; [repeat split|].
  destruct (IH (modify_runtime x (set_status Status.dead) a)) as (H1 & H2 & H3 & H4).
  rewrite H1, H2, H3, H4. repeat split.
Qed.

Lemma kill_other l : forall a d,
  ~ In d l ->
  runtime d (fold_left (fun a d => modify_runtime d (set_status Status.dead) a) l a)
  = runtime d a.
Proof.
  induction l as [|x l IH]; intros a d Hd; simpl; [reflexivity|].
  rewrite IH by (intro; apply Hd; now right).
  apply runtime_modify_other. intro E. apply Hd. now left.
Qed.

Definition discharged (g : Geometry) (n_disease : nat) (a a' : Agent) : Prop :=
  inHospital a = true /\ hospital a' = (-1, -1) /\ withdrawn a' = 0
  /\ ((all_dead n_disease a' /\ pos a' = pos a)
      \/ (none_dead n_disease a' /\ pos a' = cell_position g (home_i a) (home_j a))).

Lemma discharge_body_rel g n x :
  treat_inv n x ->
  let x' := discharge_body g n x in
  census_attribs (fst x') = census_attribs (fst x)
  /\ (random_travel (fst x') = random_travel (fst x)
      /\ air_travel (fst x') = air_travel (fst x))
  /\ snd x' = snd x
  /\ (forall d, status (runtime d (fst x')) = status (runtime d (fst x))
                \/ status (runtime d (fst x')) = Status.dead)
  /\ (x' = x \/ discharged g n (fst x) (fst x'))
  /\ (inHospital (fst x') = true ->
      none_dead n (fst x') /\ ~ (sum_timers n (fst x') == 0)%Q).
Proof.
  destruct x as [a h]. intros (J1 & J2 & J3). cbn [fst snd] in *.
  unfold discharge_body.
  destruct (negb (inHospital a)) eqn:Ehosp.
  - apply negb_true_iff in Ehosp. cbv zeta. cbn [fst snd].
    repeat apply conj; auto. intro H. congruence.
  - apply negb_false_iff in Ehosp.
    destruct (is_alive h =? 0) eqn:Ealive.
    + cbv zeta. cbn [fst snd].
      set (a1 := fold_left _ (seq 0 n) a).
      destruct (kill_static (seq 0 n) a) as (K1 & K2 & K3 & K4). fold a1 in K1, K2, K3, K4.
      assert (Hall : all_dead n (set_withdrawn 0 (set_hosp (-1) (-1) a1))).
      { intros d Hd. change (runtime d (set_withdrawn 0 (set_hosp (-1) (-1) ?y)))
                       with (runtime d y).
        apply kill_all_diseases. left. apply in_seq. lia. }
      repeat apply conj.
      * exact K1.
      * inversion K2. reflexivity.
      * inversion K2. reflexivity.
      * reflexivity.
      * intro d. change (runtime d (set_withdrawn 0 (set_hosp (-1) (-1) ?y)))
                   with (runtime d y).
        destruct (Nat.lt_ge_cases d n) as [Hd|Hd].
        -- right. apply kill_all_diseases. left. apply in_seq. lia.
        -- left. unfold a1. rewrite kill_other; [reflexivity|].
           rewrite in_seq. lia.
      * right. unfold discharged. repeat apply conj; try reflexivity; [exact Ehosp|].
        left. split; [exact Hall|]. cbn [pos set_withdrawn set_hosp].
        inversion K2. reflexivity.
      * cbn. discriminate.
    + apply Z.eqb_neq in Ealive. fold (sum_timers n a).
      destruct (Qeq_bool (sum_timers n a) 0) eqn:Esum; cbv zeta; cbn [fst snd].
      * repeat apply conj; try reflexivity; auto.
        -- right. unfold discharged. repeat apply conj; try reflexivity; [exact Ehosp|].
           right. split; [|reflexivity]. exact (J1 Ealive).
        -- cbn. discriminate.
      * repeat apply conj; auto. intros _. split; [exact (J1 Ealive)|].
        intro E. apply Qeq_bool_iff in E. congruence.
Qed.

Lemma treat_tile_stages g parms engines agents xs :
  treat_tile g parms engines agents = Some xs ->
  exists xs0 xs1,
    Forall2 (fun a x => alive_body (length parms) a = Some x) agents xs0
    /\ Forall2 treat_step xs0 xs1
    /\ Forall (treat_inv (length parms)) xs1
    /\ xs = map (discharge_body g (length parms)) xs1.
Proof.
  unfold treat_tile. set (n := length parms).
  destruct (ParallelFor_assert (alive_body n) agents) as [xs0|] eqn:E0; [|discriminate].
  destruct (for_diseases_assert _ parms 0%nat xs0) as [xs1|] eqn:E1; [|discriminate].
  intro H; inversion H; subst xs. clear H.
  assert (H0 : Forall2 (fun a x => alive_body n a = Some x) agents xs0).
  { eapply ParallelFor_assert_Forall2; [|exact E0]. intros a b _ Hab. exact Hab. }
  exists xs0, xs1. split; [exact H0|]. split; [|split; [|reflexivity]].
  - eapply for_diseases_assert_rel with (R := Forall2 treat_step); [| | |exact E1].
    + apply Forall2_refl_of, treat_step_refl.
    + apply Forall2_trans_of, treat_step_trans.
    + intros d lparm s s' _ Hs.
      eapply ParallelForRNG_assert_Forall2; [|exact Hs].
      intros a e b e' Hb. exact (treat_body_step _ _ _ _ _ _ Hb).
  - assert (Hinv0 : Forall (treat_inv n) xs0).
    { eapply Forall2_Forall_r with (P := fun _ => True); [|exact H0|].
      - intros a b Hab _. exact (alive_body_inv n a b Hab).
      - apply Forall_forall. intros; exact I. }
    eapply Forall2_Forall_r with (R := fun x x' => treat_inv n x -> treat_inv n x');
      [intros a b Hab Ha; exact (Hab Ha)| |exact Hinv0].
    eapply for_diseases_assert_rel
      with (R := Forall2 (fun x x' => treat_inv n x -> treat_inv n x')); [| | |exact E1].
    + apply Forall2_refl_of. auto.
    + apply Forall2_trans_of. auto.
    + intros d lparm s s' _ Hs.
      eapply ParallelForRNG_assert_Forall2; [|exact Hs].
      intros a e b e' Hb. now apply treat_body_inv with (1 := Hb).
Qed.

Lemma Forall2_and_r {A B} (R : A -> B -> Prop) (P : B -> Prop) l l' :
  Forall2 R l l' -> Forall P l' -> Forall2 (fun a b => R a b /\ P b) l l'.
Proof.
  intro H. induction H; intro HP; inversion HP; subst; constructor; auto.
Qed.

(** The outcome of treatAgents for one agent: [a] before, [x] the agent
    and its auxiliary entries after. *)
Definition treatment_outcome (g : Geometry) (n_disease : nat) (a : Agent) (x : Agent * HospAux)
  : Prop :=
  census_attribs (fst x) = census_attribs a
  /\ (random_travel (fst x) = random_travel a /\ air_travel (fst x) = air_travel a)
  /\ (inHospital a = false -> fst x = a /\ flag_status (snd x) = 0)
  /\ (forall d, hospital_outcome (status (runtime d a)) (status (runtime d (fst x))))
  /\ ((hospital (fst x) = hospital a /\ pos (fst x) = pos a)
      \/ discharged g n_disease a (fst x))
  /\ (inHospital (fst x) = true ->
      none_dead n_disease (fst x) /\ ~ (sum_timers n_disease (fst x) == 0)%Q).

Lemma treat_tile_rel g parms engines agents xs :
  treat_tile g parms engines agents = Some xs ->
  Forall2 (treatment_outcome g (length parms)) agents xs.
Proof.
  unfold treatment_outcome. intro Htile.
  destruct (treat_tile_stages _ _ _ _ _ Htile) as (xs0 & xs1 & H0 & H1 & Hinv & ->).
  set (n := length parms) in *.
  eapply Forall2_map_r
    with (R := fun a x1 => (exists x0, alive_body n a = Some x0 /\ treat_step x0 x1)
                           /\ treat_inv n x1).
  2:{ apply Forall2_and_r; [|exact Hinv].
      eapply Forall2_compose; [|exact H0|exact H1].
      intros a x0 x1 Ha Hs. exists x0. split; [exact Ha|exact Hs]. }
  intros a x1 [(x0 & Ha & (S1 & S2 & S3 & S4 & S5 & S6)) Hi].
  destruct (alive_body_fst _ _ _ Ha) as [Hfst Hflag]. rewrite Hfst in *.
  destruct (discharge_body_rel g n x1 Hi) as (D1 & [D2 D2'] & D3 & D4 & D5 & D6).
  repeat apply conj.
  - congruence.
  - inversion S2. congruence.
  - inversion S2. congruence.
  - intro Hh. specialize (S4 Hh). subst x1.
    destruct D5 as [D5|(D5 & _)].
    + rewrite D5, Hfst. split; [reflexivity|exact Hflag].
    + rewrite Hfst in D5. congruence.
  - intro d. specialize (S5 d). specialize (D4 d). unfold hospital_step in S5.
    unfold hospital_outcome.
    destruct D4 as [D4|D4]; [rewrite D4|now right; right].
    destruct S5 as [S5|[S5 [S5'|S5']]]; auto.
  - destruct D5 as [D5|(E1 & E2 & E3 & E4)].
    + left. rewrite D5. split; [exact S3|]. inversion S2. reflexivity.
    + right. unfold discharged. repeat apply conj; try assumption.
      * now rewrite <- (inHospital_hospital _ _ S3).
      * inversion S1. inversion S2.
        destruct E4 as [[E4 E5]|[E4 E5]]; [left|right]; (split; [exact E4|congruence]).
  - exact D6.
Qed.

(** X10. treatAgents on a tile, on the runs that pass its assertions. An
    agent that is not in hospital is returned as it is, with no outcome
    flag. Per disease a status stays, moves infected -> immune, or becomes
    dead; the attributes assigned at creation and the travel marks are
    kept. A patient either keeps hospital and position or is discharged:
    hospital (-1, -1), withdrawn 0, and either dead for every disease
    (position kept) or dead for none and placed at its home community.
    Whoever is still in hospital afterwards is dead for no disease and has
    a non-zero sum of treatment timers. *)
Theorem treat_tile_outcomes (g : Geometry) (parms : list DiseaseParm)
        (engines : nat -> nat -> RandomEngine) (agents : list Agent)
        (xs : list (Agent * HospAux)) :
  treat_tile g parms engines agents = Some xs ->
  Forall2 (fun a x =>
             census_attribs (fst x) = census_attribs a
             /\ (random_travel (fst x) = random_travel a /\ air_travel (fst x) = air_travel a)
             /\ (inHospital a = false -> fst x = a /\ flag_status (snd x) = 0)
             /\ (forall d, hospital_outcome (status (runtime d a))
                                            (status (runtime d (fst x))))
             /\ ((hospital (fst x) = hospital a /\ pos (fst x) = pos a)
                 \/ discharged g (length parms) a (fst x))
             /\ (inHospital (fst x) = true ->
                 none_dead (length parms) (fst x)
                 /\ ~ (sum_timers (length parms) (fst x) == 0)%Q))
          agents xs.
Proof.
  exact (treat_tile_rel g parms engines agents xs).
Qed.

Lemma treat_tile_outcomes_witness :
  exists xs,
    treat_tile census_geometry [default_parm] (fun _ _ => quiet_engine)
               [hospitalised_agent; withdrawn_agent] = Some xs
    /\ map (fun x => (status (runtime 0 (fst x)), hospital (fst x), withdrawn (fst x),
                      flag_status (snd x))) xs
       = [(Status.dead, (-1, -1), 0, -3); (Status.never, (-1, -1), 1, 0)]
    /\ Forall2 (fun a x => inHospital a = false -> fst x = a /\ flag_status (snd x) = 0)
               [hospitalised_agent; withdrawn_agent] xs.
Proof.
  destruct (treat_tile census_geometry [default_parm] (fun _ _ => quiet_engine)
                       [hospitalised_agent; withdrawn_agent]) as [xs|] eqn:E1;
    [|vm_compute in E1; discriminate E1].
  exists xs. split; [reflexivity|]. split.
  - vm_compute in E1. inversion E1. reflexivity.
  - eapply Forall2_impl;
      [|exact (treat_tile_outcomes census_geometry [default_parm] (fun _ _ => quiet_engine)
                                   [hospitalised_agent; withdrawn_agent] xs E1)].
    intros a x (_ & _ & H & _). exact H.
Defined.

(** ** One day of statuses *)

(** What infectAgents can do to a status. *)
Definition infect_step (s s' : Status.t) : Prop :=
  s' = s \/ ((s = Status.never \/ s = Status.susceptible) /\ s' = Status.infected).

(** The status changes possible between the start of updateStatus and
    the end of infectAgents of the same day. *)
Definition day_transition (s s' : Status.t) : bool :=
  match s, s' with
  | Status.dead, Status.dead => true
  | Status.dead, _ => false
  | _, Status.dead => true
  | Status.never, (Status.never | Status.infected) => true
  | Status.susceptible, (Status.susceptible | Status.infected) => true
  | Status.infected, (Status.infected | Status.immune) => true
  | Status.immune, (Status.immune | Status.susceptible | Status.infected) => true
  | _, _ => false
  end.

Lemma infect_body_step lparm r engine :
  infect_step (status r) (status (fst (infect_body lparm r engine))).
Proof.
  unfold infect_body, infect_step. cbn [status set_prob].
  destruct (status r) eqn:Es; cbn [Status.eqb orb]; try (simpl; rewrite Es; tauto).
  - cbn [Random]. destruct (Qltb _ _).
    + rewrite setInfected_eq. simpl. tauto.
    + simpl. rewrite Es. tauto.
  - cbn [Random]. destruct (Qltb _ _).
    + rewrite setInfected_eq. simpl. tauto.
    + simpl. rewrite Es. tauto.
Qed.

Lemma infect_step_trans s1 s2 s3 : infect_step s1 s2 -> infect_step s2 s3 -> infect_step s1 s3.
Proof.
  unfold infect_step. intros [->|[H1 ->]] [->|[H2 ->]]; auto.
Qed.

Definition infection_outcome (a a' : Agent) : Prop :=
  census_attribs a' = census_attribs a
  /\ travel_state a' = travel_state a
  /\ hospital a' = hospital a
  /\ withdrawn a' = withdrawn a
  /\ forall d, infect_step (status (runtime d a)) (status (runtime d a')).

Lemma infectAgents_rel parms engines agents :
  Forall2 infection_outcome agents (infectAgents parms engines agents).
Proof.
  unfold infectAgents.
  apply for_diseases_rel with (R := Forall2 infection_outcome).
  - apply Forall2_refl_of. intro x. unfold infection_outcome, infect_step. auto 10.
  - apply Forall2_trans_of. intros x y z (A1 & A2 & A3 & A4 & A5) (B1 & B2 & B3 & B4 & B5).
    unfold infection_outcome. repeat apply conj; try congruence.
    intro d. exact (infect_step_trans _ _ _ (A5 d) (B5 d)).
  - intros d lparm s _. apply ParallelForRNG_Forall2. intros a e.
    unfold infection_outcome. repeat apply conj; try reflexivity.
    intro d'. destruct (Nat.eq_dec d' d) as [->|Hne].
    + rewrite runtime_modify_same. apply infect_body_step.
    + rewrite runtime_modify_other by exact Hne. now left.
Qed.

(** updateStatus, agent by agent: progression, then treatment, then the
    move to the hospital. *)
Definition status_outcome (g : Geometry) (n_disease : nat) (a a' : Agent) : Prop :=
  exists a1 x, progression_outcome n_disease a a1
               /\ treatment_outcome g n_disease a1 x
               /\ a' = to_hospital_position g (fst x).

Lemma updateStatus_rel g parms swc status_engines hospital_engines agents a_stats xs :
  treat_tile g parms hospital_engines
             (fst (updateAgents parms swc status_engines agents a_stats)) = Some xs ->
  Forall2 (status_outcome g (length parms)) agents
          (map (to_hospital_position g) (map fst xs)).
Proof.
  intro Htile. rewrite map_map.
  eapply Forall2_map_r; [|eapply Forall2_compose;
                           [|apply (updateAgents_rel parms swc status_engines agents a_stats)
                            |apply (treat_tile_rel _ _ _ _ _ Htile)]].
  - intros a x H. exact H.
  - intros a a1 x H1 H2. cbv beta. exists a1, x. split; [exact H1|]. split; [exact H2|].
    reflexivity.
Qed.

Lemma day_transition_compose s s1 s2 s3 :
  progression_step s s1 -> hospital_outcome s1 s2 -> infect_step s2 s3 ->
  day_transition s s3 = true.
Proof.
  unfold progression_step, hospital_outcome, infect_step.
  intros H1 H2 H3.
  destruct s, s1, s2, s3; try reflexivity; exfalso;
    repeat match goal with
           | H : _ \/ _ |- _ => destruct H
           | H : _ /\ _ |- _ => destruct H
           end; discriminate.
Qed.

(** X11. The statuses over one day, from the start of updateStatus to
    the end of infectAgents, for every agent and every disease, on the
    runs where treatAgents passes its assertions: dead stays dead; never
    and susceptible stay or become infected or dead; infected stays or
    becomes immune or dead; immune stays or becomes susceptible, infected
    (the immunity ran out and the agent was infected again on the same
    day) or dead. No agent returns to never, and the attributes assigned
    at creation are kept. *)
Theorem daily_status_cycle (g : Geometry) (parms : list DiseaseParm)
        (symptomatic_withdraw_compliance : Q)
        (status_engines hospital_engines infect_engines : nat -> nat -> RandomEngine)
        (agents : list Agent) (a_disease_stats : nat -> Stats)
        (xs : list (Agent * HospAux)) :
  treat_tile g parms hospital_engines
             (fst (updateAgents parms symptomatic_withdraw_compliance status_engines
                                agents a_disease_stats)) = Some xs ->
  Forall2 (fun a a' =>
             census_attribs a' = census_attribs a
             /\ forall d, day_transition (status (runtime d a)) (status (runtime d a')) = true)
          agents
          (infectAgents parms infect_engines (map (to_hospital_position g) (map fst xs))).
Proof.
  intro Htile.
  eapply Forall2_compose; [|apply (updateStatus_rel _ _ _ _ _ _ _ _ Htile)
                           |apply infectAgents_rel].
  intros a a2 a3 (a1 & x & (P1 & _ & P3 & _) & (T1 & _ & _ & T4 & _) & ->)
         (I1 & _ & _ & _ & I5).
  assert (Hfst : forall y, census_attribs (to_hospital_position g y) = census_attribs y
                           /\ forall d, runtime d (to_hospital_position g y) = runtime d y).
  { intro y. unfold to_hospital_position. destruct (inHospital y); split; reflexivity. }
  destruct (Hfst (fst x)) as [F1 F2]. split; [congruence|].
  intro d. apply day_transition_compose with (s1 := status (runtime d a1))
                                              (s2 := status (runtime d (fst x))).
  - apply P3.
  - apply T4.
  - rewrite <- F2. apply I5.
Qed.

Lemma daily_status_cycle_witness :
  exists xs,
    treat_tile census_geometry two_diseases (fun _ _ => quiet_engine)
               (fst (updateAgents two_diseases 0.95 (fun _ _ => quiet_engine)
                                  [hospitalised_agent] no_stats)) = Some xs
    /\ Forall2 (fun a a' =>
                  day_transition (status (runtime 0 a)) (status (runtime 0 a')) = true
                  /\ day_transition (status (runtime 1 a)) (status (runtime 1 a')) = true)
               [hospitalised_agent]
               (infectAgents two_diseases (fun _ _ => quiet_engine)
                             (map (to_hospital_position census_geometry) (map fst xs))).
Proof.
  destruct (treat_tile census_geometry two_diseases (fun _ _ => quiet_engine)
               (fst (updateAgents two_diseases 0.95 (fun _ _ => quiet_engine)
                                  [hospitalised_agent] no_stats))) as [xs|] eqn:E1;
    [|vm_compute in E1; discriminate E1].
  exists xs. split; [reflexivity|].
  eapply Forall2_impl;
    [|exact (daily_status_cycle census_geometry two_diseases 0.95
               (fun _ _ => quiet_engine) (fun _ _ => quiet_engine) (fun _ _ => quiet_engine)
               [hospitalised_agent] no_stats xs E1)].
  intros a a' [_ H]. split; apply H.
Defined.

Lemma census_home a b :
  census_attribs a = census_attribs b -> home_i a = home_i b /\ home_j a = home_j b.
Proof. intro H. inversion H. split; reflexivity. Qed.

Lemma Forall2_with_l {A B} (R R' : A -> B -> Prop) (P : A -> Prop) :
  (forall a b, R a b -> P a -> R' a b) ->
  forall l l', Forall2 R l l' -> Forall P l -> Forall2 R' l l'.
Proof.
  intros H l l' H2. induction H2; intro HP; inversion HP; subst; constructor; auto.
Qed.

(** X12. The hospital of a patient is its home community. If that holds
    of every agent in hospital before updateStatus, then after it (on the
    runs where treatAgents passes its assertions) every agent in hospital
    has its home community as hospital and stands at the position of that
    community, and every agent that was in hospital and has left it is
    either dead for every disease or stands at its home community. *)
Theorem hospital_is_home_community (g : Geometry) (parms : list DiseaseParm)
        (symptomatic_withdraw_compliance : Q)
        (status_engines hospital_engines : nat -> nat -> RandomEngine)
        (agents : list Agent) (a_disease_stats : nat -> Stats)
        (xs : list (Agent * HospAux)) :
  treat_tile g parms hospital_engines
             (fst (updateAgents parms symptomatic_withdraw_compliance status_engines
                                agents a_disease_stats)) = Some xs ->
  Forall (fun a => inHospital a = true -> hospital a = (home_i a, home_j a)) agents ->
  Forall2 (fun a a' =>
             (inHospital a' = true ->
              hospital a' = (home_i a', home_j a')
              /\ pos a' = cell_position g (home_i a') (home_j a'))
             /\ (inHospital a = true -> inHospital a' = false ->
                 all_dead (length parms) a'
                 \/ pos a' = cell_position g (home_i a') (home_j a')))
          agents (map (to_hospital_position g) (map fst xs)).
Proof.
  intros Htile Hhome.
  eapply Forall2_with_l; [|apply (updateStatus_rel _ _ _ _ _ _ _ _ Htile)|exact Hhome].
  clear. intros a a' Hout Ha.
  destruct Hout as (a1 & x & (P1 & P2 & _ & _ & _ & P6) & (T1 & _ & _ & _ & T5 & _) & ->).
  cbv beta in Ha.
  destruct (census_home _ _ P1) as [Hi1 Hj1]. destruct (census_home _ _ T1) as [Hix Hjx].
  assert (Hh1 : inHospital a1 = true -> hospital a1 = (home_i a1, home_j a1)).
  { intro Hin. rewrite Hi1, Hj1. destruct P6 as [E|(_ & E & _)]; [|exact E].
    rewrite E. apply Ha. rewrite <- (inHospital_hospital _ _ E). exact Hin. }
  assert (Hhx : inHospital (fst x) = true ->
                hospital (fst x) = (home_i (fst x), home_j (fst x))).
  { intro Hin. rewrite Hix, Hjx. destruct T5 as [[E _]|(_ & E & _)].
    - rewrite E. apply Hh1. rewrite <- (inHospital_hospital _ _ E). exact Hin.
    - exfalso. unfold hospital in E. unfold inHospital in Hin. inversion E as [[Ei Ej]].
      rewrite Ei in Hin. discriminate. }
  unfold to_hospital_position. destruct (inHospital (fst x)) eqn:Ex.
  - split; [|intros _ Hf; rewrite inHospital_set_pos in Hf; congruence].
    intros _. specialize (Hhx eq_refl). split; [exact Hhx|].
    cbn [pos set_pos home_i home_j]. unfold hospital in Hhx. inversion Hhx. reflexivity.
  - split; [congruence|]. intros Hin _.
    assert (Hin1 : inHospital a1 = true).
    { destruct P6 as [E|(E & _)]; [|congruence]. now rewrite (inHospital_hospital _ _ E). }
    destruct T5 as [[E _]|(_ & _ & _ & [[E _]|[_ E]])].
    + rewrite (inHospital_hospital _ _ E) in Ex. congruence.
    + now left.
    + right. rewrite Hix, Hjx. exact E.
Qed.

(** A patient in the middle of a treatment phase. *)
Definition recovering_patient : Agent :=
  set_rt (fun _ => mkAttribs Status.infected SymptomStatus.symptomatic 5 10 1 3 5 4)
         hospitalised_agent.

Lemma hospital_is_home_community_witness :
  exists xs,
    treat_tile census_geometry [default_parm] (fun _ _ => quiet_engine)
               (fst (updateAgents [default_parm] 0.95 (fun _ _ => quiet_engine)
                                  [hospitalised_agent; recovering_patient] no_stats)) = Some xs
    /\ map inHospital (map (to_hospital_position census_geometry) (map fst xs)) = [false; true]
    /\ Forall (fun a' => inHospital a' = true ->
                         pos a' = cell_position census_geometry (home_i a') (home_j a'))
              (map (to_hospital_position census_geometry) (map fst xs)).
Proof.
  destruct (treat_tile census_geometry [default_parm] (fun _ _ => quiet_engine)
               (fst (updateAgents [default_parm] 0.95 (fun _ _ => quiet_engine)
                                  [hospitalised_agent; recovering_patient] no_stats)))
    as [xs|] eqn:E1; [|vm_compute in E1; discriminate E1].
  exists xs. split; [reflexivity|]. split.
  - vm_compute in E1. inversion E1. reflexivity.
  - eapply Forall2_Forall_r with (P := fun _ => True);
      [|exact (hospital_is_home_community census_geometry [default_parm] 0.95
                 (fun _ _ => quiet_engine) (fun _ _ => quiet_engine)
                 [hospitalised_agent; recovering_patient] no_stats xs E1
                 ltac:(repeat constructor))|repeat constructor].
    intros a a' [H _] _ Hin. exact (proj2 (H Hin)).
Defined.

(** ** The day of admission *)

(** X13. When the progression kernel marks an agent for hospital for
    disease [d] (the mark was not set before), the agent is infected and
    symptomatic with a positive treatment timer for [d], and the hospital
    model leaves the admitted agent untouched when it runs for [d] on the
    same day, whatever its parameters, auxiliary entries and engine: no
    timer decrement and no draw on the day of admission. *)
Theorem admission_day_untreated (disease_parm hospital_parm : DiseaseParm)
        (symptomatic_withdraw_compliance : Q) (d : nat) (a : Agent) (m : Marks)
        (engine : RandomEngine) (h : HospAux) (engine' : RandomEngine) :
  let x' := fst (update_body disease_parm symptomatic_withdraw_compliance d (a, m) engine) in
  marked_for_hosp m <> 1 ->
  marked_for_hosp (snd x') = 1 ->
  admitted_for d (fst x')
  /\ treat_body hospital_parm d (assign_hospital (fst x'), h) engine'
     = Some (assign_hospital (fst x'), h, engine').
Proof.
  cbv zeta. intro Hm. unfold update_body. cbn [status set_prob].
  destruct (status (runtime d a)) eqn:Es;
    cbn [Random RandomGamma disease_counter set_counter symptomatic incubation_period
         latent_period infectious_period];
    repeat match goal with
           | |- context [check_hospitalization ?p ?g ?e] =>
               destruct (check_hospitalization p g e) as [[[t icu] vent] e2]
           | |- context [if ?c then _ else _] => destruct c eqn:?
           end;
    cbn [fst snd marked_for_hosp]; intro Hm'; try contradiction.
  all: split;
    [unfold admitted_for; rewrite ?runtime_set_withdrawn, runtime_put_same; simpl; rewrite Es;
     repeat apply conj; try reflexivity;
     match goal with H : Qltb 0 ?t = true |- (0 < ?t)%Q => apply Qltb_lt in H; exact H end|].
  all: unfold treat_body;
    match goal with |- context [negb (inHospital ?y)] => destruct (negb (inHospital y)) end;
    [reflexivity|].
  all: change (runtime d (assign_hospital ?y)) with (runtime d y);
    rewrite ?runtime_set_withdrawn, runtime_put_same;
    cbn [disease_counter incubation_period set_timer set_symptomatic set_counter set_prob];
    match goal with
    | H : Qeq_bool _ (floorQ _) = true |- _ =>
        cbn [disease_counter incubation_period set_prob] in H; rewrite H
    end;
    reflexivity.
Qed.

(** An agent of 65 or more on the day its symptoms start. *)
Definition onset_agent : Agent :=
  mkAgent AgeGroups.o65 0 0 0 0 0 (-1) (-1) (-1) (-1) 0 0 0 0 0 0 0 0 (-1) (-1) (0.5, 0.5)%Q
          (fun _ => mkAttribs Status.infected SymptomStatus.presymptomatic 0 3 1 3 5 4).

Lemma admission_day_untreated_witness :
  let x' := fst (update_body default_parm 0.95 0 (onset_agent, mkMarks 0 0 0) quiet_engine) in
  treatment_timer (runtime 0 (fst x')) = 7%Q
  /\ inHospital (assign_hospital (fst x')) = true
  /\ treat_body default_parm 0 (assign_hospital (fst x'), alive_unflagged) quiet_engine
     = Some (assign_hospital (fst x'), alive_unflagged, quiet_engine).
Proof.
  cbv zeta. split; [reflexivity|]. split; [reflexivity|].
  refine (proj2 (admission_day_untreated default_parm default_parm 0.95 0 onset_agent
                                         (mkMarks 0 0 0) quiet_engine alive_unflagged
                                         quiet_engine _ _)).
  - discriminate.
  - reflexivity.
Defined.

(** ** What the interaction kernels leave alone *)

(** Between two states of an agent: only the accumulator of disease [d]
    may differ. *)
Definition column_prob_only (d : nat) (a a' : Agent) : Prop :=
  set_rt (rt a) a' = a
  /\ (forall d', d' <> d -> runtime d' a' = runtime d' a)
  /\ set_prob 0 (runtime d a') = set_prob 0 (runtime d a).

(** One pass of a kernel for disease [d]: only the accumulator of [d] may
    differ, and not even that for an agent in hospital or not susceptible. *)
Definition pass_frame (d : nat) (a a' : Agent) : Prop :=
  column_prob_only d a a'
  /\ (inHospital a = true \/ isSusceptible d a = false -> a' = a).

(** A whole kernel over [n_disease] diseases: only accumulators may
    differ, those of diseases below [n_disease], of agents that are
    susceptible to the disease and not in hospital. *)
Definition only_prob (n_disease : nat) (a a' : Agent) : Prop :=
  set_rt (rt a) a' = a
  /\ (forall d, set_prob 0 (runtime d a') = set_prob 0 (runtime d a))
  /\ (forall d, (n_disease <= d)%nat \/ inHospital a = true \/ isSusceptible d a = false ->
                runtime d a' = runtime d a).

Lemma set_rt_rt a : set_rt (rt a) a = a.
Proof. destruct a. reflexivity. Qed.

Lemma set_rt_trans a b c :
  set_rt (rt a) b = a -> set_rt (rt b) c = b -> set_rt (rt a) c = a.
Proof.
  destruct a, b, c. unfold set_rt. simpl. intros H1 H2.
  inversion H1. inversion H2. subst. reflexivity.
Qed.

Lemma set_rt_inHospital a b : set_rt (rt a) b = a -> inHospital b = inHospital a.
Proof. intro H. rewrite <- H. reflexivity. Qed.

Lemma set_prob_status r r' : set_prob 0 r' = set_prob 0 r -> status r' = status r.
Proof. intro H. apply (f_equal status) in H. exact H. Qed.

Lemma isSusceptible_status d a b :
  status (runtime d b) = status (runtime d a) -> isSusceptible d b = isSusceptible d a.
Proof. unfold isSusceptible. intro H. now rewrite H. Qed.

Lemma column_prob_only_refl d a : column_prob_only d a a.
Proof. unfold column_prob_only. split; [apply set_rt_rt|]. split; reflexivity. Qed.

Lemma column_prob_only_mul d f a : column_prob_only d a (mul_prob d f a).
Proof.
  unfold column_prob_only, mul_prob. split; [destruct a; reflexivity|]. split.
  - intros d' Hd'. now apply runtime_modify_other.
  - rewrite runtime_modify_same. reflexivity.
Qed.

Lemma column_prob_only_trans d a b c :
  column_prob_only d a b -> column_prob_only d b c -> column_prob_only d a c.
Proof.
  intros (A1 & A2 & A3) (B1 & B2 & B3). unfold column_prob_only.
  split; [exact (set_rt_trans _ _ _ A1 B1)|]. split.
  - intros d' Hd'. rewrite B2, A2 by exact Hd'. reflexivity.
  - congruence.
Qed.

Lemma pass_frame_refl d a : pass_frame d a a.
Proof. split; [apply column_prob_only_refl|reflexivity]. Qed.

Lemma pass_frame_trans d a b c : pass_frame d a b -> pass_frame d b c -> pass_frame d a c.
Proof.
  intros [A1 A2] [B1 B2]. split; [exact (column_prob_only_trans _ _ _ _ A1 B1)|].
  intro H. specialize (A2 H). subst b. exact (B2 H).
Qed.

(** The shape shared by the update loops: the accumulator is multiplied
    only under [isSusceptible d a && candidate], and every candidate
    predicate excludes agents in hospital. *)
Lemma pass_frame_guard d a a' (candidate : bool) :
  (candidate = true -> inHospital a = false) ->
  (isSusceptible d a && candidate = true -> column_prob_only d a a') ->
  (isSusceptible d a && candidate = false -> a' = a) ->
  pass_frame d a a'.
Proof.
  intros Hc Ht Hf. destruct (isSusceptible d a && candidate) eqn:E.
  - apply andb_true_iff in E. destruct E as [Es Ec]. split; [now apply Ht|].
    intros [H|H]; [rewrite (Hc Ec) in H|rewrite Es in H]; discriminate.
  - rewrite (Hf eq_refl). apply pass_frame_refl.
Qed.

Lemma only_prob_refl n a : only_prob n a a.
Proof. unfold only_prob. split; [apply set_rt_rt|]. split; reflexivity. Qed.

Lemma only_prob_trans n a b c : only_prob n a b -> only_prob n b c -> only_prob n a c.
Proof.
  intros (A1 & A2 & A3) (B1 & B2 & B3). unfold only_prob.
  split; [exact (set_rt_trans _ _ _ A1 B1)|]. split; [intro d; congruence|].
  intros d H. rewrite B3, A3; [reflexivity|exact H|].
  rewrite (set_rt_inHospital _ _ A1), (isSusceptible_status d a b (set_prob_status _ _ (A2 d))).
  exact H.
Qed.

Lemma only_prob_mono n m a a' : (n <= m)%nat -> only_prob n a a' -> only_prob m a a'.
Proof.
  intros Hnm (A1 & A2 & A3). unfold only_prob. split; [exact A1|]. split; [exact A2|].
  intros d [H|H]; apply A3; [left; lia|right; exact H].
Qed.

Lemma only_prob_step d0 a b c :
  only_prob d0 a b -> pass_frame d0 b c -> only_prob (S d0) a c.
Proof.
  intros (A1 & A2 & A3) [(B1 & B2 & B3) B4]. unfold only_prob.
  split; [exact (set_rt_trans _ _ _ A1 B1)|]. split.
  - intro d. destruct (Nat.eq_dec d d0) as [->|Hne]; [congruence|].
    rewrite B2 by exact Hne. apply A2.
  - intros d H.
    assert (Hb : runtime d c = runtime d b).
    { destruct (Nat.eq_dec d d0) as [->|Hne]; [|now apply B2].
      destruct H as [H|H]; [lia|]. rewrite B4; [reflexivity|].
      rewrite (set_rt_inHospital _ _ A1),
        (isSusceptible_status d0 a b (set_prob_status _ _ (A2 d0))).
      exact H. }
    rewrite Hb. apply A3. destruct H as [H|H]; [left; lia|right; exact H].
Qed.

Lemma for_diseases_assert_indexed {T} (I : nat -> T -> Prop)
      (body : nat -> DiseaseParm -> T -> option T) :
  (forall d p s s', I d s -> body d p s = Some s' -> I (S d) s') ->
  forall ps d s s', I d s -> for_diseases_assert body ps d s = Some s' ->
                    I (d + length ps)%nat s'.
Proof.
  intros Hb ps. induction ps as [|p ps IH]; intros d s s' Hs H; simpl in H.
  - inversion H; subst. now rewrite Nat.add_0_r.
  - destruct (body d p s) as [s1|] eqn:E; [|discriminate].
    replace (d + length (p :: ps))%nat with (S d + length ps)%nat by (simpl; lia).
    eapply IH; [|exact H]. eapply Hb; eassumption.
Qed.

Section KernelFrames.

Variable comm_index : Q * Q -> Z.
Variable max_communities : Z.

Lemma home_update_body_frame d adults lparm mf mn nn c a a' :
  home_update_body comm_index max_communities d adults lparm mf mn nn c a = Some a' ->
  pass_frame d a a'.
Proof.
  unfold home_update_body. intro H.
  apply pass_frame_guard with (candidate := HomeCandidate a).
  - unfold HomeCandidate. intro Hc. apply andb_true_iff in Hc. destruct Hc as [Hc _].
    apply andb_true_iff in Hc. destruct Hc as [Hc _]. now apply negb_true_iff in Hc.
  - intro E. rewrite E in H. destruct (negb _); [discriminate|].
    destruct (withdrawn a =? 0).
    + destruct (negb _); [discriminate|]. destruct (negb _); [discriminate|].
      inversion H; subst.
      eapply column_prob_only_trans; apply column_prob_only_mul.
    + inversion H; subst. apply column_prob_only_mul.
  - intro E. rewrite E in H. now inversion H.
Qed.

Lemma home_pass_frame mf mn nn d lparm adults agents agents' :
  home_pass comm_index max_communities mf mn nn d lparm adults agents = Some agents' ->
  Forall2 (pass_frame d) agents agents'.
Proof.
  unfold home_pass. destruct (tally_loop _ agents _) as [c|]; [|discriminate].
  intro H. eapply ParallelFor_assert_Forall2; [|exact H].
  intros a b _ Hab. exact (home_update_body_frame _ _ _ _ _ _ _ _ _ Hab).
Qed.

Lemma nborhood_pass_frame isCandidate nborhood_ptr mn d lparm agents agents' :
  (forall a, isCandidate a = true -> inHospital a = false) ->
  nborhood_pass comm_index isCandidate nborhood_ptr mn d lparm agents = Some agents' ->
  Forall2 (pass_frame d) agents agents'.
Proof.
  intros Hcand. unfold nborhood_pass.
  intro H. eapply ParallelFor_assert_Forall2; [|exact H].
  intros a b _. unfold nborhood_update_body. intro Hab.
  apply pass_frame_guard with (candidate := isCandidate a).
  - apply Hcand.
  - intro E. rewrite E in Hab. destruct (negb _); [discriminate|].
    inversion Hab; subst.
    eapply column_prob_only_trans; apply column_prob_only_mul.
  - intro E. rewrite E in Hab. now inversion Hab.
Qed.

Lemma HomeNborhoodCandidate_out a : HomeNborhoodCandidate a = true -> inHospital a = false.
Proof.
  unfold HomeNborhoodCandidate. intro H. apply andb_true_iff in H. destruct H as [H _].
  now apply negb_true_iff in H.
Qed.

Lemma WorkNborhoodCandidate_out a : WorkNborhoodCandidate a = true -> inHospital a = false.
Proof.
  unfold WorkNborhoodCandidate. intro H. apply andb_true_iff in H. destruct H as [H _].
  apply andb_true_iff in H. destruct H as [H _]. now apply negb_true_iff in H.
Qed.

Lemma WorkCandidate_out a : WorkCandidate a = true -> inHospital a = false.
Proof.
  unfold WorkCandidate. intro H.
  repeat (apply andb_true_iff in H; destruct H as [H _]). now apply negb_true_iff in H.
Qed.

Lemma SchoolCandidate_out a : SchoolCandidate a = true -> inHospital a = false.
Proof.
  unfold SchoolCandidate. intro H.
  repeat (apply andb_true_iff in H; destruct H as [H _]). now apply negb_true_iff in H.
Qed.

Lemma work_update_body_frame d lparm mw mn c a :
  pass_frame d a (work_update_body comm_index d lparm mw mn c a).
Proof.
  unfold work_update_body.
  apply pass_frame_guard with (candidate := WorkCandidate a).
  - apply WorkCandidate_out.
  - intro E. rewrite E. apply column_prob_only_mul.
  - intro E. rewrite E. reflexivity.
Qed.

Lemma school_pass_frame ms mg d lparm adults agents :
  Forall2 (pass_frame d) agents (school_pass comm_index ms mg d lparm adults agents).
Proof.
  unfold school_pass. apply Forall2_map_same. intro a. unfold school_update_body.
  apply pass_frame_guard with (candidate := SchoolCandidate a).
  - apply SchoolCandidate_out.
  - intro E. rewrite E. destruct (_ =? _); apply column_prob_only_mul.
  - intro E. rewrite E. reflexivity.
Qed.

Lemma only_prob_loop (body : nat -> DiseaseParm -> list Agent -> list Agent) parms agents :
  (forall d p s, Forall2 (pass_frame d) s (body d p s)) ->
  Forall2 (only_prob (length parms)) agents (for_diseases body parms 0%nat agents).
Proof.
  intro Hb.
  apply (for_diseases_indexed (fun d s => Forall2 (only_prob d) agents s) body
           ltac:(intros d p s Hs; eapply Forall2_compose;
                 [intros x y z; apply only_prob_step|exact Hs|apply Hb])
           parms 0%nat agents).
  apply Forall2_refl_of, only_prob_refl.
Qed.

Lemma only_prob_loop_assert (body : nat -> DiseaseParm -> list Agent -> option (list Agent))
      parms agents agents' :
  (forall d p s s', body d p s = Some s' -> Forall2 (pass_frame d) s s') ->
  for_diseases_assert body parms 0%nat agents = Some agents' ->
  Forall2 (only_prob (length parms)) agents agents'.
Proof.
  intros Hb H.
  apply (for_diseases_assert_indexed (fun d s => Forall2 (only_prob d) agents s) body
           ltac:(intros d p s s' Hs E; eapply Forall2_compose;
                 [intros x y z; apply only_prob_step|exact Hs|exact (Hb _ _ _ _ E)])
           parms 0%nat agents agents'); [|exact H].
  apply Forall2_refl_of, only_prob_refl.
Qed.

Lemma fastInteractWork_frame parms agents :
  Forall2 (only_prob (length parms)) agents (fastInteractWork comm_index parms agents).
Proof.
  unfold fastInteractWork. apply only_prob_loop. intros d p s.
  apply Forall2_map_same. intro a. apply work_update_body_frame.
Qed.

Lemma fastInteractSchool_frame parms agents :
  Forall2 (only_prob (length parms)) agents (fastInteractSchool comm_index parms agents).
Proof.
  unfold fastInteractSchool. apply only_prob_loop. intros d p s.
  eapply Forall2_trans_of; [apply pass_frame_trans| |]; apply school_pass_frame.
Qed.

Lemma fastInteractWorkNborhood_frame parms agents agents' :
  fastInteractWorkNborhood comm_index parms agents = Some agents' ->
  Forall2 (only_prob (length parms)) agents agents'.
Proof.
  unfold fastInteractWorkNborhood. apply only_prob_loop_assert.
  intros d p s s'. apply nborhood_pass_frame, WorkNborhoodCandidate_out.
Qed.

Lemma fastInteractHomeNborhood_frame parms agents agents' :
  fastInteractHomeNborhood comm_index parms agents = Some agents' ->
  Forall2 (only_prob (length parms)) agents agents'.
Proof.
  unfold fastInteractHomeNborhood. destruct agents as [|a0 l].
  - intro H; inversion H; constructor.
  - destruct (negb _); [discriminate|]. apply only_prob_loop_assert.
    intros d p s s'. apply nborhood_pass_frame, HomeNborhoodCandidate_out.
Qed.

Lemma fastInteractHome_frame parms agents agents' :
  fastInteractHome comm_index max_communities parms agents = Some agents' ->
  Forall2 (only_prob (length parms)) agents agents'.
Proof.
  unfold fastInteractHome. apply only_prob_loop_assert.
  intros d p s s'.
  destruct (home_pass _ _ _ _ _ d p true s) as [s1|] eqn:E1; [|discriminate].
  intro E2. eapply Forall2_trans_of; [apply pass_frame_trans| |];
    eapply home_pass_frame; eassumption.
Qed.

Lemma interactDay_frame parms agents day :
  interactDay comm_index parms agents = Some day ->
  Forall2 (only_prob (length parms)) agents day.
Proof.
  unfold interactDay. intro H.
  eapply Forall2_trans_of; [apply only_prob_trans|apply fastInteractWork_frame|].
  eapply Forall2_trans_of; [apply only_prob_trans|apply fastInteractSchool_frame|].
  exact (fastInteractWorkNborhood_frame _ _ _ H).
Qed.

Lemma interactNight_frame parms agents night :
  interactNight comm_index max_communities parms agents = Some night ->
  Forall2 (only_prob (length parms)) agents night.
Proof.
  unfold interactNight.
  destruct (fastInteractHome _ _ _ _) as [h|] eqn:Eh; [|discriminate]. intro H.
  eapply Forall2_trans_of; [apply only_prob_trans|exact (fastInteractHome_frame _ _ _ Eh)|].
  exact (fastInteractHomeNborhood_frame _ _ _ H).
Qed.

End KernelFrames.

(** X14. The five interaction kernels, and interactDay and interactNight
    built from them, change nothing but infection accumulators: every
    attribute outside the runtime columns is kept, in every runtime
    column every field but prob is kept, and the whole column is kept for
    an index that is not a disease, for an agent in hospital, and for an
    agent that is not susceptible to the disease (immune, infected or
    dead). The kernels with an assertion are taken on the runs where it
    holds. *)
Theorem interaction_frame (comm_index : Q * Q -> Z) (max_communities : Z)
        (parms : list DiseaseParm) :
  let untouched := only_prob (length parms) in
  (forall agents, Forall2 untouched agents (fastInteractWork comm_index parms agents))
  /\ (forall agents, Forall2 untouched agents (fastInteractSchool comm_index parms agents))
  /\ (forall agents agents',
         fastInteractWorkNborhood comm_index parms agents = Some agents' ->
         Forall2 untouched agents agents')
  /\ (forall agents agents',
         fastInteractHome comm_index max_communities parms agents = Some agents' ->
         Forall2 untouched agents agents')
  /\ (forall agents agents',
         fastInteractHomeNborhood comm_index parms agents = Some agents' ->
         Forall2 untouched agents agents')
  /\ (forall agents day,
         interactDay comm_index parms agents = Some day -> Forall2 untouched agents day)
  /\ (forall agents night,
         interactNight comm_index max_communities parms agents = Some night ->
         Forall2 untouched agents night).
Proof.
  intro untouched. unfold untouched.
  split; [apply fastInteractWork_frame|].
  split; [apply fastInteractSchool_frame|].
  split; [apply fastInteractWorkNborhood_frame|].
  split; [apply fastInteractHome_frame|].
  split; [apply fastInteractHomeNborhood_frame|].
  split; [apply interactDay_frame|apply interactNight_frame].
Qed.

(** ** Exposure counts of the work and school kernels *)

Section GroupCounts.

Variable comm_index : Q * Q -> Z.

Local Abbreviation community := (getCommunityIndex comm_index).

Lemma work_count_fold d mw mn agents : forall c k,
  fold_left (work_count_body comm_index d mw mn) agents c k
  = c k + count_if (fun b => isInfectious d b && WorkCandidate b
                             && ((community b * mw + workgroup b) * mn + naics b =? k)) agents.
Proof.
  induction agents as [|a l IH]; intros c k.
  - unfold count_if; simpl; lia.
  - cbn [fold_left]. rewrite IH, count_if_cons. unfold work_count_body.
    destruct (isInfectious d a && WorkCandidate a); cbn [andb]; rewrite ?AtomicAdd_at; lia.
Qed.

Lemma school_count_fold d adults ms mg agents : forall c,
  let c' := fold_left (school_count_body comm_index d adults ms mg) agents c in
  let transmitter := fun b => isInfectious d b && SchoolCandidate b
                              && Bool.eqb (isAnAdult b) adults in
  (forall k, infected_school c' k
             = infected_school c k
               + count_if (fun b => transmitter b
                                    && negb (getSchoolType (school_grade b) =? SchoolType.daycare)
                                    && ((community b * ms + school_id b) * mg
                                        + school_grade b =? k)) agents)
  /\ (forall k, infected_daycare c' k
                = infected_daycare c k
                  + count_if (fun b => transmitter b
                                       && (getSchoolType (school_grade b) =? SchoolType.daycare)
                                       && ((community b * ms + school_id b) * mg
                                           + school_grade b =? k)) agents).
Proof.
  induction agents as [|a l IH]; intro c; cbv zeta.
  - split; intro k; unfold count_if; simpl; lia.
  - cbn [fold_left].
    destruct (IH (school_count_body comm_index d adults ms mg c a)) as [IH1 IH2].
    split; intro k; rewrite ?IH1, ?IH2, count_if_cons; unfold school_count_body;
      destruct (isInfectious d a && SchoolCandidate a && Bool.eqb (isAnAdult a) adults);
      cbn [andb]; try lia;
      destruct (getSchoolType (school_grade a) =? SchoolType.daycare);
      cbn [infected_school infected_daycare andb negb]; rewrite ?AtomicAdd_at; lia.
Qed.

End GroupCounts.

(** X15. The work kernel groups by (community, workgroup, NAICS): with
    non-negative workgroup and NAICS identifiers, the counter read for an
    agent of the tile is the number of infectious work candidates of its
    community with its workgroup and its NAICS code, and the accumulator
    of a susceptible work candidate is multiplied by
    (1 - (1 - vac_eff) xmit_work) to that power; any other agent is left
    as it is. *)
Theorem work_group_exposure (comm_index : Q * Q -> Z) (d : nat) (lparm : DiseaseParm)
        (agents : list Agent) (a : Agent) :
  let community := getCommunityIndex comm_index in
  let max_workgroup := getMaxGroup workgroup agents + 1 in
  let max_naics := getMaxGroup naics agents + 1 in
  let c := fold_left (work_count_body comm_index d max_workgroup max_naics) agents
                     zero_counter in
  let num_infected_workgroup :=
    count_if (fun b => isInfectious d b && WorkCandidate b
                       && ((community b =? community a) && (workgroup b =? workgroup a)
                           && (naics b =? naics a))) agents in
  (forall b, In b agents -> 0 <= workgroup b /\ 0 <= naics b) ->
  In a agents ->
  c ((community a * max_workgroup + workgroup a) * max_naics + naics a)
  = num_infected_workgroup
  /\ work_update_body comm_index d lparm max_workgroup max_naics c a
     = if isSusceptible d a && WorkCandidate a then
         mul_prob d (Qpower (1 - (1 - vac_eff lparm) * xmit_work lparm * 1)
                            num_infected_workgroup) a
       else a.
Proof.
  intros community max_workgroup max_naics c num Hrange Ha.
  assert (Hw : forall b, In b agents -> 0 <= workgroup b < max_workgroup).
  { intros b Hb. split; [now apply Hrange|].
    pose proof (getMaxGroup_ge workgroup agents b Hb). unfold max_workgroup. lia. }
  assert (Hn : forall b, In b agents -> 0 <= naics b < max_naics).
  { intros b Hb. split; [now apply Hrange|].
    pose proof (getMaxGroup_ge naics agents b Hb). unfold max_naics. lia. }
  assert (E : c ((community a * max_workgroup + workgroup a) * max_naics + naics a) = num).
  { unfold c. rewrite work_count_fold. unfold zero_counter. rewrite Z.add_0_l.
    apply count_if_ext_in. intros b Hb. fold community.
    rewrite (flat_index_eqb max_naics) by (now apply Hn).
    now rewrite (flat_index_eqb max_workgroup) by (now apply Hw). }
  split; [exact E|].
  unfold work_update_body. fold community. rewrite E. reflexivity.
Qed.

(** Two colleagues of one workgroup, one of them infectious, and an
    infectious worker of another workgroup. *)
Definition colleague (wg : Z) (r : DiseaseAttribs) : Agent :=
  mkAgent AgeGroups.a30to49 0 0 0 0 0 (-1) (-1) (-1) (-1) 0 0 0 0 1 wg 0 0 (-1) (-1)
          (0.5, 0.5)%Q (fun _ => r).

Definition workplace : list Agent :=
  [colleague 1 infectious_attribs; colleague 1 no_attribs; colleague 2 infectious_attribs].

Lemma work_group_exposure_witness :
  work_update_body (fun _ => 0) 0 default_parm
                   (getMaxGroup workgroup workplace + 1) (getMaxGroup naics workplace + 1)
                   (fold_left (work_count_body (fun _ => 0) 0
                                               (getMaxGroup workgroup workplace + 1)
                                               (getMaxGroup naics workplace + 1))
                              workplace zero_counter)
                   (colleague 1 no_attribs)
  = mul_prob 0 (Qpower (1 - (1 - 0) * 0.0575 * 1) 1) (colleague 1 no_attribs).
Proof.
  refine (proj2 (work_group_exposure (fun _ => 0) 0 default_parm workplace
                                     (colleague 1 no_attribs) _ _)).
  - intros b Hb. simpl in Hb. destruct Hb as [<-|[<-|[<-|[]]]]; simpl; lia.
  - simpl. tauto.
Defined.

(** X16. The school kernel groups by (community, school, grade): with
    non-negative school and grade identifiers, for the counters left by
    the counting loop for one age class of transmitters, the exponent
    applied to a susceptible school candidate is the number of infectious
    school candidates of that class in its community with its school_id
    and its school_grade, whether the grade is day care or not; the base
    is taken from xmit_school at day care, otherwise from xmit_school,
    xmit_school_a2c or xmit_school_c2a at the school type, by the age
    classes of transmitter and receiver. *)
Theorem school_group_exposure (comm_index : Q * Q -> Z) (d : nat) (adults : bool)
        (lparm : DiseaseParm) (agents : list Agent) (a : Agent) :
  let community := getCommunityIndex comm_index in
  let max_school_grade := getMaxGroup school_grade agents + 1 in
  let max_school_id := getMaxGroup school_id agents + 1 in
  let c := fold_left (school_count_body comm_index d adults max_school_id max_school_grade)
                     agents (mkSchoolCounters zero_counter zero_counter) in
  let num_infected :=
    count_if (fun b => isInfectious d b && SchoolCandidate b && Bool.eqb (isAnAdult b) adults
                       && ((community b =? community a) && (school_id b =? school_id a)
                           && (school_grade b =? school_grade a))) agents in
  let school_type := getSchoolType (school_grade a) in
  let xmit :=
    if school_type =? SchoolType.daycare then arr (xmit_school lparm) SchoolType.daycare
    else if adults then
           if age_group a <=? AgeGroups.a5to17 then arr (xmit_school_a2c lparm) school_type
           else arr (xmit_school lparm) school_type
         else
           if age_group a <=? AgeGroups.a5to17 then arr (xmit_school lparm) school_type
           else arr (xmit_school_c2a lparm) school_type in
  (forall b, In b agents -> 0 <= school_id b /\ 0 <= school_grade b) ->
  In a agents ->
  school_update_body comm_index d adults lparm max_school_id max_school_grade c a
  = if isSusceptible d a && SchoolCandidate a then
      mul_prob d (Qpower (1 - (1 - vac_eff lparm) * xmit * 1) num_infected) a
    else a.
Proof.
  intros community max_school_grade max_school_id c num school_type xmit Hrange Ha.
  assert (Hs : forall b, In b agents -> 0 <= school_id b < max_school_id).
  { intros b Hb. split; [now apply Hrange|].
    pose proof (getMaxGroup_ge school_id agents b Hb). unfold max_school_id. lia. }
  assert (Hg : forall b, In b agents -> 0 <= school_grade b < max_school_grade).
  { intros b Hb. split; [now apply Hrange|].
    pose proof (getMaxGroup_ge school_grade agents b Hb). unfold max_school_grade. lia. }
  destruct (school_count_fold comm_index d adults max_school_id max_school_grade agents
                              (mkSchoolCounters zero_counter zero_counter)) as [H1 H2].
  fold c in H1, H2. cbn [infected_school infected_daycare zero_counter] in H1, H2.
  assert (Hdec : forall b, In b agents ->
            ((community b * max_school_id + school_id b) * max_school_grade + school_grade b
             =? (community a * max_school_id + school_id a) * max_school_grade + school_grade a)
            = (community b =? community a) && (school_id b =? school_id a)
              && (school_grade b =? school_grade a)).
  { intros b Hb. rewrite (flat_index_eqb max_school_grade) by (now apply Hg).
    now rewrite (flat_index_eqb max_school_id) by (now apply Hs). }
  assert (Hsame : forall b,
            (school_grade b =? school_grade a) = true ->
            (getSchoolType (school_grade b) =? SchoolType.daycare)
            = (school_type =? SchoolType.daycare)).
  { intros b Hb. apply Z.eqb_eq in Hb. unfold school_type. now rewrite Hb. }
  unfold school_update_body. fold community. fold school_type.
  destruct (isSusceptible d a && SchoolCandidate a); [|reflexivity].
  unfold xmit. destruct (school_type =? SchoolType.daycare) eqn:Et.
  - rewrite H2. unfold zero_counter. rewrite Z.add_0_l. f_equal. f_equal.
    apply count_if_ext_in. intros b Hb. fold community. rewrite (Hdec b Hb).
    destruct (school_grade b =? school_grade a) eqn:Eg.
    + rewrite (Hsame b Eg). rewrite !andb_true_r. reflexivity.
    + rewrite !andb_false_r. reflexivity.
  - rewrite H1. unfold zero_counter. rewrite Z.add_0_l. f_equal. f_equal.
    apply count_if_ext_in. intros b Hb. fold community. rewrite (Hdec b Hb).
    destruct (school_grade b =? school_grade a) eqn:Eg.
    + rewrite (Hsame b Eg). cbn [negb]. rewrite !andb_true_r. reflexivity.
    + rewrite !andb_false_r. reflexivity.
Qed.

(** Three pupils of one school: an infectious and a susceptible one in
    grade 3, an infectious one in grade 4. *)
Definition pupil (grade : Z) (r : DiseaseAttribs) : Agent :=
  mkAgent AgeGroups.a5to17 0 0 0 0 0 (-1) (-1) (-1) (-1) 0 grade 1 0 0 0 0 0 (-1) (-1)
          (0.5, 0.5)%Q (fun _ => r).

Definition school_class : list Agent :=
  [pupil 3 infectious_attribs; pupil 3 no_attribs; pupil 4 infectious_attribs].

Lemma school_group_exposure_witness :
  school_update_body (fun _ => 0) 0 false default_parm
                     (getMaxGroup school_id school_class + 1)
                     (getMaxGroup school_grade school_class + 1)
                     (fold_left (school_count_body (fun _ => 0) 0 false
                                                   (getMaxGroup school_id school_class + 1)
                                                   (getMaxGroup school_grade school_class + 1))
                                school_class (mkSchoolCounters zero_counter zero_counter))
                     (pupil 3 no_attribs)
  = mul_prob 0 (Qpower (1 - (1 - 0) * 0.0435 * 1) 1) (pupil 3 no_attribs).
Proof.
  refine (school_group_exposure (fun _ => 0) 0 false default_parm school_class
                                (pupil 3 no_attribs) _ _).
  - intros b Hb. simpl in Hb. destruct Hb as [<-|[<-|[<-|[]]]]; simpl; lia.
  - simpl. tauto.
Defined.

(** ** When the neighbourhood kernels run to completion *)

Lemma ParallelFor_assert_total {A B} (body : A -> option B) l :
  (forall a, In a l -> exists b, body a = Some b) ->
  exists l', ParallelFor_assert body l = Some l'.
Proof.
  induction l as [|a l IH]; intro H; simpl; [eexists; reflexivity|].
  destruct (H a (or_introl eq_refl)) as [b ->].
  destruct IH as [l' ->]; [intros; apply H; now right|].
  eexists; reflexivity.
Qed.

Lemma for_diseases_assert_total {T} (I : T -> Prop)
      (body : nat -> DiseaseParm -> T -> option T) :
  (forall d p s, I s -> exists s', body d p s = Some s' /\ I s') ->
  forall ps d s, I s -> exists s', for_diseases_assert body ps d s = Some s'.
Proof.
  intros Hb ps. induction ps as [|p ps IH]; intros d s Hs; simpl; [eexists; reflexivity|].
  destruct (Hb d p s Hs) as (s1 & -> & Hs1). now apply IH.
Qed.

Section NborhoodTotal.

Variable comm_index : Q * Q -> Z.
Variable isCandidate : Agent -> bool.
Variable nborhood_ptr : Agent -> Z.
Hypothesis candidate_out : forall a, isCandidate a = true -> inHospital a = false.
Hypothesis nborhood_ptr_static : forall a l, nborhood_ptr (set_rt l a) = nborhood_ptr a.

Lemma nborhood_pass_total mn d lparm s :
  Forall (fun b => 0 <= nborhood_ptr b < mn) s ->
  exists s', nborhood_pass comm_index isCandidate nborhood_ptr mn d lparm s = Some s'
             /\ Forall (fun b => 0 <= nborhood_ptr b < mn) s'.
Proof.
  intro Hrange.
  assert (Hsome : exists s',
             nborhood_pass comm_index isCandidate nborhood_ptr mn d lparm s = Some s').
  { unfold nborhood_pass. apply ParallelFor_assert_total. intros a Ha.
    unfold nborhood_update_body.
    destruct (isSusceptible d a && isCandidate a); [|eexists; reflexivity].
    destruct (nborhood_count_fold comm_index isCandidate nborhood_ptr d mn s
                                  (mkNborhoodCounters zero_counter zero_counter)) as [Hc Hn].
    cbv zeta in Hc, Hn. rewrite Hc, Hn.
    cbn [infected_community infected_nborhood zero_counter]. rewrite !Z.add_0_l.
    match goal with
    | |- context [negb (?x >=? ?y)] =>
        replace (negb (x >=? y)) with false; [eexists; reflexivity|]
    end.
    symmetry. apply negb_false_iff, Z.geb_le. apply count_if_le.
    intros b Hb Hin. rewrite Forall_forall in Hrange.
    rewrite (flat_index_eqb mn) in Hin by (now apply Hrange).
    apply andb_true_iff in Hin. destruct Hin as [H1 H2].
    apply andb_true_iff in H2. destruct H2 as [H2 _]. now rewrite H1, H2. }
  destruct Hsome as [s' Hs']. exists s'. split; [exact Hs'|].
  eapply Forall2_Forall_r; [|exact (nborhood_pass_frame comm_index isCandidate nborhood_ptr
                                      mn d lparm s s' candidate_out Hs')|exact Hrange].
  intros a a' [(Hfr & _) _] Ha. cbv beta in *.
  rewrite <- Hfr in Ha. rewrite nborhood_ptr_static in Ha. exact Ha.
Qed.

Lemma nborhood_loop_total mn parms agents :
  Forall (fun b => 0 <= nborhood_ptr b < mn) agents ->
  exists agents',
    for_diseases_assert (nborhood_pass comm_index isCandidate nborhood_ptr mn)
                        parms 0%nat agents = Some agents'.
Proof.
  apply for_diseases_assert_total. intros d p s. apply nborhood_pass_total.
Qed.

End NborhoodTotal.

Lemma group_range (group : Agent -> Z) agents :
  (forall b, In b agents -> 0 <= group b) ->
  Forall (fun b => 0 <= group b < getMaxGroup group agents + 1) agents.
Proof.
  intro H. apply Forall_forall. intros b Hb. split; [now apply H|].
  pose proof (getMaxGroup_ge group agents b Hb). lia.
Qed.

Lemma only_prob_static (group : Agent -> Z) :
  (forall a l, group (set_rt l a) = group a) ->
  forall n l l' (P : Z -> Prop),
    Forall2 (only_prob n) l l' ->
    Forall (fun b => P (group b)) l -> Forall (fun b => P (group b)) l'.
Proof.
  intros Hg n l l' P H2.
  induction H2 as [|x y l l' (Hxy & _) _ IH]; intro H; inversion H; subst; constructor.
  - rewrite <- Hxy in *. now rewrite Hg in *.
  - now apply IH.
Qed.

(** X17. The day kernels run to completion on every tile whose
    work_nborhood identifiers are non-negative: the work and the school
    kernel have no assertion, and the assertion of the work-neighbourhood
    kernel (the community count is at least the neighbourhood count) then
    holds for every disease and every agent. *)
Theorem interactDay_total (comm_index : Q * Q -> Z) (parms : list DiseaseParm)
        (agents : list Agent) :
  (forall b, In b agents -> 0 <= work_nborhood b) ->
  exists day, interactDay comm_index parms agents = Some day.
Proof.
  intro Hrange. unfold interactDay, fastInteractWorkNborhood.
  apply nborhood_loop_total.
  - apply WorkNborhoodCandidate_out.
  - reflexivity.
  - apply group_range. intros b Hb.
    pose proof (fastInteractWork_frame comm_index parms agents) as H1.
    pose proof (fastInteractSchool_frame comm_index parms
                  (fastInteractWork comm_index parms agents)) as H2.
    assert (H : Forall (fun b => 0 <= work_nborhood b)
                       (fastInteractSchool comm_index parms
                          (fastInteractWork comm_index parms agents))).
    { apply (only_prob_static work_nborhood ltac:(reflexivity) _ _ _ (fun z => 0 <= z) H2).
      apply (only_prob_static work_nborhood ltac:(reflexivity) _ _ _ (fun z => 0 <= z) H1).
      apply Forall_forall. exact Hrange. }
    rewrite Forall_forall in H. now apply H.
Qed.

Lemma interactDay_total_witness :
  exists day, interactDay (fun _ => 0) [default_parm] two_children = Some day.
Proof.
  apply interactDay_total.
  intros b Hb. simpl in Hb. destruct Hb as [<-|[<-|[]]]; simpl; lia.
Defined.



(** ** A tile without infectious agents *)

Definition no_infectious (a : Agent) : Prop := forall d, isInfectious d a = false.

(** Between two states of an agent: every runtime column is the same up
    to the accumulator, and the accumulators are equal as numbers. *)
Definition accumulators_kept (a a' : Agent) : Prop :=
  (forall d, set_prob 0 (runtime d a') = set_prob 0 (runtime d a))
  /\ (forall d, (prob (runtime d a') == prob (runtime d a))%Q).

Lemma accumulators_kept_refl a : accumulators_kept a a.
Proof. split; intro d; reflexivity. Qed.

Lemma accumulators_kept_trans a b c :
  accumulators_kept a b -> accumulators_kept b c -> accumulators_kept a c.
Proof.
  intros [A1 A2] [B1 B2]. split; intro d.
  - now rewrite B1.
  - now rewrite B2.
Qed.

Lemma accumulators_kept_mul d f a : (f == 1)%Q -> accumulators_kept a (mul_prob d f a).
Proof.
  intro Hf. unfold mul_prob. split; intro d'.
  - destruct (Nat.eq_dec d' d) as [->|Hne].
    + rewrite runtime_modify_same. reflexivity.
    + now rewrite runtime_modify_other.
  - destruct (Nat.eq_dec d' d) as [->|Hne].
    + rewrite runtime_modify_same. cbn [prob set_prob]. rewrite Hf. apply Qmult_1_r.
    + rewrite runtime_modify_other by exact Hne. reflexivity.
Qed.

Lemma accumulators_kept_same a a' :
  (forall d, runtime d a' = runtime d a) -> accumulators_kept a a'.
Proof. intro H. split; intro d; now rewrite H. Qed.

Lemma no_infectious_kept a a' : accumulators_kept a a' -> no_infectious a -> no_infectious a'.
Proof.
  intros [H _] Ha d. specialize (H d). rewrite <- (Ha d). unfold isInfectious.
  rewrite (f_equal status H : status (runtime d a') = status (runtime d a)).
  rewrite (f_equal latent_period H : latent_period (runtime d a') = latent_period (runtime d a)).
  rewrite (f_equal disease_counter H
           : disease_counter (runtime d a') = disease_counter (runtime d a)).
  reflexivity.
Qed.

Lemma Forall_no_infectious_kept l l' :
  Forall2 accumulators_kept l l' -> Forall no_infectious l -> Forall no_infectious l'.
Proof. apply Forall2_Forall_r. intros a b. apply no_infectious_kept. Qed.

Lemma fold_left_fixed {A C} (body : C -> A -> C) l c :
  (forall a, In a l -> body c a = c) -> fold_left body l c = c.
Proof.
  induction l as [|a l IH]; intro H; simpl; [reflexivity|].
  rewrite (H a (or_introl eq_refl)). apply IH. intros; apply H; now right.
Qed.

Lemma tally_loop_fixed {C} (body : C -> Agent -> option C) l c :
  (forall a, In a l -> body c a = Some c) -> tally_loop body l c = Some c.
Proof.
  induction l as [|a l IH]; intro H; simpl; [reflexivity|].
  rewrite (H a (or_introl eq_refl)). apply IH. intros; apply H; now right.
Qed.

Lemma for_diseases_bounded {T} (I : nat -> T -> Prop) (body : nat -> DiseaseParm -> T -> T)
      (n : nat) :
  (forall d p s, (d < n)%nat -> I d s -> I (S d) (body d p s)) ->
  forall ps d s, (d + length ps <= n)%nat -> I d s ->
                 I (d + length ps)%nat (for_diseases body ps d s).
Proof.
  intros Hb ps. induction ps as [|p ps IH]; intros d s Hn Hs; simpl in *.
  - now rewrite Nat.add_0_r.
  - replace (d + S (length ps))%nat with (S d + length ps)%nat by lia.
    apply IH; [lia|]. apply Hb; [lia|exact Hs].
Qed.

Section QuietKernels.

Variable comm_index : Q * Q -> Z.
Variable max_communities : Z.

Lemma work_pass_quiet d lparm mw mn s :
  Forall no_infectious s ->
  Forall2 accumulators_kept s
          (map (work_update_body comm_index d lparm mw mn
                  (fold_left (work_count_body comm_index d mw mn) s zero_counter)) s).
Proof.
  intro Hs. rewrite Forall_forall in Hs. rewrite fold_left_fixed.
  - apply Forall2_map_same. intro a. unfold work_update_body.
    destruct (_ && _); [|apply accumulators_kept_refl].
    apply accumulators_kept_mul. reflexivity.
  - intros a Ha. unfold work_count_body. now rewrite (Hs a Ha d).
Qed.

Lemma school_pass_quiet ms mg d lparm adults s :
  Forall no_infectious s ->
  Forall2 accumulators_kept s (school_pass comm_index ms mg d lparm adults s).
Proof.
  intro Hs. rewrite Forall_forall in Hs. unfold school_pass. rewrite fold_left_fixed.
  - apply Forall2_map_same. intro a. unfold school_update_body.
    destruct (_ && _); [|apply accumulators_kept_refl].
    destruct (_ =? _); apply accumulators_kept_mul; reflexivity.
  - intros a Ha. unfold school_count_body. now rewrite (Hs a Ha d).
Qed.

Lemma nborhood_pass_quiet isCandidate nborhood_ptr mn d lparm s :
  Forall no_infectious s ->
  exists s', nborhood_pass comm_index isCandidate nborhood_ptr mn d lparm s = Some s'
             /\ Forall2 accumulators_kept s s'.
Proof.
  intro Hs. rewrite Forall_forall in Hs. unfold nborhood_pass. rewrite fold_left_fixed.
  2:{ intros a Ha. unfold nborhood_count_body. now rewrite (Hs a Ha d). }
  assert (Hbody : forall a,
             exists a', nborhood_update_body comm_index isCandidate nborhood_ptr d lparm mn
                          (mkNborhoodCounters zero_counter zero_counter) a = Some a'
                        /\ accumulators_kept a a').
  { intro a. unfold nborhood_update_body.
    destruct (_ && _); [|eexists; split; [reflexivity|apply accumulators_kept_refl]].
    cbn [infected_community infected_nborhood zero_counter Z.geb Z.compare negb].
    eexists. split; [reflexivity|].
    eapply accumulators_kept_trans; apply accumulators_kept_mul; reflexivity. }
  clear Hs. induction s as [|a l IH]; simpl.
  - eexists. split; [reflexivity|constructor].
  - destruct (Hbody a) as (a' & -> & Ha'). destruct IH as (l' & -> & Hl').
    eexists. split; [reflexivity|]. constructor; assumption.
Qed.

Lemma home_pass_quiet mf mn nn d lparm adults s s' :
  Forall no_infectious s ->
  home_pass comm_index max_communities mf mn nn d lparm adults s = Some s' ->
  Forall2 accumulators_kept s s'.
Proof.
  intro Hs. rewrite Forall_forall in Hs. unfold home_pass. rewrite tally_loop_fixed.
  2:{ intros a Ha. unfold home_count_body. now rewrite (Hs a Ha d). }
  intro H. eapply ParallelFor_assert_Forall2; [|exact H].
  intros a b _. unfold home_update_body.
  destruct (_ && _); [|intro E; inversion E; subst; apply accumulators_kept_refl].
  destruct (negb _); [discriminate|].
  cbn [infected_family infected_family_not_withdrawn infected_nc zero_counter
       Z.geb Z.compare Z.sub Z.add Z.opp negb].
  destruct (withdrawn a =? 0); intro E; inversion E; subst.
  - eapply accumulators_kept_trans; apply accumulators_kept_mul; reflexivity.
  - apply accumulators_kept_mul; reflexivity.
Qed.

Lemma quiet_loop (body : nat -> DiseaseParm -> list Agent -> list Agent) parms agents :
  (forall d p s, Forall no_infectious s -> Forall2 accumulators_kept s (body d p s)) ->
  Forall no_infectious agents ->
  Forall2 accumulators_kept agents (for_diseases body parms 0%nat agents).
Proof.
  intros Hb Hq.
  apply (for_diseases_indexed (fun _ s => Forall2 accumulators_kept agents s) body
           ltac:(intros d p s Hs; eapply Forall2_trans_of;
                 [apply accumulators_kept_trans|exact Hs|];
                 apply Hb; exact (Forall_no_infectious_kept _ _ Hs Hq))
           parms 0%nat agents).
  apply Forall2_refl_of, accumulators_kept_refl.
Qed.

Lemma quiet_loop_assert (body : nat -> DiseaseParm -> list Agent -> option (list Agent))
      parms agents agents' :
  (forall d p s s', Forall no_infectious s -> body d p s = Some s' ->
                    Forall2 accumulators_kept s s') ->
  Forall no_infectious agents ->
  for_diseases_assert body parms 0%nat agents = Some agents' ->
  Forall2 accumulators_kept agents agents'.
Proof.
  intros Hb Hq H.
  apply (for_diseases_assert_indexed (fun _ s => Forall2 accumulators_kept agents s) body
           ltac:(intros d p s s' Hs E; eapply Forall2_trans_of;
                 [apply accumulators_kept_trans|exact Hs|];
                 eapply Hb; [exact (Forall_no_infectious_kept _ _ Hs Hq)|exact E])
           parms 0%nat agents agents'); [|exact H].
  apply Forall2_refl_of, accumulators_kept_refl.
Qed.

Lemma interactDay_quiet parms agents :
  Forall no_infectious agents ->
  exists day, interactDay comm_index parms agents = Some day
              /\ Forall2 accumulators_kept agents day.
Proof.
  intro Hq. unfold interactDay.
  assert (H1 : Forall2 accumulators_kept agents (fastInteractWork comm_index parms agents)).
  { unfold fastInteractWork. apply quiet_loop; [|exact Hq].
    intros d p s. apply work_pass_quiet. }
  set (w := fastInteractWork comm_index parms agents) in *.
  pose proof (Forall_no_infectious_kept _ _ H1 Hq) as Hq1.
  assert (H2 : Forall2 accumulators_kept w (fastInteractSchool comm_index parms w)).
  { unfold fastInteractSchool. apply quiet_loop; [|exact Hq1].
    intros d p s Hs.
    eapply Forall2_trans_of; [apply accumulators_kept_trans|now apply school_pass_quiet|].
    apply school_pass_quiet.
    exact (Forall_no_infectious_kept _ _ (school_pass_quiet _ _ d p true s Hs) Hs). }
  set (sc := fastInteractSchool comm_index parms w) in *.
  pose proof (Forall_no_infectious_kept _ _ H2 Hq1) as Hq2.
  assert (H3 : exists day, fastInteractWorkNborhood comm_index parms sc = Some day).
  { unfold fastInteractWorkNborhood.
    apply for_diseases_assert_total with (I := Forall no_infectious); [|exact Hq2].
    intros d p s Hs.
    destruct (nborhood_pass_quiet WorkNborhoodCandidate work_nborhood
                (getMaxGroup work_nborhood sc + 1) d p s Hs) as (s' & E & Hk).
    exists s'. split; [exact E|exact (Forall_no_infectious_kept _ _ Hk Hs)]. }
  destruct H3 as [day Hday]. exists day. split; [exact Hday|].
  eapply Forall2_trans_of; [apply accumulators_kept_trans|exact H1|].
  eapply Forall2_trans_of; [apply accumulators_kept_trans|exact H2|].
  unfold fastInteractWorkNborhood in Hday.
  refine (quiet_loop_assert _ _ _ _ _ Hq2 Hday).
  intros d p s s' Hs E.
  destruct (nborhood_pass_quiet WorkNborhoodCandidate work_nborhood
              (getMaxGroup work_nborhood sc + 1) d p s Hs) as (s1 & E1 & Hk).
  congruence.
Qed.

Lemma interactNight_quiet parms agents night :
  Forall no_infectious agents ->
  interactNight comm_index max_communities parms agents = Some night ->
  Forall2 accumulators_kept agents night.
Proof.
  intro Hq. unfold interactNight.
  destruct (fastInteractHome _ _ _ _) as [h|] eqn:Eh; [|discriminate]. intro H.
  assert (H1 : Forall2 accumulators_kept agents h).
  { unfold fastInteractHome in Eh. refine (quiet_loop_assert _ _ _ _ _ Hq Eh).
    intros d p s s' Hs.
    destruct (home_pass _ _ _ _ _ d p true s) as [s1|] eqn:E1; [|discriminate].
    intro E2. pose proof (home_pass_quiet _ _ _ _ _ _ _ _ Hs E1) as K1.
    eapply Forall2_trans_of; [apply accumulators_kept_trans|exact K1|].
    eapply home_pass_quiet; [|exact E2]. exact (Forall_no_infectious_kept _ _ K1 Hs). }
  eapply Forall2_trans_of; [apply accumulators_kept_trans|exact H1|].
  unfold fastInteractHomeNborhood in H. destruct h as [|a0 l]; [inversion H; constructor|].
  destruct (negb _); [discriminate|].
  refine (quiet_loop_assert _ _ _ _ _ (Forall_no_infectious_kept _ _ H1 Hq) H).
  intros d p s s' Hs E.
  destruct (nborhood_pass_quiet HomeNborhoodCandidate nborhood
              (getMaxGroup nborhood (a0 :: l) + 1) d p s Hs) as (s1 & E1 & Hk).
  congruence.
Qed.

End QuietKernels.

Lemma infect_body_quiet lparm r e :
  uniform_draws e -> (prob r == 1)%Q ->
  set_prob 0 (fst (infect_body lparm r e)) = set_prob 0 r.
Proof.
  intros Hu Hp. unfold infect_body. cbn [status set_prob prob].
  destruct (Status.eqb (status r) Status.never || Status.eqb (status r) Status.susceptible);
    [|reflexivity].
  cbn [Random]. destruct (Hu (n_uniform e)) as [H0 _].
  replace (Qltb (uniform_src e (n_uniform e)) (1 - prob r)) with false; [reflexivity|].
  symmetry. apply Qltb_ge. rewrite Hp. exact H0.
Qed.

(** What holds during infectAgents of an agent of a tile without exposure
    once the diseases below [d0] have been processed; [a] is the agent
    before the kernel. *)
Definition unexposed_inv (n_disease d0 : nat) (a a' : Agent) : Prop :=
  (forall k, (k < n_disease)%nat -> (prob (runtime k a) == 1)%Q)
  /\ (forall k, set_prob 0 (runtime k a') = set_prob 0 (runtime k a))
  /\ (forall k, (d0 <= k)%nat -> runtime k a' = runtime k a).

Lemma infectAgents_quiet parms engines agents :
  (forall d i, uniform_draws (engines d i)) ->
  Forall (fun a => forall k, (k < length parms)%nat -> (prob (runtime k a) == 1)%Q) agents ->
  Forall2 (fun a a' => forall k, set_prob 0 (runtime k a') = set_prob 0 (runtime k a))
          agents (infectAgents parms engines agents).
Proof.
  intros Hu Hp. unfold infectAgents.
  set (n := length parms).
  set (body := fun d lparm ags => ParallelForRNG _ (engines d) 0%nat ags).
  assert (H : Forall2 (unexposed_inv n (0 + length parms)) agents
                      (for_diseases body parms 0%nat agents)).
  { apply (for_diseases_bounded (fun d s => Forall2 (unexposed_inv n d) agents s) body n).
    - intros d p s Hd Hs. unfold body.
      eapply Forall2_compose;
        [|exact Hs
         |apply ParallelForRNG_Forall2_at
            with (R := fun a a' => exists e, uniform_draws e
                                             /\ a' = modify_runtime d
                                                       (fun r => fst (infect_body p r e)) a)].
      + intros a b c (I1 & I2 & I3) (e & He & ->). unfold unexposed_inv.
        split; [exact I1|]. split.
        * intro k. destruct (Nat.eq_dec k d) as [->|Hne].
          -- rewrite runtime_modify_same. rewrite infect_body_quiet; [apply I2|exact He|].
             rewrite I3 by lia. now apply I1.
          -- rewrite runtime_modify_other by exact Hne. apply I2.
        * intros k Hk. rewrite runtime_modify_other by lia. apply I3. lia.
      + intros i a. exists (engines d i). split; [apply Hu|reflexivity].
    - unfold n. lia.
    - eapply Forall2_with_l with (R := eq) (P := fun a => forall k, (k < n)%nat ->
                                                   (prob (runtime k a) == 1)%Q);
        [|apply Forall2_refl_of; reflexivity|exact Hp].
      intros a b <- Ha. unfold unexposed_inv. split; [exact Ha|]. split; reflexivity. }
  eapply Forall2_impl; [|exact H]. intros a a' (_ & H2 & _). exact H2.
Qed.

(** X19. A tile without infectious agents gets no new infection. If no
    agent is infectious for any disease and every accumulator of a disease
    is 1 (as updateAgents leaves it), then the day kernels run to
    completion, and after the night kernels (on the runs where their
    assertions hold) infectAgents with uniform draws in [0, 1) changes no
    status, counter, period or timer of any agent: every exponent of the
    day was 0. *)
Theorem no_infectious_no_infection (comm_index : Q * Q -> Z) (max_communities : Z)
        (g : Geometry) (parms : list DiseaseParm)
        (infect_engines : nat -> nat -> RandomEngine) (agents : list Agent) :
  Forall (fun a => no_infectious a /\ probs_reset (length parms) a) agents ->
  (forall d i, uniform_draws (infect_engines d i)) ->
  exists day,
    interactDay comm_index parms (moveAgentsToWork g agents) = Some day
    /\ forall night,
         interactNight comm_index max_communities parms (moveAgentsToHome g day) = Some night ->
         Forall2 (fun a a' => forall d, set_prob 0 (runtime d a') = set_prob 0 (runtime d a))
                 agents (infectAgents parms infect_engines night).
Proof.
  intros Hq Hu.
  assert (Hq0 : Forall no_infectious agents).
  { eapply Forall_impl; [|exact Hq]. intros a [H _]. exact H. }
  assert (Hmove : forall f l, (forall a d, runtime d (f a) = runtime d a) ->
                              Forall2 accumulators_kept l (map f l)).
  { intros f l Hf. apply Forall2_map_same. intro a. apply accumulators_kept_same.
    intro d. apply Hf. }
  assert (H1 : Forall2 accumulators_kept agents (moveAgentsToWork g agents)).
  { apply Hmove. intros a d. destruct (negb (inHospital a)); reflexivity. }
  pose proof (Forall_no_infectious_kept _ _ H1 Hq0) as Hq1.
  destruct (interactDay_quiet comm_index parms _ Hq1) as (day & Hday & H2).
  exists day. split; [exact Hday|]. intros night Hnight.
  pose proof (Forall_no_infectious_kept _ _ H2 Hq1) as Hq2.
  assert (H3 : Forall2 accumulators_kept day (moveAgentsToHome g day)).
  { apply Hmove. intros a d. destruct (negb (inHospital a)); reflexivity. }
  pose proof (Forall_no_infectious_kept _ _ H3 Hq2) as Hq3.
  pose proof (interactNight_quiet comm_index max_communities parms _ night Hq3 Hnight) as H4.
  assert (Hall : Forall2 accumulators_kept agents night).
  { eapply Forall2_trans_of; [apply accumulators_kept_trans|exact H1|].
    eapply Forall2_trans_of; [apply accumulators_kept_trans|exact H2|].
    eapply Forall2_trans_of; [apply accumulators_kept_trans|exact H3|exact H4]. }
  assert (Hprob : Forall (fun a => forall k, (k < length parms)%nat ->
                                             (prob (runtime k a) == 1)%Q) night).
  { eapply Forall2_Forall_r; [|exact Hall|exact Hq].
    intros a b [_ Hab] [_ Ha] k Hk. rewrite Hab, (Ha k Hk). reflexivity. }
  eapply Forall2_compose; [|exact Hall|exact (infectAgents_quiet parms infect_engines night
                                                                  Hu Hprob)].
  intros a b c [Hab _] Hbc d. cbv beta in Hbc. now rewrite Hbc.
Qed.

(** Two agents who have never been infected. *)
Definition unexposed_tile : list Agent :=
  [at_home AgeGroups.a30to49 0 0 no_attribs; at_home AgeGroups.u5 0 0 no_attribs].

Lemma no_infectious_no_infection_witness :
  exists day,
    interactDay (fun _ => 0) [default_parm] (moveAgentsToWork census_geometry unexposed_tile)
    = Some day
    /\ forall night,
         interactNight (fun _ => 0) 1 [default_parm] (moveAgentsToHome census_geometry day)
         = Some night ->
         Forall2 (fun a a' => forall d, set_prob 0 (runtime d a') = set_prob 0 (runtime d a))
                 unexposed_tile
                 (infectAgents [default_parm] (fun _ _ => quiet_engine) night).
Proof.
  apply (no_infectious_no_infection (fun _ => 0) 1 census_geometry [default_parm]
                                    (fun _ _ => quiet_engine) unexposed_tile).
  - repeat constructor.
  - intros d i. exact quiet_engine_uniform.
Defined.

(** ** The random walk *)

(** X20. moveAgentsRandomWalk with uniform draws in [0, 1) and
    non-negative cell sizes takes two draws per agent and moves each
    coordinate by at most one cell size; nothing but the position
    changes. *)
Theorem moveAgentsRandomWalk_bounded (g : Geometry) (engines : nat -> RandomEngine)
        (agents : list Agent) :
  (0 <= fst (dx g))%Q -> (0 <= snd (dx g))%Q ->
  (forall i, uniform_draws (engines i)) ->
  Forall2 (fun a a' =>
             a' = set_pos (pos a') a
             /\ (fst (pos a) - fst (dx g) <= fst (pos a'))%Q
             /\ (fst (pos a') <= fst (pos a) + fst (dx g))%Q
             /\ (snd (pos a) - snd (dx g) <= snd (pos a'))%Q
             /\ (snd (pos a') <= snd (pos a) + snd (dx g))%Q)
          agents (moveAgentsRandomWalk g engines agents).
Proof.
  intros Hx Hy Hu. unfold moveAgentsRandomWalk. apply ParallelForRNG_Forall2_at.
  intros i a. cbn [Random]. cbn [pos set_pos fst snd uniform_src n_uniform].
  destruct (Hu i (n_uniform (engines i))) as [U0 U1].
  destruct (Hu i (S (n_uniform (engines i)))) as [V0 V1].
  set (u := uniform_src (engines i) (n_uniform (engines i))) in *.
  set (v := uniform_src (engines i) (S (n_uniform (engines i)))) in *.
  assert (Hstep : forall w s : Q, (0 <= w)%Q -> (w < 1)%Q -> (0 <= s)%Q ->
                                  (- s <= (2 * w - 1) * s)%Q /\ ((2 * w - 1) * s <= s)%Q).
  { intros w s W0 W1 S0. split.
    - assert (H : (0 <= (2 * w) * s)%Q) by (apply Qmult_le_0_compat; [lra|exact S0]).
      lra.
    - assert (H : (0 <= (2 - 2 * w) * s)%Q) by (apply Qmult_le_0_compat; [lra|exact S0]).
      lra. }
  destruct (Hstep u _ U0 U1 Hx) as [X0 X1]. destruct (Hstep v _ V0 V1 Hy) as [Y0 Y1].
  split; [reflexivity|]. repeat split; lra.
Qed.

Lemma moveAgentsRandomWalk_bounded_witness :
  Forall2 (fun a a' => (fst (pos a) - 1 <= fst (pos a'))%Q
                       /\ (fst (pos a') <= fst (pos a) + 1)%Q)
          household (moveAgentsRandomWalk census_geometry (fun _ => quiet_engine) household).
Proof.
  eapply Forall2_impl;
    [|apply (moveAgentsRandomWalk_bounded census_geometry (fun _ => quiet_engine) household)].
  - intros a a' (_ & H1 & H2 & _). split; [exact H1|exact H2].
  - discriminate.
  - discriminate.
  - intro i. exact quiet_engine_uniform.
Defined.

(** ** Community statistics are shared by the diseases *)

Definition zero_stats : Stats := fun _ _ _ => 0%Q.

Lemma AtomicAddStat_plus ds i j n v i' j' n' :
  (AtomicAddStat ds i j n v i' j' n' == ds i' j' n' + AtomicAddStat zero_stats i j n v i' j' n')%Q.
Proof.
  unfold AtomicAddStat, zero_stats. destruct ((i' =? i) && (j' =? j) && (n' =? n)); ring.
Qed.

(** A statistics kernel adds, at every community and component, an amount
    that does not depend on the statistics it is applied to. *)
Definition additive (f : Stats -> Stats) : Prop :=
  forall ds i j n, (f ds i j n == ds i j n + f zero_stats i j n)%Q.

Lemma additive_fold {A} (body : Stats -> A -> Stats) l :
  (forall x, additive (fun ds => body ds x)) ->
  additive (fun ds => fold_left body l ds).
Proof.
  intro Hb. induction l as [|x l IH]; intros ds i j n; simpl.
  - unfold zero_stats. ring.
  - rewrite (IH (body ds x)), (IH (body zero_stats x)), (Hb x ds). ring.
Qed.

Lemma additive_cond (c : bool) i j n v (f : Stats -> Stats) :
  additive f -> additive (fun ds => if c then AtomicAddStat (f ds) i j n v else f ds).
Proof.
  intros Hf ds i' j' n'. destruct c; [|apply Hf].
  rewrite AtomicAddStat_plus, (AtomicAddStat_plus (f zero_stats)), (Hf ds). ring.
Qed.

Lemma additive_id : additive (fun ds => ds).
Proof. intros ds i j n. unfold zero_stats. ring. Qed.

Lemma admission_stats_additive xs : additive (admission_stats xs).
Proof.
  unfold admission_stats. apply additive_fold. intros [a m]. cbv zeta.
  apply (additive_cond (marked_for_vent m =? 1)).
  apply (additive_cond (marked_for_ICU m =? 1)).
  apply (additive_cond (marked_for_hosp m =? 1)).
  apply additive_id.
Qed.

Lemma outcome_stats_additive xs : additive (outcome_stats xs).
Proof.
  unfold outcome_stats. apply (additive_fold outcome_stats_body). intros [a h].
  unfold outcome_stats_body.
  apply (additive_cond (Z.abs (flag_status h) >? DiseaseStats.ventilator)).
  apply (additive_cond (Z.abs (flag_status h) >? DiseaseStats.ICU)).
  apply (additive_cond (Z.abs (flag_status h) >? DiseaseStats.hospitalization)).
  apply (additive_cond (flag_status h <? 0)).
  apply additive_id.
Qed.

Lemma modify_stats_loop (f : Stats -> Stats) parms : forall d0 st k,
  for_diseases (fun d _ st => modify_stats d f st) parms d0 st k
  = if (d0 <=? k)%nat && (k <? d0 + length parms)%nat then f (st k) else st k.
Proof.
  induction parms as [|p ps IH]; intros d0 st k; simpl.
  - replace (k <? d0 + 0)%nat with (negb (d0 <=? k)%nat).
    + destruct (d0 <=? k)%nat; reflexivity.
    + rewrite Nat.add_0_r, Nat.ltb_antisym. reflexivity.
  - rewrite IH. unfold modify_stats.
    destruct (Nat.eqb_spec k d0) as [->|Hne].
    + replace (S d0 <=? d0)%nat with false by (symmetry; apply Nat.leb_gt; lia).
      replace (d0 <=? d0)%nat with true by (symmetry; apply Nat.leb_le; lia).
      replace (d0 <? d0 + S (length ps))%nat with true by (symmetry; apply Nat.ltb_lt; lia).
      reflexivity.
    + destruct (Nat.leb_spec (S d0) k), (Nat.leb_spec d0 k); try lia; cbn [andb];
        [|reflexivity].
      replace (d0 + S (length ps))%nat with (S d0 + length ps)%nat by lia. reflexivity.
Qed.

(** X21. The statistics kernels of updateStatus do not tell the diseases
    apart: on the runs where treatAgents passes its assertions, one and
    the same change (admissions to hospital, ICU and ventilator, deaths,
    and ends of treatment phases, by home community) is added to the
    statistics of every disease, whichever disease caused it; the
    statistics of indices that are not diseases are kept. *)
Theorem statistics_shared_by_diseases (g : Geometry) (parms : list DiseaseParm)
        (symptomatic_withdraw_compliance : Q)
        (status_engines hospital_engines : nat -> nat -> RandomEngine)
        (agents : list Agent) (a_disease_stats : nat -> Stats)
        (xs : list (Agent * HospAux)) :
  treat_tile g parms hospital_engines
             (fst (updateAgents parms symptomatic_withdraw_compliance status_engines
                                agents a_disease_stats)) = Some xs ->
  exists (change : Stats) (stats' : nat -> Stats),
    updateStatus g parms symptomatic_withdraw_compliance status_engines hospital_engines
                 agents a_disease_stats
    = Some (map (to_hospital_position g) (map fst xs), stats')
    /\ forall d i j n,
         (stats' d i j n
          == a_disease_stats d i j n
             + (if (d <? length parms)%nat then change i j n else 0))%Q.
Proof.
  intro Htile. unfold updateStatus, treatAgents.
  unfold updateAgents in *. cbn [fst] in Htile. rewrite Htile.
  match goal with
  | |- context [for_diseases (fun d _ st => modify_stats d (admission_stats ?ys) st)] =>
      set (marks := ys)
  end.
  exists (fun i j n => (admission_stats marks zero_stats i j n
                        + outcome_stats xs zero_stats i j n)%Q).
  eexists. split; [reflexivity|].
  intros d i j n. rewrite !modify_stats_loop. cbn [Nat.leb andb Nat.add].
  destruct (d <? length parms)%nat.
  - pose proof (outcome_stats_additive xs (admission_stats marks (a_disease_stats d)) i j n)
      as H1.
    pose proof (admission_stats_additive marks (a_disease_stats d) i j n) as H2.
    cbv beta in H1, H2. rewrite H1, H2. ring.
  - ring.
Qed.

Lemma statistics_shared_by_diseases_witness :
  exists (xs : list (Agent * HospAux)) (change : Stats) (stats' : nat -> Stats),
    updateStatus census_geometry two_diseases 0.95 (fun _ _ => quiet_engine)
                 (fun _ _ => quiet_engine) [hospitalised_agent] no_stats
    = Some (map (to_hospital_position census_geometry) (map fst xs), stats')
    /\ forall i j n, (stats' 0%nat i j n == stats' 1%nat i j n)%Q.
Proof.
  destruct (treat_tile census_geometry two_diseases (fun _ _ => quiet_engine)
               (fst (updateAgents two_diseases 0.95 (fun _ _ => quiet_engine)
                                  [hospitalised_agent] no_stats))) as [xs|] eqn:E1;
    [|vm_compute in E1; discriminate E1].
  destruct (statistics_shared_by_diseases census_geometry two_diseases 0.95
              (fun _ _ => quiet_engine) (fun _ _ => quiet_engine)
              [hospitalised_agent] no_stats xs E1) as (change & stats' & Heq & Hst).
  exists xs, change, stats'. split; [exact Heq|].
  intros i j n. rewrite (Hst 0%nat), (Hst 1%nat). reflexivity.
Defined.

(** ** Cell data *)

(** The agent stands in cell [iv]. *)
Definition in_cell (cell_of : Q * Q -> Z * Z) (iv : Z * Z) (b : Agent) : bool :=
  (fst iv =? fst (cell_of (pos b))) && (snd iv =? snd (cell_of (pos b))).

(** The agent is counted in offset [k] of the block of disease [d]:
    offset 0 counts every agent, offset [s + 1] the agents of status [s]. *)
Definition counted_at (d : nat) (k : Z) (b : Agent) : bool :=
  (k =? 0) || (Z.of_nat (Status.to_nat (status (runtime d b))) + 1 =? k).

Lemma cell_data_step cell_of a count (d' d : nat) iv k :
  0 <= k <= 4 ->
  ((let status := status (runtime d' a) in
    let count := AtomicAddMesh count (cell_of (pos a)) (5 * Z.of_nat d' + 0) 1 in
    if negb (Status.eqb status Status.dead)
    then AtomicAddMesh count (cell_of (pos a))
                       (5 * Z.of_nat d' + Z.of_nat (Status.to_nat status) + 1) 1
    else count) iv (5 * Z.of_nat d + k)%Z
   == count iv (5 * Z.of_nat d + k)%Z
      + (if (d' =? d)%nat && in_cell cell_of iv a && counted_at d k a then 1 else 0))%Q.
Proof.
  intro Hk. cbv zeta. unfold in_cell, counted_at, AtomicAddMesh.
  destruct (Nat.eqb_spec d' d) as [->|Hne];
    destruct (status (runtime _ a));
    cbv beta; cbn [Status.eqb negb Status.to_nat andb orb Z.of_nat fst snd];
    repeat match goal with
           | |- context [?x =? ?y] => destruct (Z.eqb_spec x y)
           end;
    cbn [andb orb]; try lia; ring.
Qed.

Lemma cell_data_body_at cell_of a iv (d : nat) k :
  0 <= k <= 4 ->
  forall n_disease count,
    (cell_data_body cell_of n_disease count a iv (5 * Z.of_nat d + k)%Z
     == count iv (5 * Z.of_nat d + k)%Z
        + (if (d <? n_disease)%nat && in_cell cell_of iv a && counted_at d k a
           then 1 else 0))%Q.
Proof.
  intro Hk. unfold cell_data_body. cbv zeta.
  induction n_disease as [|n IH]; intro count.
  - simpl. ring.
  - rewrite seq_S, fold_left_app. cbn [fold_left Nat.add].
    rewrite (cell_data_step cell_of a _ n d iv k Hk), IH.
    destruct (Nat.eqb_spec n d) as [->|Hne].
    + replace (d <? d)%nat with false by (symmetry; apply Nat.ltb_ge; lia).
      replace (d <? S d)%nat with true by (symmetry; apply Nat.ltb_lt; lia).
      cbn [andb]. ring.
    + replace (d <? S n)%nat with (d <? n)%nat.
      * cbn [andb]. ring.
      * destruct (Nat.ltb_spec d n), (Nat.ltb_spec d (S n)); try reflexivity; lia.
Qed.

(** X22. generateCellData adds to the mesh data, in each cell, for each
    disease d and offset k of its block of five components: at offset 0
    the number of agents standing in the cell, at offset 1, 2, 3, 4 the
    number of those whose status for d is never, infected, immune,
    susceptible. Dead agents are counted at offset 0 only (their status
    offset would be the first component of the next disease). *)
Theorem generateCellData_counts (cell_of : Q * Q -> Z * Z) (n_disease : nat)
        (agents : list Agent) (mf : MeshData) (iv : Z * Z) (d : nat) (k : Z) :
  (d < n_disease)%nat -> 0 <= k <= 4 ->
  (generateCellData cell_of n_disease agents mf iv (5 * Z.of_nat d + k)%Z
   == mf iv (5 * Z.of_nat d + k)%Z
      + inject_Z (count_if (fun b => in_cell cell_of iv b && counted_at d k b) agents))%Q.
Proof.
  intros Hd Hk. unfold generateCellData. revert mf.
  induction agents as [|a l IH]; intro mf.
  - simpl. unfold count_if. simpl. ring.
  - cbn [fold_left]. rewrite IH, (cell_data_body_at cell_of a iv d k Hk), count_if_cons.
    replace (d <? n_disease)%nat with true by (symmetry; apply Nat.ltb_lt; exact Hd).
    cbn [andb]. rewrite inject_Z_plus.
    destruct (in_cell cell_of iv a && counted_at d k a); simpl inject_Z; ring.
Qed.

Lemma generateCellData_counts_witness :
  (generateCellData (fun _ => (0, 0)%Z) 1 household (fun _ _ => 0) (0, 0)%Z
                    (5 * Z.of_nat 0 + 2)%Z
   == 0 + inject_Z (count_if (fun b => in_cell (fun _ => (0, 0)%Z) (0, 0)%Z b
                                       && counted_at 0 2 b) household))%Q.
Proof.
  apply (generateCellData_counts (fun _ => (0, 0)) 1 household (fun _ _ => 0%Q) (0, 0) 0%nat 2).
  - lia.
  - lia.
Defined.

(** ** When the night kernels run to completion *)





Section NightTotal.

Variable comm_index : Q * Q -> Z.
Variable max_communities : Z.

Local Abbreviation community := (getCommunityIndex comm_index).





End NightTotal.



(** ** The status predicates *)

(** X24. The predicates on the status of an agent for a disease.
    notSusceptible is the negation of isSusceptible, which holds exactly
    for the statuses never and susceptible. An infected agent is
    infectious or "infected but not infectious", and it is both exactly
    when its disease_counter equals its latent_period: on that day the
    interaction kernels count it as a transmitter while getTotals counts
    it as exposed (component 5). *)
Theorem status_predicates (d : nat) (a : Agent) :
  notSusceptible d a = negb (isSusceptible d a)
  /\ (isSusceptible d a = true
      <-> status (runtime d a) = Status.never \/ status (runtime d a) = Status.susceptible)
  /\ (isInfectious d a || notInfectiousButInfected d a = true
      <-> status (runtime d a) = Status.infected)
  /\ (isInfectious d a && notInfectiousButInfected d a = true
      <-> status (runtime d a) = Status.infected
          /\ (disease_counter (runtime d a) == latent_period (runtime d a))%Q)
  /\ (isInfectious d a = true /\ component (totals_body d a) 5 = 1
      <-> status (runtime d a) = Status.infected
          /\ (disease_counter (runtime d a) == latent_period (runtime d a))%Q).
Proof.
  unfold notSusceptible, isSusceptible, isInfectious, notInfectiousButInfected, totals_body.
  set (c := disease_counter (runtime d a)). set (l := latent_period (runtime d a)).
  assert (Hboth : Qle_bool l c && Qle_bool c l = true <-> (c == l)%Q).
  { rewrite andb_true_iff, !Qle_bool_iff. split.
    - intros [H1 H2]. now apply Qle_antisym.
    - intro H. rewrite H. split; apply Qle_refl. }
  assert (Hone : Qle_bool l c || Qle_bool c l = true).
  { apply orb_true_iff. rewrite !Qle_bool_iff.
    destruct (Qlt_le_dec c l) as [H|H]; [right; now apply Qlt_le_weak|now left]. }
  assert (Hexp : forall b : bool,
             component (if b then [0; 1; 0; 0; 0; 1; 0; 0; 0]
                        else match symptomatic (runtime d a) with
                             | SymptomStatus.presymptomatic => [0; 1; 0; 0; 0; 0; 0; 1; 0]
                             | SymptomStatus.symptomatic => [0; 1; 0; 0; 0; 0; 0; 0; 1]
                             | SymptomStatus.asymptomatic => [0; 1; 0; 0; 0; 0; 1; 0; 0]
                             end) 5 = 1
             <-> b = true).
  { intros [|].
    - split; reflexivity.
    - split; [|discriminate]. destruct (symptomatic (runtime d a)); discriminate. }
  assert (Hnot : status (runtime d a) = Status.infected ->
                 notInfectiousButInfected d a = Qle_bool c l).
  { intro Es. unfold notInfectiousButInfected. rewrite Es. reflexivity. }
  split; [destruct (status (runtime d a)); reflexivity|].
  split.
  { destruct (status (runtime d a)); cbn [Status.eqb negb andb];
      split; intro H; try discriminate; try tauto; destruct H; discriminate. }
  split.
  { destruct (status (runtime d a)); cbn [Status.eqb andb orb];
      split; intro H; try discriminate; try reflexivity. exact Hone. }
  split.
  { destruct (status (runtime d a)); cbn [Status.eqb andb];
      (split; [intro H|intros [H1 H2]]); try discriminate.
    - split; [reflexivity|]. now apply Hboth.
    - now apply Hboth. }
  destruct (status (runtime d a)) eqn:Es; cbn [Status.eqb andb Status.to_nat set_arr];
    (split; [intros [H1 H2]|intros [H1 H2]]); try discriminate.
  - split; [reflexivity|]. apply Hboth. rewrite H1. cbn [andb].
    rewrite <- (Hnot eq_refl). now apply Hexp.
  - apply Hboth in H2. apply andb_true_iff in H2. destruct H2 as [H2 H3].
    split; [exact H2|]. apply Hexp. now rewrite (Hnot eq_refl).
Qed.

(** ** getTotals as counts *)

Lemma getTotals_component a_d agents k : forall acc,
  length acc = 9%nat ->
  component (fold_left (fun acc a => ReduceOpSum acc (totals_body a_d a)) agents acc) k
  = component acc k
    + fold_right (fun a n => component (totals_body a_d a) k + n) 0 agents.
Proof.
  induction agents as [|a l IH]; intros acc Hacc; simpl; [lia|].
  destruct (totals_body_shape a_d a) as (Hl & _ & _).
  assert (Hlen : length acc = length (totals_body a_d a)) by congruence.
  rewrite IH by (rewrite ReduceOpSum_length; assumption).
  rewrite ReduceOpSum_component by exact Hlen. lia.
Qed.

Lemma sum_flags_count (f : Agent -> Z) (p : Agent -> bool) agents :
  (forall a, f a = if p a then 1 else 0) ->
  fold_right (fun a n => f a + n) 0 agents = count_if p agents.
Proof.
  intro H. induction agents as [|a l IH]; simpl; [reflexivity|].
  rewrite IH, count_if_cons, H. reflexivity.
Qed.

(** X25. getTotals counts: for every status s the component of index s
    is the number of agents of the tile whose status for the disease is
    s, and component 5 (exposed) is the number of agents that are infected
    with a disease_counter of at most the latent_period. *)
Theorem getTotals_counts (a_d : nat) (agents : list Agent) (s : Status.t) :
  component (getTotals a_d agents) (Status.to_nat s)
  = count_if (fun a => Status.eqb (status (runtime a_d a)) s) agents
  /\ component (getTotals a_d agents) 5 = count_if (notInfectiousButInfected a_d) agents.
Proof.
  unfold getTotals. rewrite !getTotals_component by reflexivity. split.
  - rewrite (sum_flags_count _ (fun a => Status.eqb (status (runtime a_d a)) s)).
    + destruct s; reflexivity.
    + intro a. unfold totals_body.
      destruct (status (runtime a_d a)) eqn:Es; destruct s; try reflexivity;
        cbn [Status.eqb Status.to_nat]; destruct (notInfectiousButInfected a_d a);
        try reflexivity; destruct (symptomatic (runtime a_d a)); reflexivity.
  - rewrite (sum_flags_count _ (notInfectiousButInfected a_d)); [reflexivity|].
    intro a. unfold totals_body.
    destruct (notInfectiousButInfected a_d a) eqn:En.
    + unfold notInfectiousButInfected in En. apply andb_true_iff in En.
      destruct En as [En _]. apply Status_eqb_eq in En. rewrite En. reflexivity.
    + destruct (status (runtime a_d a)); try reflexivity.
      cbn [Status.eqb]. destruct (symptomatic (runtime a_d a)); reflexivity.
Qed.

(** ** The length of a hospital stay *)

(** A patient of a single disease in treatment phase [k] (0 hospital,
    1 ICU, 2 ventilator) with [m] days left in it, past the day of
    admission. *)
Definition in_treatment (p : DiseaseParm) (k : Z) (m : nat) (a : Agent) : Prop :=
  inHospital a = true
  /\ status (runtime 0 a) = Status.infected
  /\ (treatment_timer (runtime 0 a)
      == inject_Z k * m_t_hosp_offset p + inject_Z (Z.of_nat m))%Q
  /\ (1 <= disease_counter (runtime 0 a))%Q
  /\ (floorQ (incubation_period (runtime 0 a)) <= disease_counter (runtime 0 a))%Q.

Lemma inject_nat_S m : (inject_Z (Z.of_nat (S m)) == inject_Z (Z.of_nat m) + 1)%Q.
Proof. rewrite Nat2Z.inj_succ. unfold Z.succ. rewrite inject_Z_plus. reflexivity. Qed.

Lemma inject_nat_nonneg m : (0 <= inject_Z (Z.of_nat m))%Q.
Proof. change 0%Q with (inject_Z 0). rewrite <- Zle_Qle. lia. Qed.

Lemma Qeq_bool_false x y : ~ (x == y)%Q -> Qeq_bool x y = false.
Proof.
  intro H. destruct (Qeq_bool x y) eqn:E; [|reflexivity].
  exfalso. apply H. now apply Qeq_bool_iff.
Qed.

Lemma phase_cases k : 0 <= k <= 2 -> k = 0 \/ k = 1 \/ k = 2.
Proof. lia. Qed.

Lemma update_body_patient p swc a m e :
  inHospital a = true ->
  status (runtime 0 a) = Status.infected ->
  (1 <= disease_counter (runtime 0 a))%Q ->
  (floorQ (incubation_period (runtime 0 a)) <= disease_counter (runtime 0 a))%Q ->
  update_body p swc 0 (a, m) e
  = (put_runtime 0 (set_counter (disease_counter (runtime 0 a) + 1)
                                (set_prob 1 (runtime 0 a))) a, m, e).
Proof.
  intros Hin Es Hc Hf. unfold update_body. cbn [status set_prob]. rewrite Es.
  cbn [disease_counter set_counter set_prob incubation_period].
  rewrite (Qeq_bool_false (disease_counter (runtime 0 a) + 1) 1) by lra.
  rewrite (Qeq_bool_false (disease_counter (runtime 0 a) + 1)
                          (floorQ (incubation_period (runtime 0 a)))) by lra.
  rewrite Hin. reflexivity.
Qed.

Lemma treat_body_in_phase p a e k m :
  0 <= k <= 2 ->
  (inject_Z (Z.of_nat (S (S m))) <= m_t_hosp_offset p)%Q ->
  inHospital a = true ->
  status (runtime 0 a) = Status.infected ->
  (treatment_timer (runtime 0 a)
   == inject_Z k * m_t_hosp_offset p + inject_Z (Z.of_nat (S (S m))))%Q ->
  Qeq_bool (disease_counter (runtime 0 a)) (floorQ (incubation_period (runtime 0 a))) = false ->
  treat_body p 0 (a, mkAux 1 0) e
  = Some (put_runtime 0 (set_timer (treatment_timer (runtime 0 a) - 1) (runtime 0 a)) a,
          mkAux 1 0, e).
Proof.
  intros Hk HT Hin Es Ht Hc. unfold treat_body. rewrite Hin, Hc, Es.
  cbn [negb is_alive flag_status Z.eqb Status.eqb treatment_timer set_timer].
  pose proof (inject_nat_nonneg m) as Hm.
  rewrite !inject_nat_S in HT, Ht.
  set (T := m_t_hosp_offset p) in *. set (q := inject_Z (Z.of_nat m)) in *.
  set (t := treatment_timer (runtime 0 a)) in *.
  assert (HT0 : (0 < T)%Q) by lra.
  assert (Hphase : (t == q + 2)%Q \/ (t == T + q + 2)%Q \/ (t == 2 * T + q + 2)%Q).
  { destruct (phase_cases k Hk) as [->|[->| ->]].
    - left. rewrite Ht. change (inject_Z 0) with 0%Q. ring.
    - right; left. rewrite Ht. change (inject_Z 1) with 1%Q. ring.
    - right; right. rewrite Ht. change (inject_Z 2) with 2%Q. ring. }
  rewrite (Qeq_bool_false t 0) by (destruct Hphase as [H|[H|H]]; rewrite H; lra).
  rewrite (Qeq_bool_false (t - 1) 0) by (destruct Hphase as [H|[H|H]]; rewrite H; lra).
  rewrite (Qeq_bool_false (t - 1) T) by (destruct Hphase as [H|[H|H]]; rewrite H; lra).
  rewrite (Qeq_bool_false (t - 1) (2 * T)) by (destruct Hphase as [H|[H|H]]; rewrite H; lra).
  reflexivity.
Qed.

Lemma treat_body_phase_end p a e k :
  0 <= k <= 2 ->
  (0 < m_t_hosp_offset p)%Q ->
  inHospital a = true ->
  status (runtime 0 a) = Status.infected ->
  (treatment_timer (runtime 0 a) == inject_Z k * m_t_hosp_offset p + 1)%Q ->
  Qeq_bool (disease_counter (runtime 0 a)) (floorQ (incubation_period (runtime 0 a))) = false ->
  exists a' h' e',
    treat_body p 0 (a, mkAux 1 0) e = Some (a', h', e')
    /\ inHospital a' = true
    /\ ((is_alive h' = 0 /\ status (runtime 0 a') = Status.dead)
        \/ (is_alive h' = 1 /\ status (runtime 0 a') = Status.immune
            /\ treatment_timer (runtime 0 a') = 0%Q)).
Proof.
  intros Hk HT0 Hin Es Ht Hc. unfold treat_body. rewrite Hin, Hc, Es.
  cbn [negb is_alive flag_status Z.eqb Status.eqb treatment_timer set_timer].
  set (T := m_t_hosp_offset p) in *. set (t := treatment_timer (runtime 0 a)) in *.
  assert (Hphase : (t == 1)%Q \/ (t == T + 1)%Q \/ (t == 2 * T + 1)%Q).
  { destruct (phase_cases k Hk) as [->|[->| ->]].
    - left. rewrite Ht. change (inject_Z 0) with 0%Q. ring.
    - right; left. rewrite Ht. change (inject_Z 1) with 1%Q. ring.
    - right; right. rewrite Ht. change (inject_Z 2) with 2%Q. ring. }
  rewrite (Qeq_bool_false t 0) by (destruct Hphase as [H|[H|H]]; rewrite H; lra).
  match goal with
  | |- context [if ?flag >? 0 then _ else _] =>
      assert (Hflag : (flag >? 0) = true)
  end.
  { destruct (Qeq_bool (t - 1) 0) eqn:E0; [reflexivity|].
    destruct (Qeq_bool (t - 1) T) eqn:E1; [reflexivity|].
    destruct (Qeq_bool (t - 1) (2 * T)) eqn:E2; [reflexivity|].
    exfalso. apply Qeq_bool_neq in E0, E1, E2.
    destruct Hphase as [H|[H|H]]; [apply E0|apply E1|apply E2]; rewrite H; ring. }
  rewrite Hflag. cbn [Random]. destruct (Qltb _ _).
  - eexists _, _, _. split; [reflexivity|]. split; [exact Hin|].
    left. split; [reflexivity|]. rewrite runtime_put_same. reflexivity.
  - cbn [RandomGamma]. eexists _, _, _. split; [reflexivity|]. split; [exact Hin|].
    right. split; [reflexivity|]. rewrite runtime_set_withdrawn, runtime_put_same.
    split; reflexivity.
Qed.

Lemma updateStatus_agents g parms swc se he agents st xs :
  treat_tile g parms he (fst (updateAgents parms swc se agents st)) = Some xs ->
  exists st', updateStatus g parms swc se he agents st
              = Some (map (to_hospital_position g) (map fst xs), st').
Proof.
  intro Htile. unfold updateStatus.
  destruct (updateAgents parms swc se agents st) as [ags1 st1].
  cbn [fst] in Htile. unfold treatAgents. rewrite Htile. eexists. reflexivity.
Qed.

Lemma updateAgents_patient p swc se a st :
  inHospital a = true ->
  status (runtime 0 a) = Status.infected ->
  (1 <= disease_counter (runtime 0 a))%Q ->
  (floorQ (incubation_period (runtime 0 a)) <= disease_counter (runtime 0 a))%Q ->
  fst (updateAgents [p] swc se [a] st)
  = [put_runtime 0 (set_counter (disease_counter (runtime 0 a) + 1)
                                (set_prob 1 (runtime 0 a))) a].
Proof.
  intros Hin Es Hc Hf. unfold updateAgents.
  cbn [fst map for_diseases ParallelForRNG].
  rewrite (update_body_patient p swc a _ _ Hin Es Hc Hf). reflexivity.
Qed.

Lemma treat_tile_patient g p he a :
  status (runtime 0 a) = Status.infected ->
  treat_tile g [p] he [a]
  = match treat_body p 0 (a, mkAux 1 0) (he 0%nat 0%nat) with
    | None => None
    | Some (x, _) => Some [discharge_body g 1 x]
    end.
Proof.
  intro Es. unfold treat_tile. cbn [length ParallelFor_assert].
  unfold alive_body. rewrite Es. cbn [Status.eqb Nat.sub seq forallb].
  cbn [for_diseases_assert ParallelForRNG_assert].
  destruct (treat_body p 0 (a, mkAux 1 0) (he 0%nat 0%nat)) as [[x e']|]; reflexivity.
Qed.

Lemma patient_day g p swc se he k m a st :
  0 <= k <= 2 ->
  (inject_Z (Z.of_nat (S (S m))) <= m_t_hosp_offset p)%Q ->
  in_treatment p k (S (S m)) a ->
  exists a' st',
    updateStatus g [p] swc se he [a] st = Some ([a'], st')
    /\ in_treatment p k (S m) a'.
Proof.
  intros Hk HT (Hin & Es & Ht & Hc & Hf).
  set (a1 := put_runtime 0 (set_counter (disease_counter (runtime 0 a) + 1)
                                        (set_prob 1 (runtime 0 a))) a).
  assert (Hin1 : inHospital a1 = true) by exact Hin.
  assert (Hr1 : runtime 0 a1 = set_counter (disease_counter (runtime 0 a) + 1)
                                           (set_prob 1 (runtime 0 a)))
    by apply runtime_put_same.
  assert (Htile : treat_tile g [p] he (fst (updateAgents [p] swc se [a] st))
                  = Some [discharge_body g 1
                            (put_runtime 0 (set_timer (treatment_timer (runtime 0 a1) - 1)
                                                      (runtime 0 a1)) a1, mkAux 1 0)]).
  { rewrite (updateAgents_patient p swc se a st Hin Es Hc Hf). fold a1.
    rewrite treat_tile_patient by (rewrite Hr1; exact Es).
    rewrite (treat_body_in_phase p a1 _ k m Hk HT Hin1); [reflexivity| | |].
    - rewrite Hr1. exact Es.
    - rewrite Hr1. exact Ht.
    - rewrite Hr1. cbn [disease_counter incubation_period set_counter set_prob].
      apply Qeq_bool_false. lra. }
  destruct (updateStatus_agents _ _ _ _ _ _ _ _ Htile) as [st' Hst'].
  set (a2 := put_runtime 0 (set_timer (treatment_timer (runtime 0 a1) - 1) (runtime 0 a1)) a1)
    in *.
  assert (Hr2 : runtime 0 a2 = set_timer (treatment_timer (runtime 0 a1) - 1) (runtime 0 a1))
    by apply runtime_put_same.
  assert (Ht2 : (treatment_timer (runtime 0 a2)
                 == inject_Z k * m_t_hosp_offset p + inject_Z (Z.of_nat (S m)))%Q).
  { rewrite Hr2, Hr1. cbn [treatment_timer set_timer set_counter set_prob].
    rewrite Ht, (inject_nat_S (S m)). ring. }
  assert (Hpos : (0 < treatment_timer (runtime 0 a2))%Q).
  { rewrite Ht2, inject_nat_S. pose proof (inject_nat_nonneg m) as Hm.
    rewrite !inject_nat_S in HT.
    assert (0 <= inject_Z k * m_t_hosp_offset p)%Q; [|lra].
    apply Qmult_le_0_compat; [|lra].
    change 0%Q with (inject_Z 0). rewrite <- Zle_Qle. lia. }
  assert (Hdis : discharge_body g 1 (a2, mkAux 1 0) = (a2, mkAux 1 0)).
  { unfold discharge_body. replace (inHospital a2) with true by (symmetry; exact Hin).
    cbn [negb is_alive Z.eqb seq fold_left].
    rewrite (Qeq_bool_false (0 + treatment_timer (runtime 0 a2)) 0) by lra. reflexivity. }
  rewrite Hdis in Hst'. cbn [map fst] in Hst'.
  exists (to_hospital_position g a2), st'. split; [exact Hst'|].
  unfold to_hospital_position. replace (inHospital a2) with true by (symmetry; exact Hin).
  unfold in_treatment.
  change (runtime 0 (set_pos ?x a2)) with (runtime 0 a2).
  split; [exact Hin|]. split; [rewrite Hr2, Hr1; exact Es|]. split; [exact Ht2|].
  rewrite Hr2, Hr1. cbn [disease_counter incubation_period set_timer set_counter set_prob].
  split; lra.
Qed.

Lemma patient_last_day g p swc se he k a st :
  0 <= k <= 2 ->
  (0 < m_t_hosp_offset p)%Q ->
  in_treatment p k 1 a ->
  exists a' st',
    updateStatus g [p] swc se he [a] st = Some ([a'], st')
    /\ inHospital a' = false
    /\ withdrawn a' = 0
    /\ (status (runtime 0 a') = Status.dead \/ status (runtime 0 a') = Status.immune).
Proof.
  intros Hk HT (Hin & Es & Ht & Hc & Hf).
  set (a1 := put_runtime 0 (set_counter (disease_counter (runtime 0 a) + 1)
                                        (set_prob 1 (runtime 0 a))) a).
  assert (Hin1 : inHospital a1 = true) by exact Hin.
  assert (Hr1 : runtime 0 a1 = set_counter (disease_counter (runtime 0 a) + 1)
                                           (set_prob 1 (runtime 0 a)))
    by apply runtime_put_same.
  destruct (treat_body_phase_end p a1 (he 0%nat 0%nat) k Hk HT Hin1)
    as (a2 & h2 & e2 & Hbody & Hin2 & Hout).
  { rewrite Hr1. exact Es. }
  { rewrite Hr1. cbn [treatment_timer set_counter set_prob]. rewrite Ht.
    change (inject_Z (Z.of_nat 1)) with 1%Q. reflexivity. }
  { rewrite Hr1. cbn [disease_counter incubation_period set_counter set_prob].
    apply Qeq_bool_false. lra. }
  assert (Htile : treat_tile g [p] he (fst (updateAgents [p] swc se [a] st))
                  = Some [discharge_body g 1 (a2, h2)]).
  { rewrite (updateAgents_patient p swc se a st Hin Es Hc Hf). fold a1.
    rewrite treat_tile_patient by (rewrite Hr1; exact Es).
    rewrite Hbody. reflexivity. }
  destruct (updateStatus_agents _ _ _ _ _ _ _ _ Htile) as [st' Hst'].
  cbn [map fst] in Hst'.
  exists (to_hospital_position g (fst (discharge_body g 1 (a2, h2)))), st'.
  split; [exact Hst'|].
  unfold discharge_body. rewrite Hin2. cbn [negb].
  destruct Hout as [[Hal Hs]|(Hal & Hs & Htm)]; rewrite Hal; cbn [Z.eqb Pos.eqb].
  - cbn [seq fold_left fst]. unfold to_hospital_position.
    cbn [inHospital hosp_i hosp_j set_withdrawn set_hosp Z.leb Z.compare andb].
    split; [reflexivity|]. split; [reflexivity|]. left.
    change (runtime 0 (set_withdrawn 0 (set_hosp (-1) (-1) ?y))) with (runtime 0 y).
    rewrite runtime_modify_same. reflexivity.
  - cbn [seq fold_left]. rewrite Htm.
    replace (Qeq_bool (0 + 0) 0) with true by reflexivity.
    cbn [fst]. unfold to_hospital_position.
    cbn [inHospital hosp_i hosp_j set_withdrawn set_hosp set_pos Z.leb Z.compare andb].
    split; [reflexivity|]. split; [reflexivity|]. right. exact Hs.
Qed.

Lemma hospital_stay_from g p swc se he k : forall m day a st,
  0 <= k <= 2 ->
  (inject_Z (Z.of_nat (S m)) <= m_t_hosp_offset p)%Q ->
  in_treatment p k (S m) a ->
  (forall n, (n <= m)%nat ->
             exists a' st',
               updateStatus_days g [p] swc se he n day [a] st = Some ([a'], st')
               /\ in_treatment p k (S m - n) a')
  /\ exists a' st',
       updateStatus_days g [p] swc se he (S m) day [a] st = Some ([a'], st')
       /\ inHospital a' = false
       /\ withdrawn a' = 0
       /\ (status (runtime 0 a') = Status.dead \/ status (runtime 0 a') = Status.immune).
Proof.
  induction m as [|m IH]; intros day a st Hk HT Ha.
  - split.
    + intros n Hn. assert (n = 0%nat) by lia. subst n.
      exists a, st. split; [reflexivity|exact Ha].
    + assert (HT0 : (0 < m_t_hosp_offset p)%Q).
      { change (inject_Z (Z.of_nat 1)) with 1%Q in HT. lra. }
      destruct (patient_last_day g p swc (se day) (he day) k a st Hk HT0 Ha)
        as (a' & st' & Hday & Hout).
      exists a', st'. cbn [updateStatus_days]. rewrite Hday. split; [reflexivity|exact Hout].
  - destruct (patient_day g p swc (se day) (he day) k m a st Hk HT Ha)
      as (a1 & st1 & Hday & Ha1).
    assert (HT1 : (inject_Z (Z.of_nat (S m)) <= m_t_hosp_offset p)%Q).
    { rewrite (inject_nat_S (S m)) in HT. lra. }
    destruct (IH (S day) a1 st1 Hk HT1 Ha1) as [IH1 IH2].
    split.
    + intros [|n] Hn.
      * exists a, st. split; [reflexivity|exact Ha].
      * cbn [updateStatus_days]. rewrite Hday.
        destruct (IH1 n ltac:(lia)) as (a' & st' & H1 & H2).
        exists a', st'. split; [exact H1|]. exact H2.
    + cbn [updateStatus_days]. rewrite Hday. exact IH2.
Qed.

(** X26. The length of a hospital stay. A patient of a single disease,
    alone on its tile, past the day of admission, whose treatment timer
    is k T_offset + m with k = 0, 1 or 2 (hospital, ICU, ventilator) and m
    a whole number of days with 1 <= m <= T_offset: updateStatus keeps it
    in hospital, infected, for the next m - 1 days, and on day m the phase
    ends with the outcome draw, after which the agent is out of hospital
    and not withdrawn, dead or immune. The ICU and ventilator offsets add
    no days to the stay. *)
Theorem hospital_stay_length (g : Geometry) (p : DiseaseParm)
        (symptomatic_withdraw_compliance : Q)
        (status_engines hospital_engines : nat -> nat -> nat -> RandomEngine)
        (k : Z) (m : nat) (a : Agent) (a_disease_stats : nat -> Stats) :
  0 <= k <= 2 ->
  (1 <= m)%nat ->
  (inject_Z (Z.of_nat m) <= m_t_hosp_offset p)%Q ->
  in_treatment p k m a ->
  (forall n, (n < m)%nat ->
             exists a' stats',
               updateStatus_days g [p] symptomatic_withdraw_compliance
                                 status_engines hospital_engines n 0 [a] a_disease_stats
               = Some ([a'], stats')
               /\ inHospital a' = true
               /\ status (runtime 0 a') = Status.infected)
  /\ exists a' stats',
       updateStatus_days g [p] symptomatic_withdraw_compliance
                         status_engines hospital_engines m 0 [a] a_disease_stats
       = Some ([a'], stats')
       /\ inHospital a' = false
       /\ withdrawn a' = 0
       /\ (status (runtime 0 a') = Status.dead \/ status (runtime 0 a') = Status.immune).
Proof.
  intros Hk Hm HT Ha. destruct m as [|m]; [lia|].
  destruct (hospital_stay_from g p symptomatic_withdraw_compliance status_engines
                               hospital_engines k m 0%nat a a_disease_stats Hk HT Ha)
    as [H1 H2].
  split; [|exact H2].
  intros n Hn. destruct (H1 n ltac:(lia)) as (a' & st' & Hrun & (Hin & Hs & _)).
  exists a', st'. split; [exact Hrun|]. split; [exact Hin|exact Hs].
Qed.

Lemma hospital_stay_length_witness :
  (exists a' stats',
      updateStatus_days census_geometry [default_parm] 0.95
                        (fun _ _ _ => quiet_engine) (fun _ _ _ => quiet_engine)
                        4 0 [recovering_patient] no_stats = Some ([a'], stats')
      /\ inHospital a' = true)
  /\ exists a' stats',
       updateStatus_days census_geometry [default_parm] 0.95
                         (fun _ _ _ => quiet_engine) (fun _ _ _ => quiet_engine)
                         5 0 [recovering_patient] no_stats = Some ([a'], stats')
       /\ inHospital a' = false.
Proof.
  assert (Ha : in_treatment default_parm 0 5 recovering_patient).
  { unfold in_treatment. repeat apply conj; try reflexivity; vm_compute; discriminate. }
  destruct (hospital_stay_length census_geometry default_parm 0.95
              (fun _ _ _ => quiet_engine) (fun _ _ _ => quiet_engine)
              0 5 recovering_patient no_stats ltac:(lia) ltac:(lia)
              ltac:(vm_compute; discriminate) Ha) as [H1 H2].
  split.
  - destruct (H1 4%nat ltac:(lia)) as (a' & st' & Hrun & Hin & _).
    exists a', st'. split; [exact Hrun|exact Hin].
  - destruct H2 as (a' & st' & Hrun & Hin & _).
    exists a', st'. split; [exact Hrun|exact Hin].
Defined.

(** ** The length of immunity *)

(** An agent outside hospital, immune to the single disease, whose
    counter allows [m] more days of immunity. *)
Definition in_immunity (m : nat) (a : Agent) : Prop :=
  inHospital a = false
  /\ status (runtime 0 a) = Status.immune
  /\ (inject_Z (Z.of_nat m) <= disease_counter (runtime 0 a))%Q
  /\ (disease_counter (runtime 0 a) < inject_Z (Z.of_nat m) + 1)%Q.

Lemma treat_tile_outpatient g p he a :
  inHospital a = false ->
  status (runtime 0 a) <> Status.dead ->
  treat_tile g [p] he [a] = Some [(a, mkAux 1 0)].
Proof.
  intros Hin Hs. unfold treat_tile. cbn [length ParallelFor_assert].
  unfold alive_body.
  replace (Status.eqb (status (runtime 0 a)) Status.dead) with false
    by (symmetry; destruct (status (runtime 0 a)); try reflexivity; congruence).
  cbn [Nat.sub seq forallb for_diseases_assert ParallelForRNG_assert].
  unfold treat_body. rewrite Hin. cbn [negb map].
  unfold discharge_body. rewrite Hin. reflexivity.
Qed.

Lemma immune_day g p swc se he a st :
  inHospital a = false ->
  status (runtime 0 a) = Status.immune ->
  exists st',
    updateStatus g [p] swc se he [a] st
    = Some ([if Qltb (disease_counter (runtime 0 a) - 1) 0
             then put_runtime 0 (set_status Status.susceptible
                                   (set_timer 0 (set_counter 0
                                      (set_counter (disease_counter (runtime 0 a) - 1)
                                                   (set_prob 1 (runtime 0 a)))))) a
             else put_runtime 0 (set_counter (disease_counter (runtime 0 a) - 1)
                                             (set_prob 1 (runtime 0 a))) a], st').
Proof.
  intros Hin Es.
  assert (Hup : fst (updateAgents [p] swc se [a] st)
                = [if Qltb (disease_counter (runtime 0 a) - 1) 0
                   then put_runtime 0 (set_status Status.susceptible
                                         (set_timer 0 (set_counter 0
                                            (set_counter (disease_counter (runtime 0 a) - 1)
                                                         (set_prob 1 (runtime 0 a)))))) a
                   else put_runtime 0 (set_counter (disease_counter (runtime 0 a) - 1)
                                                   (set_prob 1 (runtime 0 a))) a]).
  { unfold updateAgents. cbn [fst map for_diseases ParallelForRNG].
    unfold update_body. cbn [status set_prob]. rewrite Es.
    cbn [disease_counter set_counter set_prob].
    destruct (Qltb (disease_counter (runtime 0 a) - 1) 0); reflexivity. }
  set (a1 := if Qltb _ _ then _ else _) in *.
  assert (Hin1 : inHospital a1 = false).
  { unfold a1. destruct (Qltb _ _); exact Hin. }
  assert (Hs1 : status (runtime 0 a1) <> Status.dead).
  { unfold a1. destruct (Qltb _ _); rewrite runtime_put_same; cbn [status set_status
      set_timer set_counter set_prob]; rewrite ?Es; discriminate. }
  destruct (updateStatus_agents g [p] swc se he [a] st [(a1, mkAux 1 0)]) as [st' Hst'].
  { rewrite Hup. now apply treat_tile_outpatient. }
  exists st'. rewrite Hst'. cbn [map fst]. unfold to_hospital_position. rewrite Hin1.
  reflexivity.
Qed.

Lemma immunity_from g p swc se he : forall m day a st,
  in_immunity m a ->
  (forall n, (n <= m)%nat ->
             exists a' st',
               updateStatus_days g [p] swc se he n day [a] st = Some ([a'], st')
               /\ in_immunity (m - n) a')
  /\ exists a' st',
       updateStatus_days g [p] swc se he (S m) day [a] st = Some ([a'], st')
       /\ status (runtime 0 a') = Status.susceptible
       /\ disease_counter (runtime 0 a') = 0%Q
       /\ treatment_timer (runtime 0 a') = 0%Q.
Proof.
  induction m as [|m IH]; intros day a st (Hin & Es & Hlo & Hhi).
  - split.
    + intros n Hn. assert (n = 0%nat) by lia. subst n.
      exists a, st. split; [reflexivity|]. repeat split; assumption.
    + destruct (immune_day g p swc (se day) (he day) a st Hin Es) as [st' Hday].
      change (inject_Z (Z.of_nat 0)) with 0%Q in Hhi.
      replace (Qltb (disease_counter (runtime 0 a) - 1) 0) with true in Hday
        by (symmetry; apply Qltb_lt; lra).
      eexists _, st'. cbn [updateStatus_days]. rewrite Hday.
      split; [reflexivity|]. rewrite runtime_put_same. repeat split.
  - destruct (immune_day g p swc (se day) (he day) a st Hin Es) as [st1 Hday].
    rewrite inject_nat_S in Hlo, Hhi. pose proof (inject_nat_nonneg m) as Hm.
    replace (Qltb (disease_counter (runtime 0 a) - 1) 0) with false in Hday
      by (symmetry; apply Qltb_ge; lra).
    set (a1 := put_runtime 0 (set_counter (disease_counter (runtime 0 a) - 1)
                                          (set_prob 1 (runtime 0 a))) a) in *.
    assert (Ha1 : in_immunity m a1).
    { unfold in_immunity, a1. rewrite runtime_put_same.
      cbn [status disease_counter set_counter set_prob].
      split; [exact Hin|]. split; [exact Es|]. split; lra. }
    destruct (IH (S day) a1 st1 Ha1) as [IH1 IH2].
    split.
    + intros [|n] Hn.
      * exists a, st. split; [reflexivity|].
        unfold in_immunity. rewrite Nat.sub_0_r, inject_nat_S.
        split; [exact Hin|]. split; [exact Es|]. split; lra.
      * cbn [updateStatus_days]. rewrite Hday.
        destruct (IH1 n ltac:(lia)) as (a' & st' & H1 & H2).
        exists a', st'. split; [exact H1|exact H2].
    + cbn [updateStatus_days]. rewrite Hday. exact IH2.
Qed.

(** X27. The length of immunity. An agent outside hospital, alone on its
    tile, immune to the single disease with a counter c, m <= c < m + 1
    for a whole number m: updateStatus leaves it immune for the next m
    days and makes it susceptible, with counter and treatment timer 0, on
    day m + 1 (the first day on which the decremented counter is
    negative). *)
Theorem immunity_length (g : Geometry) (p : DiseaseParm)
        (symptomatic_withdraw_compliance : Q)
        (status_engines hospital_engines : nat -> nat -> nat -> RandomEngine)
        (m : nat) (a : Agent) (a_disease_stats : nat -> Stats) :
  in_immunity m a ->
  (forall n, (n <= m)%nat ->
             exists a' stats',
               updateStatus_days g [p] symptomatic_withdraw_compliance
                                 status_engines hospital_engines n 0 [a] a_disease_stats
               = Some ([a'], stats')
               /\ status (runtime 0 a') = Status.immune)
  /\ exists a' stats',
       updateStatus_days g [p] symptomatic_withdraw_compliance
                         status_engines hospital_engines (S m) 0 [a] a_disease_stats
       = Some ([a'], stats')
       /\ status (runtime 0 a') = Status.susceptible
       /\ disease_counter (runtime 0 a') = 0%Q
       /\ treatment_timer (runtime 0 a') = 0%Q.
Proof.
  intro Ha.
  destruct (immunity_from g p symptomatic_withdraw_compliance status_engines hospital_engines
                          m 0%nat a a_disease_stats Ha) as [H1 H2].
  split; [|exact H2].
  intros n Hn. destruct (H1 n Hn) as (a' & st' & Hrun & (_ & Hs & _)).
  exists a', st'. split; [exact Hrun|exact Hs].
Qed.

(** An agent with two and a half days of immunity left. *)
Definition immune_agent : Agent :=
  at_home AgeGroups.a30to49 0 0
          (mkAttribs Status.immune SymptomStatus.presymptomatic 0 2.5 1 3 5 4).

Lemma immunity_length_witness :
  (exists a' stats',
      updateStatus_days census_geometry [default_parm] 0.95
                        (fun _ _ _ => quiet_engine) (fun _ _ _ => quiet_engine)
                        2 0 [immune_agent] no_stats = Some ([a'], stats')
      /\ status (runtime 0 a') = Status.immune)
  /\ exists a' stats',
       updateStatus_days census_geometry [default_parm] 0.95
                         (fun _ _ _ => quiet_engine) (fun _ _ _ => quiet_engine)
                         3 0 [immune_agent] no_stats = Some ([a'], stats')
       /\ status (runtime 0 a') = Status.susceptible.
Proof.
  assert (Ha : in_immunity 2 immune_agent).
  { unfold in_immunity. repeat apply conj; try reflexivity; vm_compute; try discriminate;
      reflexivity. }
  destruct (immunity_length census_geometry default_parm 0.95
              (fun _ _ _ => quiet_engine) (fun _ _ _ => quiet_engine)
              2 immune_agent no_stats Ha) as [H1 H2].
  split.
  - destruct (H1 2%nat ltac:(lia)) as (a' & st' & Hrun & Hs).
    exists a', st'. split; [exact Hrun|exact Hs].
  - destruct H2 as (a' & st' & Hrun & Hs & _).
    exists a', st'. split; [exact Hrun|exact Hs].
Defined.

(** ** Educators and students *)

Lemma getSchoolType_range grade : 0 <= grade -> 1 <= getSchoolType grade <= 5.
Proof.
  intro H. unfold getSchoolType, SchoolType.daycare, SchoolType.elem, SchoolType.middle,
             SchoolType.high, SchoolType.college, SchoolType.none.
  repeat match goal with
         | |- context [?a =? ?b] => destruct (Z.eqb_spec a b)
         | |- context [?a <=? ?b] => destruct (Z.leb_spec a b)
         end; cbn [andb orb]; lia.
Qed.

Lemma ParticleReduce_sum_total (body : Agent -> option (list Z)) agents : forall acc,
  (forall a, In a agents -> exists v, body a = Some v) ->
  exists r, ParticleReduce_sum body agents acc = Some r.
Proof.
  induction agents as [|a l IH]; intros acc H; simpl; [eexists; reflexivity|].
  destruct (H a (or_introl eq_refl)) as [v ->]. apply IH. intros; apply H; now right.
Qed.

Lemma ParticleReduce_sum_additive (body : Agent -> option (list Z)) (n : nat)
      (F : list Z -> Z) (flag : Agent -> Z) agents : forall acc r,
  (forall u v, length u = n -> length v = n -> F (ReduceOpSum u v) = F u + F v) ->
  (forall a v, In a agents -> body a = Some v -> length v = n /\ F v = flag a) ->
  length acc = n ->
  ParticleReduce_sum body agents acc = Some r ->
  F r = F acc + fold_right (fun a s => flag a + s) 0 agents.
Proof.
  induction agents as [|a l IH]; intros acc r HF Hb Hacc H; simpl in H.
  - inversion H; subst. simpl. lia.
  - destruct (body a) as [v|] eqn:E; [|discriminate].
    destruct (Hb a v (or_introl eq_refl) E) as [Hv Hflag].
    rewrite (IH (ReduceOpSum acc v) r HF); [| |rewrite ReduceOpSum_length; congruence|exact H].
    + rewrite HF by assumption. simpl. lia.
    + intros; apply Hb; [now right|assumption].
Qed.

Lemma student_teacher_body_flags a v :
  (0 < school_id a -> 0 <= school_grade a) ->
  student_teacher_body a = Some v ->
  length v = 10%nat
  /\ (forall t, (t < 5)%nat ->
       component v t
       = (if (school_id a >? 0) && (workgroup a >? 0)
             && (getSchoolType (school_grade a) =? Z.of_nat t + 1) then 1 else 0)
       /\ component v (t + 5)
          = (if (school_id a >? 0) && negb (workgroup a >? 0)
                && (getSchoolType (school_grade a) =? Z.of_nat t + 1) then 1 else 0))
  /\ total_educators v = (if (school_id a >? 0) && (workgroup a >? 0) then 1 else 0)
  /\ total_students v = (if (school_id a >? 0) && negb (workgroup a >? 0) then 1 else 0).
Proof.
  intros Hg. unfold student_teacher_body.
  destruct (Z.gtb_spec (school_id a) 0) as [Hs|Hs]; cbn [andb].
  2:{ intro H; inversion H; subst. split; [reflexivity|]. split; [|split; reflexivity].
      intros t Ht. do 5 (destruct t as [|t]; [split; reflexivity|]). lia. }
  pose proof (getSchoolType_range _ (Hg Hs)) as Hty.
  assert (Hcase : getSchoolType (school_grade a) = 1 \/ getSchoolType (school_grade a) = 2
                  \/ getSchoolType (school_grade a) = 3 \/ getSchoolType (school_grade a) = 4
                  \/ getSchoolType (school_grade a) = 5) by lia.
  unfold SchoolType.college.
  destruct (workgroup a >? 0); cbn [negb andb];
    destruct Hcase as [E|[E|[E|[E|E]]]]; rewrite E; cbn;
    intro H; inversion H; subst;
    (split; [reflexivity|]); (split; [|split; reflexivity]);
    intros t Ht; do 5 (destruct t as [|t]; [split; reflexivity|]); lia.
Qed.

Lemma total_educators_sum u v :
  length u = length v ->
  total_educators (ReduceOpSum u v) = total_educators u + total_educators v.
Proof.
  intro H. unfold total_educators. cbn [seq fold_left].
  change (nth ?i ?l 0) with (component l i).
  rewrite !ReduceOpSum_component by exact H. lia.
Qed.

Lemma total_students_sum u v :
  length u = length v ->
  total_students (ReduceOpSum u v) = total_students u + total_students v.
Proof.
  intro H. unfold total_students. cbn [seq fold_left Nat.add].
  change (nth ?i ?l 0) with (component l i).
  rewrite !ReduceOpSum_component by exact H. lia.
Qed.

(** X28. printStudentTeacherCounts on a tile where every agent with a
    school has a non-negative grade: the reduction is defined (every store
    is in bounds), an agent with a school counts as educator when its
    workgroup is positive and as student otherwise, component t - 1 is the
    number of educators and component t + 4 the number of students at
    school type t (1 college, 2 high, 3 middle, 4 elementary, 5 day care),
    and the two totals are the numbers of educators and of students. *)
Theorem studentTeacherCounts_spec (agents : list Agent) :
  (forall a, In a agents -> 0 < school_id a -> 0 <= school_grade a) ->
  exists counts,
    studentTeacherCounts agents = Some counts
    /\ (forall t, (t < 5)%nat ->
          component counts t
          = count_if (fun a => (school_id a >? 0) && (workgroup a >? 0)
                               && (getSchoolType (school_grade a) =? Z.of_nat t + 1)) agents
          /\ component counts (t + 5)
             = count_if (fun a => (school_id a >? 0) && negb (workgroup a >? 0)
                                  && (getSchoolType (school_grade a) =? Z.of_nat t + 1))
                        agents)
    /\ total_educators counts
       = count_if (fun a => (school_id a >? 0) && (workgroup a >? 0)) agents
    /\ total_students counts
       = count_if (fun a => (school_id a >? 0) && negb (workgroup a >? 0)) agents.
Proof.
  intro Hg. unfold studentTeacherCounts.
  set (zero := [0; 0; 0; 0; 0; 0; 0; 0; 0; 0]).
  destruct (ParticleReduce_sum_total student_teacher_body agents zero) as [r Hr].
  { intros a Ha. unfold student_teacher_body.
    destruct (Z.gtb_spec (school_id a) 0) as [Hs|Hs]; [|eexists; reflexivity].
    pose proof (getSchoolType_range _ (Hg a Ha Hs)) as Hty. unfold SchoolType.college.
    replace ((0 <=? (if workgroup a >? 0 then 0 else 5) + getSchoolType (school_grade a) - 1)
             && ((if workgroup a >? 0 then 0 else 5) + getSchoolType (school_grade a) - 1
                 <? 10)) with true; [eexists; reflexivity|].
    symmetry. apply andb_true_iff. split; [apply Z.leb_le|apply Z.ltb_lt];
      destruct (workgroup a >? 0); lia. }
  exists r. split; [exact Hr|].
  assert (Hflags : forall a v, In a agents -> student_teacher_body a = Some v ->
                               _ /\ _ /\ _ /\ _)
    by (intros a v Ha Hv; exact (student_teacher_body_flags a v (Hg a Ha) Hv)).
  split; [|split].
  - intros t Ht. split.
    + rewrite (ParticleReduce_sum_additive student_teacher_body 10
                 (fun v => component v t)
                 (fun a => if (school_id a >? 0) && (workgroup a >? 0)
                              && (getSchoolType (school_grade a) =? Z.of_nat t + 1)
                           then 1 else 0) agents zero r); try reflexivity; try exact Hr.
      * rewrite (sum_flags_count _ (fun a => (school_id a >? 0) && (workgroup a >? 0)
                                     && (getSchoolType (school_grade a) =? Z.of_nat t + 1)));
          [|reflexivity].
        unfold zero. do 5 (destruct t as [|t]; [reflexivity|]). lia.
      * intros u v Hu Hv. apply ReduceOpSum_component. congruence.
      * intros a v Ha Hv. destruct (Hflags a v Ha Hv) as (Hl & Hc & _).
        split; [exact Hl|]. exact (proj1 (Hc t Ht)).
    + rewrite (ParticleReduce_sum_additive student_teacher_body 10
                 (fun v => component v (t + 5))
                 (fun a => if (school_id a >? 0) && negb (workgroup a >? 0)
                              && (getSchoolType (school_grade a) =? Z.of_nat t + 1)
                           then 1 else 0) agents zero r); try reflexivity; try exact Hr.
      * rewrite (sum_flags_count _ (fun a => (school_id a >? 0) && negb (workgroup a >? 0)
                                     && (getSchoolType (school_grade a) =? Z.of_nat t + 1)));
          [|reflexivity].
        unfold zero. do 5 (destruct t as [|t]; [reflexivity|]). lia.
      * intros u v Hu Hv. apply ReduceOpSum_component. congruence.
      * intros a v Ha Hv. destruct (Hflags a v Ha Hv) as (Hl & Hc & _).
        split; [exact Hl|]. exact (proj2 (Hc t Ht)).
  - rewrite (ParticleReduce_sum_additive student_teacher_body 10 total_educators
               (fun a => if (school_id a >? 0) && (workgroup a >? 0) then 1 else 0)
               agents zero r); try reflexivity; try exact Hr.
    + rewrite (sum_flags_count _ (fun a => (school_id a >? 0) && (workgroup a >? 0)));
        reflexivity.
    + intros u v Hu Hv. apply total_educators_sum. congruence.
    + intros a v Ha Hv. destruct (Hflags a v Ha Hv) as (Hl & _ & He & _).
      split; [exact Hl|exact He].
  - rewrite (ParticleReduce_sum_additive student_teacher_body 10 total_students
               (fun a => if (school_id a >? 0) && negb (workgroup a >? 0) then 1 else 0)
               agents zero r); try reflexivity; try exact Hr.
    + rewrite (sum_flags_count _ (fun a => (school_id a >? 0) && negb (workgroup a >? 0)));
        reflexivity.
    + intros u v Hu Hv. apply total_students_sum. congruence.
    + intros a v Ha Hv. destruct (Hflags a v Ha Hv) as (Hl & _ & _ & Hst).
      split; [exact Hl|exact Hst].
Qed.

Lemma studentTeacherCounts_spec_witness :
  exists counts,
    studentTeacherCounts school_class = Some counts
    /\ total_students counts = 3.
Proof.
  destruct (studentTeacherCounts_spec school_class) as (counts & Hc & _ & _ & Hs).
  - intros a Ha _. simpl in Ha. destruct Ha as [<-|[<-|[<-|[]]]]; simpl; lia.
  - exists counts. split; [exact Hc|]. rewrite Hs. reflexivity.
Defined.
